(** * rtsl: the scheduling-latency parser of kernel/trace/trace_preemptirq.c

    A shallow embedding of the per-CPU window state machine (POID, PAIE,
    PSD, DST, IRQ, NMI), of its tracepoint handlers, and of the
    enable/disable life cycle with its debugfs control file.

    Conventions.
    - A [u64] is a [Z] kept in the range [0, 2^64) by [u64]; the C
      subtraction and [+=] on [u64] wrap, and so do the ones below.  An
      [s64 duration] is carried as its 64-bit pattern: the source only
      converts it back to [u64] (in [+=], in the comparisons against a [u64]
      maximum, and in the trace records); the signed test [duration < 0]
      exists under RTSL_DEBUG only and dumps a stack.
    - [int] flags ([irq_entry], [to_schedule], [was_psd], [registered]) are
      [Z], true when non-zero, as in C.
    - A handler runs to completion before the next event of its CPU is
      handled.  Hence the two reads of [int_counter] that bracket a clock
      read in [get_int_safe_duration] and [set_int_safe_delta_start] see the
      same value, and the body of their [do ... while] runs once. *)

From Stdlib Require Import ZArith List Bool String Ascii Lia Sorted.
Import ListNotations.
Open Scope Z_scope.

Definition u64 (x : Z) : Z := x mod 2 ^ 64.

(** ** The per-CPU variables *)

(** [struct poid]: preemption or IRQ disabled. *)
Module poid.
Record t := mk { pd : bool; id : bool; delta_start : Z; max : Z }.
Definition zero : t := mk false false 0 0.
Definition set_pd (b : bool) (p : t) : t := mk b (id p) (delta_start p) (max p).
Definition set_id (b : bool) (p : t) : t := mk (pd p) b (delta_start p) (max p).
Definition set_delta_start (x : Z) (p : t) : t := mk (pd p) (id p) x (max p).
Definition set_max (x : Z) (p : t) : t := mk (pd p) (id p) (delta_start p) x.
End poid.

(** [struct paie]: preemption and IRQ enabled, ready to schedule. *)
Module paie.
Record t := mk { delta_start : Z; max : Z }.
Definition zero : t := mk 0 0.
Definition set_delta_start (x : Z) (p : t) : t := mk x (max p).
Definition set_max (x : Z) (p : t) : t := mk (delta_start p) x.
End paie.

(** [struct psd]: preemption disabled to schedule. *)
Module psd.
Record t := mk { delta_start : Z; max : Z }.
Definition zero : t := mk 0 0.
Definition set_delta_start (x : Z) (p : t) : t := mk x (max p).
Definition set_max (x : Z) (p : t) : t := mk (delta_start p) x.
End psd.

(** [struct dst]: the sched tail delay. *)
Module dst.
Record t := mk { pid : Z; delta_start : Z; max : Z }.
Definition zero : t := mk 0 0 0.
Definition set_pid (x : Z) (d : t) : t := mk x (delta_start d) (max d).
Definition set_delta_start (x : Z) (d : t) : t := mk (pid d) x (max d).
Definition set_max (x : Z) (d : t) : t := mk (pid d) (delta_start d) x.
End dst.

(** [struct irq]. *)
Module irq.
Record t := mk { arrival_time : Z; delta_start : Z; was_psd : Z; vector : Z }.
Definition zero : t := mk 0 0 0 0.
Definition set_arrival_time (x : Z) (i : t) : t :=
  mk x (delta_start i) (was_psd i) (vector i).
Definition set_delta_start (x : Z) (i : t) : t :=
  mk (arrival_time i) x (was_psd i) (vector i).
Definition set_was_psd (x : Z) (i : t) : t :=
  mk (arrival_time i) (delta_start i) x (vector i).
Definition set_vector (x : Z) (i : t) : t :=
  mk (arrival_time i) (delta_start i) (was_psd i) x.
End irq.

(** [struct nmi]. *)
Module nmi.
Record t := mk { delta_start : Z }.
Definition zero : t := mk 0.
End nmi.

(** [struct rtsl_variables]: the variables of a given CPU. *)
Module rtsl_variables.
Record t := mk {
  int_counter : Z;
  poid : poid.t;
  paie : paie.t;
  psd : psd.t;
  dst : dst.t;
  irq : irq.t;
  nmi : nmi.t;
  running : bool
}.
Definition set_int_counter (x : Z) (v : t) : t :=
  mk x (poid v) (paie v) (psd v) (dst v) (irq v) (nmi v) (running v).
Definition set_poid (x : poid.t) (v : t) : t :=
  mk (int_counter v) x (paie v) (psd v) (dst v) (irq v) (nmi v) (running v).
Definition set_paie (x : paie.t) (v : t) : t :=
  mk (int_counter v) (poid v) x (psd v) (dst v) (irq v) (nmi v) (running v).
Definition set_psd (x : psd.t) (v : t) : t :=
  mk (int_counter v) (poid v) (paie v) x (dst v) (irq v) (nmi v) (running v).
Definition set_dst (x : dst.t) (v : t) : t :=
  mk (int_counter v) (poid v) (paie v) (psd v) x (irq v) (nmi v) (running v).
Definition set_irq (x : irq.t) (v : t) : t :=
  mk (int_counter v) (poid v) (paie v) (psd v) (dst v) x (nmi v) (running v).
Definition set_nmi (x : nmi.t) (v : t) : t :=
  mk (int_counter v) (poid v) (paie v) (psd v) (dst v) (irq v) x (running v).
Definition set_running (b : bool) (v : t) : t :=
  mk (int_counter v) (poid v) (paie v) (psd v) (dst v) (irq v) (nmi v) b.
End rtsl_variables.

Definition rtsl_var : Type := rtsl_variables.t.

(** [rtsl_var_reset]: the [memset] of the structure to 0. *)
Definition rtsl_var_reset : rtsl_var :=
  rtsl_variables.mk 0 poid.zero paie.zero psd.zero dst.zero irq.zero nmi.zero
    false.

(** The [u64 *delta_start] handed to [get_int_safe_duration] and to
    [set_int_safe_delta_start] points into one of five structures. *)
Inductive window := W_poid | W_paie | W_psd | W_dst | W_irq.

Definition delta_start (w : window) (v : rtsl_var) : Z :=
  match w with
  | W_poid => poid.delta_start (rtsl_variables.poid v)
  | W_paie => paie.delta_start (rtsl_variables.paie v)
  | W_psd => psd.delta_start (rtsl_variables.psd v)
  | W_dst => dst.delta_start (rtsl_variables.dst v)
  | W_irq => irq.delta_start (rtsl_variables.irq v)
  end.

Definition set_delta_start (w : window) (x : Z) (v : rtsl_var) : rtsl_var :=
  match w with
  | W_poid =>
      rtsl_variables.set_poid (poid.set_delta_start x (rtsl_variables.poid v)) v
  | W_paie =>
      rtsl_variables.set_paie (paie.set_delta_start x (rtsl_variables.paie v)) v
  | W_psd =>
      rtsl_variables.set_psd (psd.set_delta_start x (rtsl_variables.psd v)) v
  | W_dst =>
      rtsl_variables.set_dst (dst.set_delta_start x (rtsl_variables.dst v)) v
  | W_irq =>
      rtsl_variables.set_irq (irq.set_delta_start x (rtsl_variables.irq v)) v
  end.

(** [delta_start += duration], on a [u64]. *)
Definition add_delta_start (w : window) (duration : Z) (v : rtsl_var) : rtsl_var :=
  set_delta_start w (u64 (delta_start w v + duration)) v.

(** The [are_poid], [is_paie], [is_psd], [is_irq] and [is_dst] macros: a
    window is being measured when its [delta_start] is not 0. *)
Definition is_open (w : window) (v : rtsl_var) : bool :=
  negb (delta_start w v =? 0).

(** ** Trace records (trace/events/rtsl.h) *)

Inductive record :=
| trace_poid (duration : Z)
| trace_max_poid (duration : Z)
| trace_paie (duration : Z)
| trace_max_paie (duration : Z)
| trace_psd (duration : Z)
| trace_max_psd (duration : Z)
| trace_dst (duration : Z)
| trace_max_dst (duration : Z)
| trace_irq_execution (vector arrival_time duration : Z)
| trace_nmi_execution (start duration : Z).

(** ** What a handler reads from the kernel *)

(** [trace_clock_local k] is the value of the [k]-th call of [get_clock()]
    made by the running handler (counted from 0);
    [atomic_read_global_rtsl_enable] is what [atomic_read] finds in
    [global_rtsl_enable] when the handler asks [rtsl_enabled()]. *)
Record host := {
  trace_clock_local : nat -> Z;
  current_pid : Z;
  tif_need_resched_now : bool;
  irqs_disabled : bool;
  atomic_read_global_rtsl_enable : Z
}.

(** ** A handler is a computation over the CPU's variables *)

Record cpu := {
  var : rtsl_var;
  reads : nat;
  sink : list record
}.

Definition M (A : Type) : Type := host -> cpu -> A * cpu.

Definition ret {A} (a : A) : M A := fun _ c => (a, c).

Definition bind {A B} (m : M A) (k : A -> M B) : M B :=
  fun h c => let (a, c') := m h c in k a h c'.

Notation "x <- m ;; k" := (bind m (fun x => k))
  (at level 61, m at next level, right associativity).
Notation "m ;; k" := (bind m (fun _ => k))
  (at level 61, right associativity).

Definition ask {A} (f : host -> A) : M A := fun h c => (f h, c).

Definition load {A} (f : rtsl_var -> A) : M A := fun _ c => (f (var c), c).

Definition store (f : rtsl_var -> rtsl_var) : M unit :=
  fun _ c => (tt, {| var := f (var c); reads := reads c; sink := sink c |}).

Definition emit (r : record) : M unit :=
  fun _ c => (tt, {| var := var c; reads := reads c; sink := sink c ++ [r] |}).

Definition get_clock : M Z :=
  fun h c => (u64 (trace_clock_local h (reads c)),
              {| var := var c; reads := S (reads c); sink := sink c |}).

Definition rtsl_running : M bool := load rtsl_variables.running.

Definition rtsl_enabled : M bool :=
  ask (fun h => negb (atomic_read_global_rtsl_enable h =? 0)).

Definition rtsl_start : M unit := store (rtsl_variables.set_running true).

Definition local_inc_int_counter : M unit :=
  store (fun v =>
    rtsl_variables.set_int_counter (u64 (rtsl_variables.int_counter v + 1)) v).

Definition upd_poid (f : poid.t -> poid.t) : M unit :=
  store (fun v => rtsl_variables.set_poid (f (rtsl_variables.poid v)) v).
Definition upd_paie (f : paie.t -> paie.t) : M unit :=
  store (fun v => rtsl_variables.set_paie (f (rtsl_variables.paie v)) v).
Definition upd_psd (f : psd.t -> psd.t) : M unit :=
  store (fun v => rtsl_variables.set_psd (f (rtsl_variables.psd v)) v).
Definition upd_dst (f : dst.t -> dst.t) : M unit :=
  store (fun v => rtsl_variables.set_dst (f (rtsl_variables.dst v)) v).
Definition upd_irq (f : irq.t -> irq.t) : M unit :=
  store (fun v => rtsl_variables.set_irq (f (rtsl_variables.irq v)) v).

(** [rtsl_initialized]: after enabling the interface, each CPU waits for
    the initial condition before it starts tracking its own states. *)
Definition rtsl_initialized : M bool :=
  r <- rtsl_running ;;
  if negb r then
    e <- rtsl_enabled ;;
    if negb e then ret false else
    d <- ask irqs_disabled ;;
    if d then ret false else
    rtsl_start ;;
    ret true
  else ret true.

(** [get_int_safe_duration]: get the duration of a window.  The
    [do ... while (int_counter != local_read(&rtsl_var->int_counter))] of
    the source reads the clock and computes [now - *delta_start] once here:
    no interrupt handler runs inside this one, so the counter read after
    the clock is the one read before it.  Then [*delta_start = 0]. *)
Definition get_int_safe_duration (w : window) : M Z :=
  now <- get_clock ;;
  start <- load (delta_start w) ;;
  store (set_delta_start w 0) ;;
  ret (u64 (now - start)).

(** [set_int_safe_delta_start]: [*delta_start = get_clock()], under the
    same [do ... while] on [int_counter], which runs once. *)
Definition set_int_safe_delta_start (w : window) : M unit :=
  now <- get_clock ;;
  store (set_delta_start w now).

(** [poid_duration]: preemption or IRQ disabled by a thread. *)
Definition poid_duration : M unit :=
  o <- load (is_open W_poid) ;;
  if negb o then ret tt else
  duration <- get_int_safe_duration W_poid ;;
  pid <- ask current_pid ;;
  if pid =? 0 then ret tt else
  emit (trace_poid duration) ;;
  max <- load (fun v => poid.max (rtsl_variables.poid v)) ;;
  if duration <? max then ret tt else
  emit (trace_max_poid duration) ;;
  upd_poid (poid.set_max duration).

(** [irq_occurence]: account and trace the IRQ, and discount its
    interference. *)
Definition irq_occurence : M unit :=
  duration <- get_int_safe_duration W_irq ;;
  vector <- load (fun v => irq.vector (rtsl_variables.irq v)) ;;
  arrival <- load (fun v => irq.arrival_time (rtsl_variables.irq v)) ;;
  emit (trace_irq_execution vector arrival duration) ;;
  o_poid <- load (is_open W_poid) ;;
  (if o_poid then store (add_delta_start W_poid duration) else ret tt) ;;
  o_dst <- load (is_open W_dst) ;;
  (if o_dst then store (add_delta_start W_dst duration) else ret tt) ;;
  o_paie <- load (is_open W_paie) ;;
  (if o_paie then store (add_delta_start W_paie duration) else ret tt) ;;
  was_psd <- load (fun v => irq.was_psd (rtsl_variables.irq v)) ;;
  (if negb (was_psd =? 0) then store (add_delta_start W_psd duration)
   else ret tt) ;;
  upd_irq (irq.set_vector 0) ;;
  upd_irq (irq.set_was_psd 0).

(** [handle_irq_disable_normal]: IRQ disabled by a thread. *)
Definition handle_irq_disable_normal : M unit :=
  o_psd <- load (is_open W_psd) ;;
  (if o_psd then
     dpid <- load (fun v => dst.pid (rtsl_variables.dst v)) ;;
     pid <- ask current_pid ;;
     if dpid =? pid then set_int_safe_delta_start W_dst else ret tt
   else ret tt) ;;
  upd_poid (poid.set_id true) ;;
  o_poid <- load (is_open W_poid) ;;
  if o_poid then ret tt else
  set_int_safe_delta_start W_poid.

(** [handle_irq_disable_irq]: IRQ disabled by the entry point of an IRQ. *)
Definition handle_irq_disable_irq : M unit :=
  o_psd <- load (is_open W_psd) ;;
  (if o_psd then upd_irq (irq.set_was_psd 1) else ret tt) ;;
  now <- get_clock ;;
  upd_irq (irq.set_arrival_time now) ;;
  set_int_safe_delta_start W_irq.

Definition handle_irq_disable (irq_entry : Z) : M unit :=
  r <- rtsl_running ;;
  if negb r then ret tt else
  if negb (irq_entry =? 0) then handle_irq_disable_irq
  else handle_irq_disable_normal.

(** [handle_irq_enable_irq]: enable IRQs after the end of an IRQ handling. *)
Definition handle_irq_enable_irq : M unit :=
  r <- rtsl_running ;;
  if negb r then ret tt else
  irq_occurence.

(** [handle_irq_enable_normal]: the IRQ enabled by a thread. *)
Definition handle_irq_enable_normal : M unit :=
  r <- rtsl_running ;;
  if negb r then ret tt else
  upd_poid (poid.set_id false) ;;
  is_pd <- load (fun v => poid.pd (rtsl_variables.poid v)) ;;
  o_psd <- load (is_open W_psd) ;;
  if is_pd || o_psd then ret tt else
  poid_duration ;;
  nr <- ask tif_need_resched_now ;;
  if nr then set_int_safe_delta_start W_paie else ret tt.

Definition handle_irq_enable (irq_exit : Z) : M unit :=
  r <- rtsl_running ;;
  if negb r then ret tt else
  if negb (irq_exit =? 0) then handle_irq_enable_irq
  else handle_irq_enable_normal.

(** [handle_preempt_disable_nosched]: the regular preempt disable, that
    contributes to the POID. *)
Definition handle_preempt_disable_nosched : M unit :=
  r <- rtsl_running ;;
  if negb r then ret tt else
  o_irq <- load (is_open W_irq) ;;
  if o_irq then ret tt else
  upd_poid (poid.set_pd true) ;;
  is_id <- load (fun v => poid.id (rtsl_variables.poid v)) ;;
  if is_id then ret tt else
  set_int_safe_delta_start W_poid.

(** [handle_preempt_enable_nosched]: the regular preempt enable. *)
Definition handle_preempt_enable_nosched : M unit :=
  r <- rtsl_running ;;
  if negb r then ret tt else
  o_irq <- load (is_open W_irq) ;;
  if o_irq then ret tt else
  upd_poid (poid.set_pd false) ;;
  is_id <- load (fun v => poid.id (rtsl_variables.poid v)) ;;
  if is_id then ret tt else
  poid_duration ;;
  nr <- ask tif_need_resched_now ;;
  if nr then set_int_safe_delta_start W_paie else ret tt.

(** [paie_duration]: compute the paie duration. *)
Definition paie_duration : M unit :=
  o <- load (is_open W_paie) ;;
  if negb o then ret tt else
  duration <- get_int_safe_duration W_paie ;;
  pid <- ask current_pid ;;
  if pid =? 0 then ret tt else
  emit (trace_paie duration) ;;
  max <- load (fun v => paie.max (rtsl_variables.paie v)) ;;
  if max >? duration then ret tt else
  emit (trace_max_paie duration) ;;
  upd_paie (paie.set_max duration).

(** [handle_preempt_disable_sched]: first action for scheduling. *)
Definition handle_preempt_disable_sched : M unit :=
  ok <- rtsl_initialized ;;
  if negb ok then ret tt else
  nr <- ask tif_need_resched_now ;;
  o_irq <- load (is_open W_irq) ;;
  is_id <- load (fun v => poid.id (rtsl_variables.poid v)) ;;
  (if nr && negb o_irq && negb is_id then paie_duration else ret tt) ;;
  upd_paie (paie.set_delta_start 0) ;;
  pid <- ask current_pid ;;
  upd_dst (dst.set_pid pid) ;;
  set_int_safe_delta_start W_psd.

(** [handle_preempt_enable_sched]: last action of the scheduler. *)
Definition handle_preempt_enable_sched : M unit :=
  r <- rtsl_running ;;
  if negb r then ret tt else
  o_dst <- load (is_open W_dst) ;;
  (if o_dst then
     dst_duration <- get_int_safe_duration W_dst ;;
     emit (trace_dst dst_duration) ;;
     max <- load (fun v => dst.max (rtsl_variables.dst v)) ;;
     if dst_duration >? max then
       emit (trace_max_dst dst_duration) ;;
       upd_dst (dst.set_max dst_duration)
     else ret tt
   else ret tt) ;;
  psd_duration <- get_int_safe_duration W_psd ;;
  emit (trace_psd psd_duration) ;;
  max <- load (fun v => psd.max (rtsl_variables.psd v)) ;;
  (if psd_duration >? max then
     emit (trace_max_psd psd_duration) ;;
     upd_psd (psd.set_max psd_duration)
   else ret tt) ;;
  nr <- ask tif_need_resched_now ;;
  if nr then set_int_safe_delta_start W_paie else ret tt.

Definition handle_preempt_disable (to_schedule : Z) : M unit :=
  if negb (to_schedule =? 0) then handle_preempt_disable_sched
  else handle_preempt_disable_nosched.

Definition handle_preempt_enable (to_schedule : Z) : M unit :=
  if negb (to_schedule =? 0) then handle_preempt_enable_sched
  else handle_preempt_enable_nosched.

(** [handle_nmi_entry]: get the current time and, that is it. *)
Definition handle_nmi_entry : M unit :=
  r <- rtsl_running ;;
  if negb r then ret tt else
  now <- get_clock ;;
  store (rtsl_variables.set_nmi (nmi.mk now)).

(** [handle_nmi_exit]: compute the NMI duration and discount it from the
    other time windows. *)
Definition handle_nmi_exit : M unit :=
  r <- rtsl_running ;;
  if negb r then ret tt else
  now <- get_clock ;;
  start <- load (fun v => nmi.delta_start (rtsl_variables.nmi v)) ;;
  let duration := u64 (now - start) in
  emit (trace_nmi_execution start duration) ;;
  local_inc_int_counter ;;
  o_irq <- load (is_open W_irq) ;;
  (if o_irq then store (add_delta_start W_irq duration) else ret tt) ;;
  o_poid <- load (is_open W_poid) ;;
  (if o_poid then store (add_delta_start W_poid duration) else ret tt) ;;
  o_psd <- load (is_open W_psd) ;;
  (if o_psd then store (add_delta_start W_psd duration) else ret tt) ;;
  o_dst <- load (is_open W_dst) ;;
  (if o_dst then store (add_delta_start W_dst duration) else ret tt) ;;
  o_paie <- load (is_open W_paie) ;;
  if o_paie then store (add_delta_start W_paie duration) else ret tt.

(** [handle_irq_vector_entry]: identify the IRQ vector. *)
Definition handle_irq_vector_entry (vector : Z) : M unit :=
  r <- rtsl_running ;;
  if negb r then ret tt else
  upd_irq (irq.set_vector vector) ;;
  local_inc_int_counter.

Definition handle_irq_entry (irq_nr : Z) : M unit :=
  r <- rtsl_running ;;
  if negb r then ret tt else
  upd_irq (irq.set_vector irq_nr) ;;
  local_inc_int_counter.

(** ** Events: the tracepoints the handlers are hooked to *)

Inductive event :=
| nmi_entry
| nmi_exit
| irq_disable (irq_entry : Z)
| irq_enable (irq_exit : Z)
| preempt_disable (to_schedule : Z)
| preempt_enable (to_schedule : Z)
| irq_vector_entry (vector : Z)
| irq_handler_entry (irq_nr : Z).

Definition probe (e : event) : M unit :=
  match e with
  | nmi_entry => handle_nmi_entry
  | nmi_exit => handle_nmi_exit
  | irq_disable irq_entry => handle_irq_disable irq_entry
  | irq_enable irq_exit => handle_irq_enable irq_exit
  | preempt_disable to_schedule => handle_preempt_disable to_schedule
  | preempt_enable to_schedule => handle_preempt_enable to_schedule
  | irq_vector_entry vector => handle_irq_vector_entry vector
  | irq_handler_entry irq_nr => handle_irq_entry irq_nr
  end.

(** One event on one CPU: the handler starts with no clock read made and
    returns the CPU's variables with the records it pushed to the sink. *)
Definition handle (h : host) (e : event) (v : rtsl_var) : rtsl_var * list record :=
  let c := snd (probe e h {| var := v; reads := O; sink := [] |}) in
  (var c, sink c).

(** A stream of events on one CPU, each with what the kernel answers while
    its handler runs. *)
Fixpoint run (evs : list (host * event)) (v : rtsl_var) : rtsl_var * list record :=
  match evs with
  | [] => (v, [])
  | (h, e) :: evs' =>
      let (v1, r1) := handle h e v in
      let (v2, r2) := run evs' v1 in
      (v2, r1 ++ r2)
  end.

(** ** Hooking the tracepoints *)

Definition EFAULT : Z := 14.
Definition EINVAL : Z := 22.

(** The kernel's [struct tracepoint]; only its name is read here. *)
Record tracepoint := { tracepoint_name : string }.

(** The functions a [.probe] field can point to. *)
Inductive probe_fn :=
| fn_handle_nmi_entry
| fn_handle_nmi_exit
| fn_handle_irq_disable
| fn_handle_irq_enable
| fn_handle_irq_vector_entry
| fn_handle_irq_entry
| fn_handle_preempt_disable
| fn_handle_preempt_enable.

(** [struct tp_and_name]; a [NULL] [tp] is [None]. *)
Module tp_and_name.
Record t := mk {
  tp : option tracepoint;
  probe : probe_fn;
  name : string;
  registered : Z
}.
Definition set_tp (x : option tracepoint) (e : t) : t :=
  mk x (probe e) (name e) (registered e).
Definition set_registered (x : Z) (e : t) : t :=
  mk (tp e) (probe e) (name e) x.
End tp_and_name.

(** What the life cycle asks of the kernel: the tracepoints
    [for_each_kernel_tracepoint] walks, the value
    [tracepoint_probe_register] returns for a tracepoint and a probe, the
    CPUs of [cpu_online_mask], and the two libfs copy helpers of the
    control file.

    [simple_read_from_buffer count ppos from available] returns the value
    returned, the bytes stored at [user_buf] and the new [*ppos];
    [simple_write_to_buffer to available ppos from count] returns the value
    returned, the new contents of [to] and the new [*ppos]. *)
Record kernel := {
  kernel_tracepoints : list tracepoint;
  tracepoint_probe_register : tracepoint -> probe_fn -> Z;
  cpu_online_mask : list nat;
  simple_read_from_buffer :
    Z -> Z -> list ascii -> Z -> Z * list ascii * Z;
  simple_write_to_buffer :
    list ascii -> Z -> Z -> list ascii -> Z -> Z * list ascii * Z
}.

(** The steps of the life cycle that can be seen from outside, in the
    order they are made. *)
Inductive action :=
| atomic_set (i : Z)
| var_reset (cpu : nat)
| var_stop (cpu : nat)
| probe_register (tp : tracepoint) (probe : probe_fn) (retval : Z)
| probe_unregister (tp : option tracepoint) (probe : probe_fn).

(** The module's global state: [global_rtsl_enable], [per_cpu_rtsl_var],
    the [tps] array, and the steps made so far (oldest first). *)
Record system := {
  global_rtsl_enable : Z;
  per_cpu_rtsl_var : nat -> rtsl_var;
  tps : list tp_and_name.t;
  history : list action
}.

Definition set_global_rtsl_enable (i : Z) (s : system) : system :=
  {| global_rtsl_enable := i;
     per_cpu_rtsl_var := per_cpu_rtsl_var s;
     tps := tps s;
     history := history s ++ [atomic_set i] |}.

Definition set_per_cpu (cpu : nat) (f : rtsl_var -> rtsl_var) (a : action)
    (s : system) : system :=
  {| global_rtsl_enable := global_rtsl_enable s;
     per_cpu_rtsl_var :=
       fun c => if Nat.eqb c cpu then f (per_cpu_rtsl_var s c)
                else per_cpu_rtsl_var s c;
     tps := tps s;
     history := history s ++ [a] |}.

Definition set_tps (l : list tp_and_name.t) (acts : list action) (s : system)
    : system :=
  {| global_rtsl_enable := global_rtsl_enable s;
     per_cpu_rtsl_var := per_cpu_rtsl_var s;
     tps := l;
     history := history s ++ acts |}.

(** [for_each_cpu(cpu, cpu_online_mask)]. *)
Definition for_each_online_cpu (k : kernel) (body : nat -> system -> system)
    (s : system) : system :=
  fold_left (fun s cpu => body cpu s) (cpu_online_mask k) s.

Definition rtsl_var_init_all (k : kernel) : system -> system :=
  for_each_online_cpu k
    (fun cpu => set_per_cpu cpu (fun _ => rtsl_var_reset) (var_reset cpu)).

Definition rtsl_var_destroy_all (k : kernel) : system -> system :=
  for_each_online_cpu k
    (fun cpu => set_per_cpu cpu (fun _ => rtsl_var_reset) (var_reset cpu)).

(** [rtsl_stop_all]; the file defines it and never calls it. *)
Definition rtsl_stop_all (k : kernel) : system -> system :=
  for_each_online_cpu k
    (fun cpu =>
       set_per_cpu cpu (rtsl_variables.set_running false) (var_stop cpu)).

(** The control interface's [rtsl_enabled()]. *)
Definition rtsl_enabled_in (s : system) : bool :=
  negb (global_rtsl_enable s =? 0).

(** [fill_tp_by_name]: the callback that compares tracepoints by name. *)
Definition fill_tp_by_name (ktp : tracepoint) (priv : tp_and_name.t)
    : tp_and_name.t :=
  if String.eqb (tracepoint_name ktp) (tp_and_name.name priv)
  then tp_and_name.set_tp (Some ktp) priv
  else priv.

(** [get_struct_tracepoint]: search a tracepoint by its name. *)
Definition get_struct_tracepoint (k : kernel) (name : string)
    : option tracepoint :=
  tp_and_name.tp
    (fold_left (fun priv ktp => fill_tp_by_name ktp priv)
       (kernel_tracepoints k)
       (tp_and_name.mk None fn_handle_nmi_entry name 0)).

(** The [for] loop of [register_tracepoints] from entry [i] on, the
    entries before [i] being done: the entries from [i] on as the loop
    leaves them, the calls made, and whether the loop ran to its end
    ([false]: it left through [goto out_err]). *)
Fixpoint register_loop (k : kernel) (todo : list tp_and_name.t)
    : list tp_and_name.t * list action * bool :=
  match todo with
  | [] => ([], [], true)
  | e :: rest =>
      let e1 :=
        tp_and_name.set_tp (get_struct_tracepoint k (tp_and_name.name e)) e in
      match tp_and_name.tp e1 with
      | None => (e1 :: rest, [], false)
      | Some ktp =>
          let e2 := tp_and_name.set_registered 1 e1 in
          let retval := tracepoint_probe_register k ktp (tp_and_name.probe e2) in
          let call := probe_register ktp (tp_and_name.probe e2) retval in
          if negb (retval =? 0) then (e2 :: rest, [call], false)
          else
            let '(rest', calls, ok) := register_loop k rest in
            (e2 :: rest', call :: calls, ok)
      end
  end.

(** The calls of a loop that unregisters every entry whose [registered]
    is set. *)
Definition unregister_calls (tracepoints : list tp_and_name.t) : list action :=
  map (fun e => probe_unregister (tp_and_name.tp e) (tp_and_name.probe e))
    (filter (fun e => negb (tp_and_name.registered e =? 0)) tracepoints).

(** [register_tracepoints(tracepoints, count)], [count] being the length
    of the array: the value returned, the array and the calls made. *)
Definition register_tracepoints (k : kernel) (tracepoints : list tp_and_name.t)
    : Z * list tp_and_name.t * list action :=
  let '(tracepoints', calls, ok) := register_loop k tracepoints in
  if ok then (0, tracepoints', calls)
  else (- EINVAL, tracepoints', calls ++ unregister_calls tracepoints').

(** [unregister_tracepoints(tracepoints, count)]. *)
Definition unregister_tracepoints (tracepoints : list tp_and_name.t)
    : list tp_and_name.t * list action :=
  (map (fun e => if negb (tp_and_name.registered e =? 0)
                 then tp_and_name.set_registered 0 e else e) tracepoints,
   unregister_calls tracepoints).

(** The [tps] array as the file initialises it; [IRQ_VECTOR] is the
    compile-time switch between its two sixth entries. *)
Definition tps_init (IRQ_VECTOR : bool) : list tp_and_name.t :=
  let entry (p : probe_fn) (n : string) := tp_and_name.mk None p n 0 in
  [ entry fn_handle_nmi_entry "nmi_entry";
    entry fn_handle_nmi_exit "nmi_exit";
    entry fn_handle_irq_disable "irq_disable";
    entry fn_handle_irq_enable "irq_enable";
    entry fn_handle_irq_vector_entry "local_timer_entry";
    (if IRQ_VECTOR
     then entry fn_handle_irq_vector_entry "external_interrupt_entry"
     else entry fn_handle_irq_entry "irq_handler_entry");
    entry fn_handle_irq_vector_entry "thermal_apic_entry";
    entry fn_handle_irq_vector_entry "deferred_error_apic_entry";
    entry fn_handle_irq_vector_entry "threshold_apic_entry";
    entry fn_handle_irq_vector_entry "call_function_single_entry";
    entry fn_handle_irq_vector_entry "call_function_entry";
    entry fn_handle_irq_vector_entry "reschedule_entry";
    entry fn_handle_irq_vector_entry "irq_work_entry";
    entry fn_handle_irq_vector_entry "x86_platform_ipi_entry";
    entry fn_handle_irq_vector_entry "error_apic_entry";
    entry fn_handle_irq_vector_entry "spurious_apic_entry";
    entry fn_handle_preempt_disable "preempt_disable";
    entry fn_handle_preempt_enable "preempt_enable" ]%string.

Definition NR_TP : nat := 18.

(** [rtsl_enable]: the enable interface. *)
Definition rtsl_enable (k : kernel) (s : system) : Z * system :=
  let s1 := rtsl_var_init_all k s in
  let '(retval, tracepoints, calls) := register_tracepoints k (tps s1) in
  let s2 := set_tps tracepoints calls s1 in
  if negb (retval =? 0) then (- EINVAL, s2)
  else (0, set_global_rtsl_enable 1 s2).

(** [rtsl_disable]: the enable interface (to disable). *)
Definition rtsl_disable (k : kernel) (s : system) : system :=
  let s1 := set_global_rtsl_enable 0 s in
  let s2 := rtsl_var_destroy_all k s1 in
  let (tracepoints, calls) := unregister_tracepoints (tps s2) in
  set_tps tracepoints calls s2.

(** ** The control file *)

Definition NUL : ascii := "000"%char.
Definition LF : ascii := "010"%char.

(** [strlen]. *)
Fixpoint strlen (buf : list ascii) : Z :=
  match buf with
  | [] => 0
  | c :: buf' => if Ascii.eqb c NUL then 0 else 1 + strlen buf'
  end.

(** [sprintf(buf, "%x\n", enabled)] on a zeroed [buf]: [enabled] is a
    [bool], so one hex digit, the newline and the terminating NUL are
    written over the first bytes of [buf]. *)
Definition sprintf_x_nl (buf : list ascii) (enabled : bool) : list ascii :=
  let s := [(if enabled then "1" else "0")%char; LF; NUL] in
  s ++ skipn (List.length s) buf.

(** [rtsl_enable_read_data]; [interface_lock] is taken around the read of
    the flag. *)
Definition rtsl_enable_read_data (k : kernel) (count ppos : Z) (s : system)
    : Z * list ascii * Z :=
  let buf := repeat NUL 4 in
  let enabled := rtsl_enabled_in s in
  let buf := sprintf_x_nl buf enabled in
  simple_read_from_buffer k count ppos buf (strlen buf + 1).

(** [rtsl_enable_write_data]: the value returned, the new [*ppos] and the
    module's state; [interface_lock] is held over the [switch]. *)
Definition rtsl_enable_write_data (k : kernel) (user_buf : list ascii)
    (count ppos : Z) (s : system) : Z * Z * system :=
  if (count <? 1) || (count >? 3) then (- EINVAL, ppos, s) else
  let buf := repeat NUL 3 in
  let '(retval, buf, ppos') :=
    simple_write_to_buffer k buf (3 - 1) ppos user_buf count in
  if retval =? 0 then (- EFAULT, ppos', s) else
  let c := nth 0 buf NUL in
  if Ascii.eqb c "1" then
    let s1 := if rtsl_enabled_in s then rtsl_disable k s else s in
    let (_, s2) := rtsl_enable k s1 in
    (retval, ppos', s2)
  else if Ascii.eqb c "0" then
    let s1 := if rtsl_enabled_in s then rtsl_disable k s else s in
    (retval, ppos', s1)
  else (- EINVAL, ppos', s).

(** Modelled from the spec: [simple_read_from_buffer] is the kernel's libfs
    helper and its code is not part of this file.  The control file "returns"
    the bytes of a kernel buffer: from offset [*ppos], at most [count] bytes
    and no more than [available] leaves are copied to user space, [*ppos]
    advances by the number of bytes copied and that number is returned; a
    copy of no byte at all returns 0 (or bad-address when user space cannot
    be written).  [writable] is the number of bytes that can be stored at
    [user_buf]. *)
Definition libfs_simple_read_from_buffer (writable : Z) (count ppos : Z)
    (from : list ascii) (available : Z) : Z * list ascii * Z :=
  if ppos <? 0 then (- EINVAL, [], ppos) else
  if (ppos >=? available) || (count =? 0) then (0, [], ppos) else
  let count := Z.min count (available - ppos) in
  let ret := count - Z.min count writable in
  if ret =? count then (- EFAULT, [], ppos) else
  let n := count - ret in
  (n, firstn (Z.to_nat n) (skipn (Z.to_nat ppos) from), ppos + n).

(** Modelled from the spec: [simple_write_to_buffer] is the kernel's libfs
    helper and its code is not part of this file.  It is the copy "from
    user" of the control file: at most [count] bytes and no more than
    [available] leaves are copied from user space to offset [*ppos] of the
    kernel buffer [to], [*ppos] advances by the number of bytes copied and
    that number is returned; a "zero-length copy" returns 0 (or bad-address
    when user space cannot be read).  [from] holds the bytes that can be
    read at [user_buf]. *)
Definition libfs_simple_write_to_buffer (to : list ascii) (available : Z)
    (ppos : Z) (from : list ascii) (count : Z) : Z * list ascii * Z :=
  if ppos <? 0 then (- EINVAL, to, ppos) else
  if (ppos >=? available) || (count =? 0) then (0, to, ppos) else
  let count := Z.min count (available - ppos) in
  let res := count - Z.min count (Z.of_nat (List.length from)) in
  if res =? count then (- EFAULT, to, ppos) else
  let n := count - res in
  (n,
   firstn (Z.to_nat ppos) to ++ firstn (Z.to_nat n) from
     ++ skipn (Z.to_nat (ppos + n)) to,
   ppos + n).

(** A kernel with the libfs helpers above. *)
Definition linux (tracepoints : list tracepoint)
    (register : tracepoint -> probe_fn -> Z) (cpus : list nat) (writable : Z)
    : kernel :=
  {| kernel_tracepoints := tracepoints;
     tracepoint_probe_register := register;
     cpu_online_mask := cpus;
     simple_read_from_buffer := libfs_simple_read_from_buffer writable;
     simple_write_to_buffer := libfs_simple_write_to_buffer |}.

(** ** Vocabulary of the properties *)

(** The schedule-path preempt-disable: [preempt_disable] with
    [to_schedule] set. *)
Definition is_sched_preempt_disable (e : event) : bool :=
  match e with
  | preempt_disable to_schedule => negb (to_schedule =? 0)
  | _ => false
  end.

(** The records the idle filter is about. *)
Definition is_poid_paie_record (r : record) : bool :=
  match r with
  | trace_poid _ | trace_max_poid _ | trace_paie _ | trace_max_paie _ => true
  | _ => false
  end.

Definition is_dst_record (r : record) : bool :=
  match r with
  | trace_dst _ | trace_max_dst _ => true
  | _ => false
  end.

(** The durations of the [poid] records of a list of records. *)
Fixpoint poid_values (l : list record) : list Z :=
  match l with
  | [] => []
  | trace_poid d :: l' => d :: poid_values l'
  | _ :: l' => poid_values l'
  end.

(** The four maxima and their records. *)
Inductive max_kind := K_poid | K_paie | K_psd | K_dst.

Definition max_of (k : max_kind) (v : rtsl_var) : Z :=
  match k with
  | K_poid => poid.max (rtsl_variables.poid v)
  | K_paie => paie.max (rtsl_variables.paie v)
  | K_psd => psd.max (rtsl_variables.psd v)
  | K_dst => dst.max (rtsl_variables.dst v)
  end.

Definition max_value (k : max_kind) (r : record) : option Z :=
  match k, r with
  | K_poid, trace_max_poid d => Some d
  | K_paie, trace_max_paie d => Some d
  | K_psd, trace_max_psd d => Some d
  | K_dst, trace_max_dst d => Some d
  | _, _ => None
  end.

Fixpoint max_values (k : max_kind) (l : list record) : list Z :=
  match l with
  | [] => []
  | r :: l' =>
      match max_value k r with
      | Some d => d :: max_values k l'
      | None => max_values k l'
      end
  end.

(** The order a new maximum of kind [k] has to the one it replaces. *)
Definition exceeds (k : max_kind) : Z -> Z -> Prop :=
  match k with
  | K_poid | K_paie => Z.le
  | K_psd | K_dst => Z.lt
  end.

(** What the schedule-path preempt-enable emits on a running CPU: the
    closure of DST when it is open, then the closure of PSD. *)
Definition sched_exit_records (h : host) (v : rtsl_var) : list record :=
  let o := is_open W_dst v in
  let dst_duration :=
    u64 (u64 (trace_clock_local h 0%nat)
         - dst.delta_start (rtsl_variables.dst v)) in
  let psd_duration :=
    u64 (u64 (trace_clock_local h (if o then 1 else 0)%nat)
         - psd.delta_start (rtsl_variables.psd v)) in
  (if o then
     trace_dst dst_duration ::
     (if dst_duration >? dst.max (rtsl_variables.dst v)
      then [trace_max_dst dst_duration] else [])
   else [])
  ++ trace_psd psd_duration ::
     (if psd_duration >? psd.max (rtsl_variables.psd v)
      then [trace_max_psd psd_duration] else []).

(** A host whose clock reads [t] at every call. *)
Definition host_at (t pid : Z) (need_resched : bool) : host :=
  {| trace_clock_local := fun _ => t;
     current_pid := pid;
     tif_need_resched_now := need_resched;
     irqs_disabled := false;
     atomic_read_global_rtsl_enable := 1 |}.

(** One enable epoch with two POID windows of the same length: the CPU
    starts at the first schedule-path preempt-disable, leaves the
    scheduler, and a task (pid 7) twice disables preemption for 2000 ns. *)
Definition two_equal_poid_windows : list (host * event) :=
  [ (host_at 500 7 false, preempt_disable 1);
    (host_at 900 7 false, preempt_enable 1);
    (host_at 1000 7 false, preempt_disable 0);
    (host_at 3000 7 false, preempt_enable 0);
    (host_at 5000 7 false, preempt_disable 0);
    (host_at 7000 7 false, preempt_enable 0) ].

(** An interrupt as its tracepoints see it: [irq_disable] with
    [irq_entry] set, the vector entry that names it, the
    [preempt_disable]/[preempt_enable] pairs of the interrupt handler
    ([true] for a disable), and [irq_enable] with [irq_exit] set; each with
    what the kernel answers to its handler. *)
Record irq_run := {
  irq_in : host;
  irq_named : host * Z;
  irq_body : list (host * bool);
  irq_out : host
}.

Definition preempt_toggle (x : host * bool) : host * event :=
  (fst x, if snd x then preempt_disable 0 else preempt_enable 0).

Definition irq_events (i : irq_run) : list (host * event) :=
  (irq_in i, irq_disable 1)
    :: (fst (irq_named i), irq_vector_entry (snd (irq_named i)))
    :: map preempt_toggle (irq_body i) ++ [(irq_out i, irq_enable 1)].

(** The clock values that bound the interrupt: [irq->delta_start] is
    the second clock read of the entry handler (the first one is
    [arrival_time]); the exit handler reads the clock once. *)
Definition irq_began (i : irq_run) : Z := u64 (trace_clock_local (irq_in i) 1%nat).
Definition irq_ended (i : irq_run) : Z := u64 (trace_clock_local (irq_out i) 0%nat).
Definition irq_length (i : irq_run) : Z := irq_ended i - irq_began i.

Definition total (l : list Z) : Z := fold_right Z.add 0 l.

(** The interrupts [irqs] run one after the other between [t] and [t1],
    on a clock that does not go back. *)
Fixpoint in_order (t : Z) (irqs : list irq_run) (t1 : Z) : Prop :=
  match irqs with
  | [] => t <= t1
  | i :: irqs' =>
      t <= irq_began i /\ irq_began i <= irq_ended i
      /\ in_order (irq_ended i) irqs' t1
  end.

(** A POID window: a thread disables preemption, interrupts run, the
    thread enables preemption. *)
Definition poid_window (h_open : host) (irqs : list irq_run) (h_close : host)
    : list (host * event) :=
  (h_open, preempt_disable 0)
    :: flat_map irq_events irqs ++ [(h_close, preempt_enable 0)].

(** The durations of the [irq_execution] records of a list of records. *)
Fixpoint irq_execution_values (l : list record) : list Z :=
  match l with
  | [] => []
  | trace_irq_execution _ _ d :: l' => d :: irq_execution_values l'
  | _ :: l' => irq_execution_values l'
  end.

(** An interrupt of vector [vector] from [t_in] to [t_out] whose handler
    takes and releases a spinlock in between. *)
Definition irq_at (vector t_in t_out : Z) : irq_run :=
  {| irq_in := host_at t_in 7 false;
     irq_named := (host_at t_in 7 false, vector);
     irq_body := [(host_at (t_in + 10) 7 false, true);
                  (host_at (t_out - 10) 7 false, false)];
     irq_out := host_at t_out 7 false |}.

(** The steps of the life cycle, by kind. *)
Definition is_atomic_set (a : action) : bool :=
  match a with atomic_set _ => true | _ => false end.
Definition is_var_reset (a : action) : bool :=
  match a with var_reset _ => true | _ => false end.
Definition is_var_stop (a : action) : bool :=
  match a with var_stop _ => true | _ => false end.
Definition is_probe_register (a : action) : bool :=
  match a with probe_register _ _ _ => true | _ => false end.
Definition is_probe_unregister (a : action) : bool :=
  match a with probe_unregister _ _ => true | _ => false end.

(** In [l], every step of kind [P] is made before every step of kind
    [Q]: no step of kind [Q] is followed by one of kind [P]. *)
Fixpoint all_before (P Q : action -> bool) (l : list action) : bool :=
  match l with
  | [] => true
  | a :: l' => (negb (Q a) || negb (existsb P l')) && all_before P Q l'
  end.

(** The steps [s'] has made since [s]. *)
Definition steps_since (s s' : system) : list action :=
  skipn (List.length (history s)) (history s').

(** Some entry of the array cannot be hooked: the kernel has no
    tracepoint of its name, or [tracepoint_probe_register] returns an
    error for it. *)
Definition registration_fails (k : kernel) (tracepoints : list tp_and_name.t)
    : bool :=
  existsb
    (fun e =>
       match get_struct_tracepoint k (tp_and_name.name e) with
       | None => true
       | Some ktp =>
           negb (tracepoint_probe_register k ktp (tp_and_name.probe e) =? 0)
       end)
    tracepoints.

(** The module as it is loaded: the flag clear, the variables zeroed,
    no probe registered, nothing done yet. *)
Definition module_loaded (IRQ_VECTOR : bool) : system :=
  {| global_rtsl_enable := 0;
     per_cpu_rtsl_var := fun _ => rtsl_var_reset;
     tps := tps_init IRQ_VECTOR;
     history := [] |}.

(** A two-CPU kernel that has every tracepoint of the array and accepts
    every probe, and the same kernel refusing the probe of
    [preempt_enable]. *)
Definition all_tracepoints : list tracepoint :=
  map (fun e => {| tracepoint_name := tp_and_name.name e |}) (tps_init false).

Definition linux_ok : kernel :=
  linux all_tracepoints (fun _ _ => 0) [0%nat; 1%nat] 4096.

Definition linux_refusing : kernel :=
  linux all_tracepoints
    (fun ktp _ =>
       if String.eqb (tracepoint_name ktp) "preempt_enable" then -12 else 0)
    [0%nat; 1%nat] 4096.

(** The module after a first successful enable. *)
Definition module_enabled : system :=
  snd (rtsl_enable linux_ok (module_loaded false)).

(** ** The irqflags and preempt hooks (CONFIG_TRACE_IRQFLAGS,
    CONFIG_TRACE_PREEMPT_TOGGLE) *)

Definition IRQ_OFF_NORMAL : Z := 1.
Definition IRQ_OFF_IRQ_ENTRY : Z := 2.

(** The [is_irq_entry] macro, as the [int] handed to the tracepoint. *)
Definition is_irq_entry (x : Z) : Z := if x =? IRQ_OFF_IRQ_ENTRY then 1 else 0.

(** What a hook calls: a tracepoint ([trace_irq_enable_rcuidle] and the
    like, whose [ip] and [parent_ip] no probe of this file reads), the
    irqsoff and preemptoff tracers, lockdep. *)
Inductive hook_call :=
| tracepoint_call (e : event)
| tracer_hardirqs_on
| tracer_hardirqs_off
| lockdep_hardirqs_on
| lockdep_hardirqs_off
| tracer_preempt_on
| tracer_preempt_off.

(** [trace_hardirqs_on]: the new value of this CPU's [tracing_irq_cpu]
    and the calls made, [in_nmi] being what [in_nmi()] answers. *)
Definition trace_hardirqs_on (in_nmi : bool) (tracing_irq_cpu : Z)
    : Z * list hook_call :=
  let tracing_irq := tracing_irq_cpu in
  let '(cpu', calls) :=
    if negb (tracing_irq =? 0) then
      (0,
       (if negb in_nmi
        then [tracepoint_call (irq_enable (is_irq_entry tracing_irq))]
        else [])
       ++ [tracer_hardirqs_on])
    else (tracing_irq_cpu, []) in
  (cpu', calls ++ [lockdep_hardirqs_on]).

Definition trace_hardirqs_off (in_nmi : bool) (tracing_irq_cpu : Z)
    : Z * list hook_call :=
  let '(cpu', calls) :=
    if tracing_irq_cpu =? 0 then
      (IRQ_OFF_NORMAL,
       tracer_hardirqs_off
       :: (if negb in_nmi then [tracepoint_call (irq_disable 0)] else []))
    else (tracing_irq_cpu, []) in
  (cpu', calls ++ [lockdep_hardirqs_off]).

(** [trace_hardirqs_on_caller] and [trace_hardirqs_off_caller] differ from
    the two above in the addresses they pass on only. *)
Definition trace_hardirqs_on_caller (in_nmi : bool) (tracing_irq_cpu : Z)
    : Z * list hook_call :=
  let tracing_irq := tracing_irq_cpu in
  let '(cpu', calls) :=
    if negb (tracing_irq =? 0) then
      (0,
       (if negb in_nmi
        then [tracepoint_call (irq_enable (is_irq_entry tracing_irq))]
        else [])
       ++ [tracer_hardirqs_on])
    else (tracing_irq_cpu, []) in
  (cpu', calls ++ [lockdep_hardirqs_on]).

Definition trace_hardirqs_off_caller (in_nmi : bool) (tracing_irq_cpu : Z)
    : Z * list hook_call :=
  let '(cpu', calls) :=
    if tracing_irq_cpu =? 0 then
      (IRQ_OFF_NORMAL,
       tracer_hardirqs_off
       :: (if negb in_nmi then [tracepoint_call (irq_disable 0)] else []))
    else (tracing_irq_cpu, []) in
  (cpu', calls ++ [lockdep_hardirqs_off]).

Definition trace_hardirqs_off_caller_irq_entry (in_nmi : bool)
    (tracing_irq_cpu : Z) : Z * list hook_call :=
  let '(cpu', calls) :=
    if tracing_irq_cpu =? 0 then
      (IRQ_OFF_IRQ_ENTRY,
       tracer_hardirqs_off
       :: (if negb in_nmi then [tracepoint_call (irq_disable 1)] else []))
    else (tracing_irq_cpu, []) in
  (cpu', calls ++ [lockdep_hardirqs_off]).

Definition trace_preempt_on (in_nmi : bool) (to_sched : Z) : list hook_call :=
  (if negb in_nmi then [tracepoint_call (preempt_enable to_sched)] else [])
  ++ [tracer_preempt_on].

Definition trace_preempt_off (in_nmi : bool) (to_sched : Z) : list hook_call :=
  (if negb in_nmi then [tracepoint_call (preempt_disable to_sched)] else [])
  ++ [tracer_preempt_off].


(** From [preempt_disable_sched()] to [preempt_disable()]. *)
Definition trace_preempt_switch_not_sched (in_nmi : bool) : list hook_call :=
  trace_preempt_on in_nmi 1 ++ trace_preempt_off in_nmi 0.

(** The five irqflags hooks, to speak of sequences of calls. *)
Inductive irqflags_hook :=
| hardirqs_on
| hardirqs_off
| hardirqs_on_caller
| hardirqs_off_caller
| hardirqs_off_caller_irq_entry.

Definition irqflags_call (in_nmi : bool) (f : irqflags_hook)
    (tracing_irq_cpu : Z) : Z * list hook_call :=
  match f with
  | hardirqs_on => trace_hardirqs_on in_nmi tracing_irq_cpu
  | hardirqs_off => trace_hardirqs_off in_nmi tracing_irq_cpu
  | hardirqs_on_caller => trace_hardirqs_on_caller in_nmi tracing_irq_cpu
  | hardirqs_off_caller => trace_hardirqs_off_caller in_nmi tracing_irq_cpu
  | hardirqs_off_caller_irq_entry =>
      trace_hardirqs_off_caller_irq_entry in_nmi tracing_irq_cpu
  end.

Fixpoint irqflags_calls (l : list (bool * irqflags_hook)) (tracing_irq_cpu : Z)
    : Z * list hook_call :=
  match l with
  | [] => (tracing_irq_cpu, [])
  | (in_nmi, f) :: l' =>
      let (cpu1, c1) := irqflags_call in_nmi f tracing_irq_cpu in
      let (cpu2, c2) := irqflags_calls l' cpu1 in
      (cpu2, c1 ++ c2)
  end.

(** The tracepoint events among the calls of the hooks. *)
Fixpoint fired (calls : list hook_call) : list event :=
  match calls with
  | [] => []
  | tracepoint_call e :: calls' => e :: fired calls'
  | _ :: calls' => fired calls'
  end.

(** A list of [irq_disable] and [irq_enable] events in which the two
    alternate and every [irq_enable] carries the flag of the [irq_disable]
    before it; [pending] is the flag of a disable not yet answered. *)
Fixpoint bracketed (pending : option Z) (l : list event) : bool :=
  match l, pending with
  | [], _ => true
  | irq_disable f :: l', None => bracketed (Some f) l'
  | irq_enable f :: l', Some g => (f =? g) && bracketed None l'
  | _, _ => false
  end.

(** The disable [tracing_irq_cpu] stands for. *)
Definition pending_of (tracing_irq_cpu : Z) : option Z :=
  if tracing_irq_cpu =? 0 then None else Some (is_irq_entry tracing_irq_cpu).

(** ** The debugfs interface of the module *)

Definition ENOMEM : Z := 12.

(** A [struct dentry *] that is not [NULL], by the name it was created
    under. *)
Record dentry := { dentry_name : string }.

(** [interface_lock] (held or not), [interface_root_dir] and
    [interface_enable] ([None] for [NULL]), and the entries debugfs holds. *)
Record interface := {
  interface_lock : bool;
  interface_root_dir : option dentry;
  interface_enable : option dentry;
  debugfs : list dentry
}.

(** [debugfs_remove]; a [NULL] dentry is ignored. *)
Definition debugfs_remove (d : option dentry) (fs : list dentry) : list dentry :=
  match d with
  | None => fs
  | Some x =>
      filter (fun y => negb (String.eqb (dentry_name y) (dentry_name x))) fs
  end.

(** [rtsl_init_interface], from a state in which [interface_lock] is free;
    [dir_ok] and [file_ok] tell whether [debugfs_create_dir] and
    [debugfs_create_file] return a dentry. *)
Definition rtsl_init_interface (dir_ok file_ok : bool) (i : interface)
    : Z * interface :=
  let root := if dir_ok then Some {| dentry_name := "rtsl" |} else None in
  match root with
  | None =>
      (- ENOMEM,
       {| interface_lock := true;
          interface_root_dir := None;
          interface_enable := interface_enable i;
          debugfs := debugfs i |})
  | Some r =>
      let fs1 := debugfs i ++ [r] in
      let file :=
        if file_ok then Some {| dentry_name := "rtsl/enable" |} else None in
      match file with
      | None =>
          (- ENOMEM,
           {| interface_lock := false;
              interface_root_dir := root;
              interface_enable := None;
              debugfs := debugfs_remove root fs1 |})
      | Some f =>
          (0,
           {| interface_lock := false;
              interface_root_dir := root;
              interface_enable := file;
              debugfs := fs1 ++ [f] |})
      end
  end.

(** [rtsl_destroy_interface]: remove the two entries under the lock, then
    [rtsl_disable]. *)
Definition rtsl_destroy_interface (k : kernel) (i : interface) (s : system)
    : interface * system :=
  ({| interface_lock := false;
      interface_root_dir := interface_root_dir i;
      interface_enable := interface_enable i;
      debugfs :=
        debugfs_remove (interface_root_dir i)
          (debugfs_remove (interface_enable i) (debugfs i)) |},
   rtsl_disable k s).

(** ** More vocabulary *)

(** The event [e], handled with [h], starts a CPU that is not running. *)
Definition starts (h : host) (e : event) : bool :=
  is_sched_preempt_disable e
  && negb (atomic_read_global_rtsl_enable h =? 0)
  && negb (irqs_disabled h).

Fixpoint paie_values (l : list record) : list Z :=
  match l with
  | [] => []
  | trace_paie d :: l' => d :: paie_values l'
  | _ :: l' => paie_values l'
  end.

Fixpoint psd_values (l : list record) : list Z :=
  match l with
  | [] => []
  | trace_psd d :: l' => d :: psd_values l'
  | _ :: l' => psd_values l'
  end.

Fixpoint dst_values (l : list record) : list Z :=
  match l with
  | [] => []
  | trace_dst d :: l' => d :: dst_values l'
  | _ :: l' => dst_values l'
  end.

(** The [nmi_execution] records of a list of records, as pairs of start
    and duration. *)
Fixpoint nmi_executions (l : list record) : list (Z * Z) :=
  match l with
  | [] => []
  | trace_nmi_execution s d :: l' => (s, d) :: nmi_executions l'
  | _ :: l' => nmi_executions l'
  end.

(** A non-maskable interrupt as its two tracepoints see it. *)
Record nmi_run := {
  nmi_in : host;
  nmi_out : host
}.

Definition nmi_events (n : nmi_run) : list (host * event) :=
  [(nmi_in n, nmi_entry); (nmi_out n, nmi_exit)].

Definition nmi_began (n : nmi_run) : Z := u64 (trace_clock_local (nmi_in n) 0%nat).
Definition nmi_ended (n : nmi_run) : Z := u64 (trace_clock_local (nmi_out n) 0%nat).
Definition nmi_length (n : nmi_run) : Z := nmi_ended n - nmi_began n.

Fixpoint nmis_in_order (t : Z) (nmis : list nmi_run) (t1 : Z) : Prop :=
  match nmis with
  | [] => t <= t1
  | n :: nmis' =>
      t <= nmi_began n /\ nmi_began n <= nmi_ended n
      /\ nmis_in_order (nmi_ended n) nmis' t1
  end.

(** A PSD window: the scheduler disables preemption, NMIs run, the
    scheduler enables preemption. *)
Definition psd_window (h_open : host) (nmis : list nmi_run) (h_close : host)
    : list (host * event) :=
  (h_open, preempt_disable 1)
    :: flat_map nmi_events nmis ++ [(h_close, preempt_enable 1)].

Definition nmi_at (t_in t_out : Z) : nmi_run :=
  {| nmi_in := host_at t_in 7 false; nmi_out := host_at t_out 7 false |}.

(** A running CPU with every window closed. *)
Definition running_reset : rtsl_var :=
  rtsl_variables.set_running true rtsl_var_reset.

(** A kernel that lacks the tracepoint [irq_work_entry]. *)
Definition linux_lacking : kernel :=
  linux
    (filter (fun t => negb (String.eqb (tracepoint_name t) "irq_work_entry"))
       all_tracepoints)
    (fun _ _ => 0) [0%nat; 1%nat] 4096.

(** An entry of the array once its probe is registered, and the call
    that registers it. *)
Definition hooked (k : kernel) (e : tp_and_name.t) : tp_and_name.t :=
  tp_and_name.set_registered 1
    (tp_and_name.set_tp (get_struct_tracepoint k (tp_and_name.name e)) e).

Definition register_call (k : kernel) (e : tp_and_name.t) : list action :=
  match get_struct_tracepoint k (tp_and_name.name e) with
  | Some ktp => [probe_register ktp (tp_and_name.probe e) 0]
  | None => []
  end.

(** The unregistration that undoes a registration. *)
Definition undo (a : action) : action :=
  match a with
  | probe_register ktp probe _ => probe_unregister (Some ktp) probe
  | _ => a
  end.

(** ** POID windows in general *)












(** A CPU after one pass through [schedule()]: task 7 enters the
    scheduler at 1000 and disables interrupts at 1100, the switch is to
    task 8, which enables interrupts at 1200 and leaves the scheduler at
    2000. *)
Definition after_schedule : rtsl_var :=
  fst (run [ (host_at 1000 7 false, preempt_disable 1);
             (host_at 1100 7 false, irq_disable 0);
             (host_at 1200 8 false, irq_enable 0);
             (host_at 2000 8 false, preempt_enable 1) ] rtsl_var_reset).



(** ** Proof tools *)

Arguments u64 : simpl never.

Ltac mstep :=
  cbv beta iota zeta delta
    [handle probe
     handle_nmi_entry handle_nmi_exit handle_irq_disable handle_irq_enable
     handle_preempt_disable handle_preempt_enable handle_irq_vector_entry
     handle_irq_entry handle_irq_disable_normal handle_irq_disable_irq
     handle_irq_enable_irq handle_irq_enable_normal
     handle_preempt_disable_nosched handle_preempt_enable_nosched
     handle_preempt_disable_sched handle_preempt_enable_sched
     poid_duration paie_duration irq_occurence rtsl_initialized
     get_int_safe_duration set_int_safe_delta_start
     rtsl_running rtsl_enabled rtsl_start local_inc_int_counter
     upd_poid upd_paie upd_psd upd_dst upd_irq
     is_open delta_start set_delta_start add_delta_start
     bind ret ask load store emit get_clock];
  cbn.

Ltac mcase :=
  match goal with
  | |- context [if ?b then _ else _] =>
      let E := fresh "E" in destruct b eqn:E
  end.

Ltac mrun := mstep; repeat (mcase; mstep).

Ltac to_prop :=
  repeat match goal with
  | H : (_ >? _) = _ |- _ => rewrite Z.gtb_ltb in H
  | H : (_ <? _) = true |- _ => apply Z.ltb_lt in H
  | H : (_ <? _) = false |- _ => apply Z.ltb_ge in H
  | H : (_ =? _) = true |- _ => apply Z.eqb_eq in H
  | H : (_ =? _) = false |- _ => apply Z.eqb_neq in H
  end.

Lemma u64_range (x : Z) : 0 <= u64 x < 2 ^ 64.
Proof. unfold u64. apply Z.mod_pos_bound. lia. Qed.

Lemma u64_small (x : Z) : 0 <= x < 2 ^ 64 -> u64 x = x.
Proof. intros H. unfold u64. apply Z.mod_small. exact H. Qed.

Lemma u64_idem (x : Z) : u64 (u64 x) = u64 x.
Proof. apply u64_small, u64_range. Qed.

(** ** The scenarios of the specification, on a running CPU *)

(** S1, plain POID. *)
Example scenario_plain_poid :
  snd (run [(host_at 1000 7 false, preempt_disable 0);
            (host_at 3000 7 false, preempt_enable 0)]
         (rtsl_variables.set_running true rtsl_var_reset))
  = [trace_poid 2000; trace_max_poid 2000].
Proof. vm_compute. reflexivity. Qed.

(** S2, an IRQ inside POID. *)
Example scenario_irq_inside_poid :
  snd (run [(host_at 1000 7 false, preempt_disable 0);
            (host_at 1500 7 false, irq_disable 1);
            (host_at 1500 7 false, irq_vector_entry 42);
            (host_at 1800 7 false, irq_enable 1);
            (host_at 3000 7 false, preempt_enable 0)]
         (rtsl_variables.set_running true rtsl_var_reset))
  = [trace_irq_execution 42 1500 300; trace_poid 1700; trace_max_poid 1700].
Proof. vm_compute. reflexivity. Qed.

(** S3, an NMI during PSD; the first event starts the CPU. *)
Example scenario_nmi_during_psd :
  snd (run [(host_at 1000 7 false, preempt_disable 1);
            (host_at 1200 7 false, nmi_entry);
            (host_at 1250 7 false, nmi_exit);
            (host_at 2000 7 false, preempt_enable 1)]
         rtsl_var_reset)
  = [trace_nmi_execution 1200 50; trace_psd 950; trace_max_psd 950].
Proof. vm_compute. reflexivity. Qed.

(** S5, PAIE. *)
Example scenario_paie :
  snd (run [(host_at 1000 7 false, preempt_disable 0);
            (host_at 1500 7 true, preempt_enable 0);
            (host_at 1700 7 true, preempt_disable 1)]
         (rtsl_variables.set_running true rtsl_var_reset))
  = [trace_poid 500; trace_max_poid 500; trace_paie 200; trace_max_paie 200].
Proof. vm_compute. reflexivity. Qed.

(** S6, idle suppression. *)
Example scenario_idle :
  snd (run [(host_at 1000 0 false, preempt_disable 0);
            (host_at 3000 0 false, preempt_enable 0)]
         (rtsl_variables.set_running true rtsl_var_reset))
  = [].
Proof. vm_compute. reflexivity. Qed.

(** ** The initial condition *)

(** C8.  On a CPU that is not running, an event sets [running] exactly
    when it is the schedule-path preempt-disable and the handler finds the
    global flag set and interrupts enabled; when [running] stays false the
    handler has changed nothing and emitted nothing.  So no other handler,
    and no other condition, starts a CPU. *)
Theorem running_set_only_by_sched_preempt_disable :
  forall (h : host) (e : event) (v : rtsl_var),
    rtsl_variables.running v = false ->
    (rtsl_variables.running (fst (handle h e v)) = true <->
       is_sched_preempt_disable e = true
       /\ atomic_read_global_rtsl_enable h <> 0
       /\ irqs_disabled h = false)
    /\ (rtsl_variables.running (fst (handle h e v)) = false ->
        handle h e v = (v, [])).
Proof.
  intros h e v Hr.
  assert (Hstay :
    is_sched_preempt_disable e
      && negb (atomic_read_global_rtsl_enable h =? 0)
      && negb (irqs_disabled h) = false ->
    handle h e v = (v, [])).
  { intros Hc.
    destruct e; mstep; rewrite ?Hr; cbn; try reflexivity;
      match goal with
      | |- context [negb (?x =? 0)] => destruct (x =? 0) eqn:Ex
      end; cbn; rewrite ?Hr; cbn; try reflexivity.
    cbn in Hc. rewrite Ex in Hc. cbn in Hc.
    destruct (atomic_read_global_rtsl_enable h =? 0); cbn; [reflexivity|].
    destruct (irqs_disabled h); cbn; [reflexivity|discriminate]. }
  assert (Hgo :
    is_sched_preempt_disable e
      && negb (atomic_read_global_rtsl_enable h =? 0)
      && negb (irqs_disabled h) = true ->
    rtsl_variables.running (fst (handle h e v)) = true).
  { destruct e; cbn [is_sched_preempt_disable andb]; try discriminate.
    intros Hc. apply andb_true_iff in Hc as [Hc Hi].
    apply andb_true_iff in Hc as [Hs Hg].
    apply negb_true_iff in Hi.
    mstep. rewrite Hs. cbn. rewrite Hr. cbn. rewrite Hg. cbn.
    rewrite Hi. cbn.
    repeat (mcase; cbn); reflexivity. }
  destruct (is_sched_preempt_disable e
            && negb (atomic_read_global_rtsl_enable h =? 0)
            && negb (irqs_disabled h)) eqn:Hc.
  - rewrite (Hgo eq_refl). split; [|discriminate].
    split; [intros _|reflexivity].
    apply andb_true_iff in Hc as [Hc Hi].
    apply andb_true_iff in Hc as [Hs Hg].
    apply negb_true_iff in Hi, Hg. apply Z.eqb_neq in Hg. auto.
  - rewrite (Hstay eq_refl). cbn [fst]. split; [|reflexivity].
    rewrite Hr. split; [discriminate|].
    intros (Hs & Hg & Hi). apply Z.eqb_neq in Hg.
    rewrite Hs, Hg, Hi in Hc. discriminate.
Qed.

(** The witness of C8: the first schedule-path preempt-disable seen with
    interrupts enabled after the enable starts the CPU. *)
Lemma running_set_only_by_sched_preempt_disable_witness :
  rtsl_variables.running
    (fst (handle (host_at 1000 1 false) (preempt_disable 1) rtsl_var_reset))
  = true.
Proof.
  apply (proj1 (running_set_only_by_sched_preempt_disable
                  (host_at 1000 1 false) (preempt_disable 1) rtsl_var_reset
                  eq_refl)).
  split; [reflexivity | split; [cbn; lia | reflexivity]].
Defined.

(** ** The idle filter *)

(** C3.  With the idle task current ([current->pid == 0]),
    [poid_duration] and [paie_duration] close their window without emitting
    anything and without touching the maximum; and no handler emits a
    [poid], [max_poid], [paie] or [max_paie] record or changes the POID or
    PAIE maximum. *)
Theorem idle_windows_emit_nothing :
  forall (h : host),
    current_pid h = 0 ->
    (forall c : cpu,
        let c' := snd (poid_duration h c) in
        sink c' = sink c
        /\ max_of K_poid (var c') = max_of K_poid (var c)
        /\ is_open W_poid (var c') = false)
    /\ (forall c : cpu,
        let c' := snd (paie_duration h c) in
        sink c' = sink c
        /\ max_of K_paie (var c') = max_of K_paie (var c)
        /\ is_open W_paie (var c') = false)
    /\ (forall (e : event) (v : rtsl_var),
        filter is_poid_paie_record (snd (handle h e v)) = []
        /\ max_of K_poid (fst (handle h e v)) = max_of K_poid v
        /\ max_of K_paie (fst (handle h e v)) = max_of K_paie v).
Proof.
  intros [clk pid nr irqsd en] Hpid. cbn in Hpid. subst pid.
  split; [|split].
  - intros c. mstep.
    destruct (poid.delta_start (rtsl_variables.poid (var c)) =? 0) eqn:E;
      cbn; rewrite ?E; auto.
  - intros c. mstep.
    destruct (paie.delta_start (rtsl_variables.paie (var c)) =? 0) eqn:E;
      cbn; rewrite ?E; auto.
  - intros e v. destruct e; mrun; auto.
Qed.

(** The witness of C3: scenario S6, a POID window closed by the idle
    task. *)
Lemma idle_windows_emit_nothing_witness :
  filter is_poid_paie_record
    (snd (handle (host_at 3000 0 false) (preempt_enable 0)
            (fst (handle (host_at 1000 0 false) (preempt_disable 0)
                    (rtsl_variables.set_running true rtsl_var_reset)))))
  = [].
Proof.
  apply (proj2 (proj2 (idle_windows_emit_nothing (host_at 3000 0 false)
                         eq_refl))).
Defined.

(** ** The closure of PSD and DST *)

Lemma sched_exit_emits :
  forall (h : host) (to_schedule : Z) (v : rtsl_var),
    to_schedule <> 0 ->
    rtsl_variables.running v = true ->
    snd (handle h (preempt_enable to_schedule) v) = sched_exit_records h v.
Proof.
  intros h ts v Hts Hr. apply Z.eqb_neq in Hts.
  unfold sched_exit_records.
  mstep. rewrite Hts. cbn. rewrite Hr. cbn.
  destruct (dst.delta_start (rtsl_variables.dst v) =? 0); cbn;
    repeat (mcase; cbn); reflexivity.
Qed.

(** C9.  The schedule-path preempt-enable does not look at the current
    task: on a running CPU and with the idle task current it emits what it
    emits for any task, that is the [dst] record when DST is open, the
    [psd] record, and the [max_dst] and [max_psd] records of the durations
    that exceed their maximum. *)
Theorem psd_dst_emitted_for_idle :
  forall (h : host) (to_schedule : Z) (v : rtsl_var),
    to_schedule <> 0 ->
    rtsl_variables.running v = true ->
    current_pid h = 0 ->
    let recs := snd (handle h (preempt_enable to_schedule) v) in
    recs = sched_exit_records h v
    /\ (exists d, In (trace_psd d) recs
                  /\ ((d >? max_of K_psd v) = true -> In (trace_max_psd d) recs))
    /\ (is_open W_dst v = true ->
        exists d, In (trace_dst d) recs
                  /\ ((d >? max_of K_dst v) = true -> In (trace_max_dst d) recs)).
Proof.
  intros h ts v Hts Hr _ recs. subst recs.
  rewrite (sched_exit_emits h ts v Hts Hr).
  unfold sched_exit_records. cbn [max_of].
  split; [reflexivity|split].
  - eexists. split.
    + apply in_or_app. right. left. reflexivity.
    + intros ->. apply in_or_app. right. right. left. reflexivity.
  - intros ->. eexists. split.
    + left. reflexivity.
    + intros ->. right. left. reflexivity.
Qed.

(** The witness of C9: the idle task leaves the scheduler with PSD and
    DST open. *)
Lemma psd_dst_emitted_for_idle_witness :
  snd (handle (host_at 2000 0 false) (preempt_enable 1)
         (fst (run [(host_at 1000 7 false, preempt_disable 1);
                    (host_at 1100 7 false, irq_disable 0)] rtsl_var_reset)))
  = [trace_dst 900; trace_max_dst 900; trace_psd 1000; trace_max_psd 1000].
Proof.
  refine (eq_trans
            (proj1 (psd_dst_emitted_for_idle (host_at 2000 0 false) 1 _ _ _ _))
            _).
  - lia.
  - reflexivity.
  - reflexivity.
  - vm_compute. reflexivity.
Defined.

(** C10.  On a running CPU the schedule-path preempt-enable closes PSD
    without asking whether it is open: with [psd.delta_start = 0] the [psd]
    record carries the clock value itself ([now - 0]).  The closure of DST
    is guarded: with DST not open the handler emits no [dst] or [max_dst]
    record and leaves [struct dst] alone. *)
Theorem psd_closed_unguarded_dst_guarded :
  forall (h : host) (to_schedule : Z) (v : rtsl_var),
    to_schedule <> 0 ->
    rtsl_variables.running v = true ->
    let res := handle h (preempt_enable to_schedule) v in
    (is_open W_psd v = false ->
     In (trace_psd
           (u64 (trace_clock_local h (if is_open W_dst v then 1 else 0)%nat)))
        (snd res))
    /\ (is_open W_dst v = false ->
        filter is_dst_record (snd res) = []
        /\ rtsl_variables.dst (fst res) = rtsl_variables.dst v).
Proof.
  intros h ts v Hts Hr res. split.
  - intros Hp. subst res. rewrite (sched_exit_emits h ts v Hts Hr).
    unfold sched_exit_records. apply in_or_app. right. left.
    unfold is_open, delta_start in Hp.
    apply negb_false_iff, Z.eqb_eq in Hp. rewrite Hp, Z.sub_0_r, u64_idem.
    reflexivity.
  - intros Hd. split.
    + subst res. rewrite (sched_exit_emits h ts v Hts Hr).
      unfold sched_exit_records. rewrite Hd. cbn.
      destruct (_ >? _); reflexivity.
    + subst res. apply Z.eqb_neq in Hts.
      unfold is_open, delta_start in Hd.
      mstep. rewrite Hts. cbn. rewrite Hr. cbn. rewrite Hd. cbn.
      repeat (mcase; cbn); reflexivity.
Qed.

(** The witness of C10: a running CPU with every window closed at clock
    5000. *)
Lemma psd_closed_unguarded_dst_guarded_witness :
  In (trace_psd 5000)
     (snd (handle (host_at 5000 1 false) (preempt_enable 1)
             (rtsl_variables.set_running true rtsl_var_reset)))
  /\ filter is_dst_record
       (snd (handle (host_at 5000 1 false) (preempt_enable 1)
               (rtsl_variables.set_running true rtsl_var_reset))) = [].
Proof.
  pose proof (psd_closed_unguarded_dst_guarded (host_at 5000 1 false) 1
                (rtsl_variables.set_running true rtsl_var_reset)
                ltac:(lia) eq_refl) as [Hp Hd].
  split.
  - exact (Hp eq_refl).
  - exact (proj1 (Hd eq_refl)).
Defined.

(** ** The maxima *)

Lemma max_values_app (k : max_kind) (l1 l2 : list record) :
  max_values k (l1 ++ l2) = max_values k l1 ++ max_values k l2.
Proof.
  induction l1 as [|r l1 IH]; cbn; [reflexivity|].
  destruct (max_value k r); cbn; rewrite IH; reflexivity.
Qed.

Lemma exceeds_trans (k : max_kind) (a b c : Z) :
  exceeds k a b -> exceeds k b c -> exceeds k a c.
Proof. destruct k; cbn; lia. Qed.

(** One event emits at most one maximum of each kind; the one it emits
    is the new value of the stored maximum and compares to the old one as
    the handler's test says: not below it for POID and PAIE, above it for
    PSD and DST. *)
Lemma handle_max_step (k : max_kind) (h : host) (e : event) (v : rtsl_var) :
  (max_values k (snd (handle h e v)) = []
   /\ max_of k (fst (handle h e v)) = max_of k v)
  \/ (exists d, max_values k (snd (handle h e v)) = [d]
                /\ max_of k (fst (handle h e v)) = d
                /\ exceeds k (max_of k v) d).
Proof.
  destruct k, e; mrun;
    first [ left; split; reflexivity
          | right; eexists; split; [reflexivity|];
            split; [reflexivity|]; cbn; to_prop; lia ].
Qed.

Lemma run_max_values (k : max_kind) (evs : list (host * event)) :
  forall v : rtsl_var,
    StronglySorted (exceeds k) (max_values k (snd (run evs v)))
    /\ Forall (exceeds k (max_of k v)) (max_values k (snd (run evs v))).
Proof.
  induction evs as [|[h e] evs IH]; intros v; cbn [run].
  - cbn. split; constructor.
  - destruct (handle h e v) as [v1 r1] eqn:Hh.
    destruct (run evs v1) as [v2 r2] eqn:Hr.
    cbn [snd]. rewrite max_values_app.
    specialize (IH v1). rewrite Hr in IH. cbn [snd] in IH.
    destruct IH as [Hs Ha].
    destruct (handle_max_step k h e v) as [[Hn Hm] | (d & Hd & Hm & Hx)];
      rewrite Hh in *; cbn [fst snd] in *.
    + rewrite Hn. cbn [app]. rewrite <- Hm. auto.
    + rewrite Hd. cbn [app]. subst d. split.
      * constructor; assumption.
      * constructor; [assumption|].
        eapply Forall_impl; [|exact Ha].
        intros c Hc. eapply exceeds_trans; eassumption.
Qed.

(** C2, as the code has it.  Along any stream of events on one CPU the
    [max_psd] values and the [max_dst] values are strictly increasing; the
    [max_poid] values and the [max_paie] values never decrease, a duration
    equal to the maximum being emitted again. *)
Theorem max_records_increase :
  forall (evs : list (host * event)) (v : rtsl_var),
    let recs := snd (run evs v) in
    StronglySorted Z.lt (max_values K_psd recs)
    /\ StronglySorted Z.lt (max_values K_dst recs)
    /\ StronglySorted Z.le (max_values K_poid recs)
    /\ StronglySorted Z.le (max_values K_paie recs).
Proof.
  intros evs v recs. subst recs. repeat split.
  - exact (proj1 (run_max_values K_psd evs v)).
  - exact (proj1 (run_max_values K_dst evs v)).
  - exact (proj1 (run_max_values K_poid evs v)).
  - exact (proj1 (run_max_values K_paie evs v)).
Qed.

(** C2 fails for POID: after an enable, two windows of 2000 ns each give
    [max_poid{2000}] twice. *)
Lemma max_poid_not_strictly_increasing :
  ~ StronglySorted Z.lt
      (max_values K_poid (snd (run two_equal_poid_windows rtsl_var_reset))).
Proof.
  assert (H : max_values K_poid
                (snd (run two_equal_poid_windows rtsl_var_reset))
              = [2000; 2000]) by (vm_compute; reflexivity).
  rewrite H. intros Hs. apply StronglySorted_inv in Hs as [_ Hf].
  apply Forall_inv in Hf. lia.
Qed.

(** ** Interference removal *)

Lemma run_cons (h : host) (e : event) (l : list (host * event)) (v : rtsl_var) :
  run ((h, e) :: l) v =
    (fst (run l (fst (handle h e v))),
     snd (handle h e v) ++ snd (run l (fst (handle h e v)))).
Proof.
  cbn [run]. destruct (handle h e v) as [v1 r1]. cbn [fst snd].
  destruct (run l v1); reflexivity.
Qed.

Lemma run_app (l1 l2 : list (host * event)) (v : rtsl_var) :
  run (l1 ++ l2) v =
    (fst (run l2 (fst (run l1 v))),
     snd (run l1 v) ++ snd (run l2 (fst (run l1 v)))).
Proof.
  revert v. induction l1 as [|[h e] l1 IH]; intros v.
  - cbn [fst snd app run]. destruct (run l2 v); reflexivity.
  - cbn [app]. rewrite !run_cons, IH. cbn [fst snd].
    rewrite app_assoc. reflexivity.
Qed.

Lemma poid_values_app (l1 l2 : list record) :
  poid_values (l1 ++ l2) = poid_values l1 ++ poid_values l2.
Proof.
  induction l1 as [|r l1 IH]; cbn; [reflexivity|].
  destruct r; cbn; rewrite IH; reflexivity.
Qed.

Lemma irq_execution_values_app (l1 l2 : list record) :
  irq_execution_values (l1 ++ l2)
  = irq_execution_values l1 ++ irq_execution_values l2.
Proof.
  induction l1 as [|r l1 IH]; cbn; [reflexivity|].
  destruct r; cbn; rewrite IH; reflexivity.
Qed.

(** The entry of an interrupt starts the IRQ window at the second clock
    read and leaves [struct poid] alone. *)
Lemma irq_entry_spec (h : host) (v : rtsl_var) :
  rtsl_variables.running v = true ->
  let r := handle h (irq_disable 1) v in
  snd r = []
  /\ rtsl_variables.running (fst r) = true
  /\ rtsl_variables.poid (fst r) = rtsl_variables.poid v
  /\ irq.delta_start (rtsl_variables.irq (fst r))
     = u64 (trace_clock_local h 1%nat).
Proof.
  destruct v as [ic po pa ps ds ir nm rn]. cbn. intros ->.
  mrun; repeat split; reflexivity.
Qed.

Lemma irq_vector_entry_spec (h : host) (vector : Z) (v : rtsl_var) :
  rtsl_variables.running v = true ->
  let r := handle h (irq_vector_entry vector) v in
  snd r = []
  /\ rtsl_variables.running (fst r) = true
  /\ rtsl_variables.poid (fst r) = rtsl_variables.poid v
  /\ irq.delta_start (rtsl_variables.irq (fst r))
     = irq.delta_start (rtsl_variables.irq v).
Proof.
  destruct v as [ic po pa ps ds ir nm rn]. cbn. intros ->.
  mrun; repeat split; reflexivity.
Qed.

(** The exit of an interrupt emits the duration it measured and adds it
    to the start of the open POID window. *)
Lemma irq_exit_spec (h : host) (v : rtsl_var) :
  rtsl_variables.running v = true ->
  poid.delta_start (rtsl_variables.poid v) <> 0 ->
  let r := handle h (irq_enable 1) v in
  let duration :=
    u64 (u64 (trace_clock_local h 0%nat)
         - irq.delta_start (rtsl_variables.irq v)) in
  snd r = [trace_irq_execution (irq.vector (rtsl_variables.irq v))
             (irq.arrival_time (rtsl_variables.irq v)) duration]
  /\ rtsl_variables.running (fst r) = true
  /\ irq.delta_start (rtsl_variables.irq (fst r)) = 0
  /\ rtsl_variables.poid (fst r)
     = poid.set_delta_start
         (u64 (poid.delta_start (rtsl_variables.poid v) + duration))
         (rtsl_variables.poid v).
Proof.
  destruct v as [ic [ppd pid ps pm] pa psd0 ds ir nm rn]. cbn.
  intros -> Hs. apply Z.eqb_neq in Hs.
  mstep. rewrite ?Hs. cbn.
  repeat (mcase; mstep; rewrite ?Hs; cbn); repeat split; reflexivity.
Qed.

(** Inside an interrupt the thread-side preempt handlers do nothing. *)
Lemma preempt_toggles_inside_irq (body : list (host * bool)) (v : rtsl_var) :
  rtsl_variables.running v = true ->
  irq.delta_start (rtsl_variables.irq v) <> 0 ->
  run (map preempt_toggle body) v = (v, []).
Proof.
  intros Hr Hi. induction body as [|[h b] body IH]; [reflexivity|].
  cbn [map]. unfold preempt_toggle at 1. cbn [fst snd].
  rewrite run_cons.
  assert (Hh : forall e, e = preempt_disable 0 \/ e = preempt_enable 0 ->
                         handle h e v = (v, [])).
  { apply Z.eqb_neq in Hi. intros e [->| ->]; mstep; rewrite Hr; cbn;
      rewrite Hi; reflexivity. }
  rewrite Hh by (destruct b; auto). cbn [fst snd app].
  rewrite IH. reflexivity.
Qed.

(** One interrupt inside an open POID window: it emits its own
    [irq_execution] record and pushes the start of the window forward by
    the duration it measured. *)
Lemma irq_inside_poid (i : irq_run) (v : rtsl_var) :
  rtsl_variables.running v = true ->
  poid.delta_start (rtsl_variables.poid v) <> 0 ->
  irq_began i <> 0 ->
  let v' := fst (run (irq_events i) v) in
  let recs := snd (run (irq_events i) v) in
  rtsl_variables.running v' = true
  /\ irq.delta_start (rtsl_variables.irq v') = 0
  /\ rtsl_variables.poid v'
     = poid.set_delta_start
         (u64 (poid.delta_start (rtsl_variables.poid v)
               + u64 (irq_ended i - irq_began i)))
         (rtsl_variables.poid v)
  /\ poid_values recs = []
  /\ irq_execution_values recs = [u64 (irq_ended i - irq_began i)].
Proof.
  intros Hr Hs Hb. destruct i as [hin [hid vec] body hout].
  unfold irq_events, irq_ended, irq_began in *.
  cbn [irq_in irq_named irq_body irq_out fst snd] in *.
  rewrite !run_cons, run_app. cbn [fst snd].
  destruct (irq_entry_spec hin v Hr) as (R1 & Hr1 & Hp1 & Hi1).
  set (v1 := fst (handle hin (irq_disable 1) v)) in *.
  destruct (irq_vector_entry_spec hid vec v1 Hr1) as (R2 & Hr2 & Hp2 & Hi2).
  set (v2 := fst (handle hid (irq_vector_entry vec) v1)) in *.
  assert (Hi2' : irq.delta_start (rtsl_variables.irq v2) <> 0)
    by (rewrite Hi2, Hi1; exact Hb).
  rewrite (preempt_toggles_inside_irq body v2 Hr2 Hi2').
  rewrite run_cons. cbn [run fst snd].
  assert (Hs2 : poid.delta_start (rtsl_variables.poid v2) <> 0)
    by (rewrite Hp2, Hp1; exact Hs).
  destruct (irq_exit_spec hout v2 Hr2 Hs2) as (R3 & Hr3 & Hi3 & Hp3).
  rewrite R1, R2, R3, Hp3, Hi2, Hi1, Hp2, Hp1. cbn.
  repeat split; assumption.
Qed.

Lemma in_order_le (irqs : list irq_run) :
  forall t t1 : Z, in_order t irqs t1 -> t <= t1.
Proof.
  induction irqs as [|i irqs IH]; cbn; intros t t1 H; [exact H|].
  destruct H as (H1 & H2 & H3). apply IH in H3. lia.
Qed.

(** Interrupts that run one after the other inside an open POID window
    leave its start at the opening time plus the sum of their lengths, and
    emit no [poid] record. *)
Lemma irqs_inside_poid (irqs : list irq_run) :
  forall (v : rtsl_var) (t t1 : Z),
    rtsl_variables.running v = true ->
    irq.delta_start (rtsl_variables.irq v) = 0 ->
    0 < poid.delta_start (rtsl_variables.poid v) <= t ->
    in_order t irqs t1 ->
    t1 < 2 ^ 64 ->
    let v' := fst (run (flat_map irq_events irqs) v) in
    let recs := snd (run (flat_map irq_events irqs) v) in
    rtsl_variables.running v' = true
    /\ irq.delta_start (rtsl_variables.irq v') = 0
    /\ rtsl_variables.poid v'
       = poid.set_delta_start
           (poid.delta_start (rtsl_variables.poid v)
            + total (map irq_length irqs))
           (rtsl_variables.poid v)
    /\ 0 <= total (map irq_length irqs)
    /\ poid.delta_start (rtsl_variables.poid v)
       + total (map irq_length irqs) <= t1
    /\ poid_values recs = []
    /\ irq_execution_values recs = map irq_length irqs.
Proof.
  induction irqs as [|i irqs IH]; intros v t t1 Hr Hi Hs Ho Ht1.
  - cbn in *. rewrite Z.add_0_r. repeat split; try assumption; try lia.
    destruct (rtsl_variables.poid v); reflexivity.
  - cbn [flat_map map total fold_right in_order] in *.
    destruct Ho as (Hb & He & Ho).
    pose proof (in_order_le _ _ _ Ho) as Hle.
    pose proof (u64_range (trace_clock_local (irq_in i) 1%nat)) as Rb.
    fold (irq_began i) in Rb.
    rewrite run_app. cbn [fst snd].
    assert (Hs0 : poid.delta_start (rtsl_variables.poid v) <> 0) by lia.
    assert (Hb0 : irq_began i <> 0) by lia.
    destruct (irq_inside_poid i v Hr Hs0 Hb0)
      as (Hr1 & Hi1 & Hp1 & Hv1 & Hx1).
    set (v1 := fst (run (irq_events i) v)) in *.
    assert (Hlen : u64 (irq_ended i - irq_began i) = irq_length i)
      by (apply u64_small; unfold irq_length; lia).
    rewrite Hlen in *.
    assert (Hsum : u64 (poid.delta_start (rtsl_variables.poid v)
                        + irq_length i)
                   = poid.delta_start (rtsl_variables.poid v) + irq_length i)
      by (apply u64_small; unfold irq_length; lia).
    rewrite Hsum in Hp1.
    assert (Hs1 : 0 < poid.delta_start (rtsl_variables.poid v1)
                  <= irq_ended i)
      by (rewrite Hp1; cbn; unfold irq_length; lia).
    destruct (IH v1 (irq_ended i) t1 Hr1 Hi1 Hs1 Ho Ht1)
      as (Hr2 & Hi2 & Hp2 & Hn2 & Hb2 & Hv2 & Hx2).
    rewrite poid_values_app, irq_execution_values_app, Hv1, Hv2, Hx1, Hx2.
    rewrite Hp2, Hp1 in *. cbn in Hb2 |- *.
    fold (total (map irq_length irqs)) in *.
    assert (0 <= irq_length i) by (unfold irq_length; lia).
    repeat split; try assumption; try lia.
    unfold poid.set_delta_start. cbn. f_equal. lia.
Qed.

Lemma poid_open_spec (h : host) (v : rtsl_var) :
  rtsl_variables.running v = true ->
  irq.delta_start (rtsl_variables.irq v) = 0 ->
  poid.id (rtsl_variables.poid v) = false ->
  let r := handle h (preempt_disable 0) v in
  snd r = []
  /\ rtsl_variables.running (fst r) = true
  /\ irq.delta_start (rtsl_variables.irq (fst r)) = 0
  /\ rtsl_variables.poid (fst r)
     = poid.mk true false (u64 (trace_clock_local h 0%nat))
         (poid.max (rtsl_variables.poid v)).
Proof.
  destruct v as [ic [ppd pid ps pm] pa psd0 ds [ia ist iw iv] nm rn]. cbn.
  intros -> -> ->. mrun; repeat split; reflexivity.
Qed.

Lemma poid_close_spec (h : host) (v : rtsl_var) :
  rtsl_variables.running v = true ->
  irq.delta_start (rtsl_variables.irq v) = 0 ->
  poid.id (rtsl_variables.poid v) = false ->
  poid.delta_start (rtsl_variables.poid v) <> 0 ->
  current_pid h <> 0 ->
  let r := handle h (preempt_enable 0) v in
  poid_values (snd r)
  = [u64 (u64 (trace_clock_local h 0%nat)
          - poid.delta_start (rtsl_variables.poid v))]
  /\ irq_execution_values (snd r) = [].
Proof.
  destruct v as [ic [ppd pid ps pm] pa psd0 ds [ia ist iw iv] nm rn]. cbn.
  intros -> -> -> Hs Hp. apply Z.eqb_neq in Hs, Hp.
  mstep. rewrite ?Hs, ?Hp. cbn.
  repeat (mcase; mstep; rewrite ?Hs, ?Hp; cbn);
    try discriminate; split; reflexivity.
Qed.

(** A window bounded by the thread-side [preempt_disable] and
    [preempt_enable], with interrupts only in between, needs nothing of PSD
    and nothing of the start POID had before, [preempt_disable] setting it
    anew: a thread disables preemption at [t0] on a running CPU, interrupts
    run one after the other, the thread (not the idle task) enables
    preemption at [t1]; each interrupt is reported with the length it
    measured, and the one [poid] record emitted carries the length of the
    window less the sum of those lengths. *)
Theorem poid_excludes_irq_time :
  forall (v : rtsl_var) (h_open : host) (irqs : list irq_run) (h_close : host),
    rtsl_variables.running v = true ->
    is_open W_irq v = false ->
    poid.id (rtsl_variables.poid v) = false ->
    current_pid h_close <> 0 ->
    let t0 := u64 (trace_clock_local h_open 0%nat) in
    let t1 := u64 (trace_clock_local h_close 0%nat) in
    0 < t0 ->
    in_order t0 irqs t1 ->
    let recs := snd (run (poid_window h_open irqs h_close) v) in
    irq_execution_values recs = map irq_length irqs
    /\ poid_values recs = [(t1 - t0) - total (map irq_length irqs)].
Proof.
  intros v h_open irqs h_close Hr Hi Hid Hpid t0 t1 Ht0 Ho recs.
  unfold is_open, delta_start in Hi. apply negb_false_iff, Z.eqb_eq in Hi.
  subst recs. unfold poid_window.
  rewrite run_cons, run_app. cbn [fst snd].
  destruct (poid_open_spec h_open v Hr Hi Hid) as (R0 & Hr0 & Hi0 & Hp0).
  set (v0 := fst (handle h_open (preempt_disable 0) v)) in *.
  fold t0 in Hp0.
  pose proof (u64_range (trace_clock_local h_close 0%nat)) as Rt1.
  fold t1 in Rt1.
  assert (Hs0 : 0 < poid.delta_start (rtsl_variables.poid v0) <= t0)
    by (rewrite Hp0; cbn; lia).
  destruct (irqs_inside_poid irqs v0 t0 t1 Hr0 Hi0 Hs0 Ho (proj2 Rt1))
    as (Hr1 & Hi1 & Hp1 & Hn1 & Hb1 & Hv1 & Hx1).
  set (v1 := fst (run (flat_map irq_events irqs) v0)) in *.
  rewrite Hp0 in Hp1, Hb1. cbn in Hp1, Hb1.
  rewrite run_cons. cbn [run fst snd].
  assert (Hid1 : poid.id (rtsl_variables.poid v1) = false)
    by (rewrite Hp1; reflexivity).
  assert (Hs1 : poid.delta_start (rtsl_variables.poid v1) <> 0)
    by (rewrite Hp1; cbn; lia).
  destruct (poid_close_spec h_close v1 Hr1 Hi1 Hid1 Hs1 Hpid) as [Hc Hcx].
  rewrite !poid_values_app, !irq_execution_values_app.
  rewrite R0, Hv1, Hx1, app_nil_r, Hc, Hcx, app_nil_r. cbn [app poid_values irq_execution_values].
  split; [reflexivity|].
  rewrite Hp1. cbn. fold t1. f_equal.
  rewrite u64_small; lia.
Qed.

(** Scenario S2 with a second interrupt: preemption is disabled from
    1000 to 3000, vector 42 runs from 1500 to 1800 and vector 43 from 2000
    to 2100. *)
Lemma poid_excludes_irq_time_witness :
  poid_values
    (snd (run (poid_window (host_at 1000 7 false)
                 [irq_at 42 1500 1800; irq_at 43 2000 2100]
                 (host_at 3000 7 false))
            (rtsl_variables.set_running true rtsl_var_reset)))
  = [1600].
Proof.
  refine (eq_trans
            (proj2 (poid_excludes_irq_time
                      (rtsl_variables.set_running true rtsl_var_reset)
                      (host_at 1000 7 false)
                      [irq_at 42 1500 1800; irq_at 43 2000 2100]
                      (host_at 3000 7 false) _ _ _ _ _ _))
            _).
  - reflexivity.
  - reflexivity.
  - reflexivity.
  - cbn. lia.
  - vm_compute. reflexivity.
  - vm_compute. intuition discriminate.
  - vm_compute. reflexivity.
Defined.

(** ** Enable and disable *)

Lemma for_each_reset_spec (k : kernel) (cpus : list nat) :
  forall s : system,
    let s' := fold_left
                (fun s cpu =>
                   set_per_cpu cpu (fun _ => rtsl_var_reset) (var_reset cpu) s)
                cpus s in
    history s' = history s ++ map var_reset cpus
    /\ global_rtsl_enable s' = global_rtsl_enable s
    /\ tps s' = tps s
    /\ (forall cpu, In cpu cpus -> per_cpu_rtsl_var s' cpu = rtsl_var_reset)
    /\ (forall cpu, ~ In cpu cpus ->
                    per_cpu_rtsl_var s' cpu = per_cpu_rtsl_var s cpu).
Proof.
  induction cpus as [|c cpus IH]; intros s; cbn [fold_left map].
  - rewrite app_nil_r. cbn. repeat split; auto. intros cpu [].
  - specialize (IH (set_per_cpu c (fun _ => rtsl_var_reset) (var_reset c) s)).
    cbv zeta in IH. destruct IH as (Hh & Hg & Ht & Hin & Hout).
    cbv zeta. rewrite Hh, Hg, Ht. cbn [history set_per_cpu global_rtsl_enable tps].
    rewrite <- app_assoc. cbn [app].
    repeat split; auto.
    + intros cpu Hc.
      destruct (in_dec Nat.eq_dec cpu cpus) as [Hi|Hn]; [auto|].
      rewrite (Hout cpu Hn). cbn.
      destruct Hc as [->|Hc]; [|contradiction].
      rewrite Nat.eqb_refl. reflexivity.
    + intros cpu Hc. cbn in Hc.
      rewrite Hout by tauto. cbn.
      destruct (Nat.eqb_spec cpu c); [subst; tauto|reflexivity].
Qed.

Lemma all_before_app (P Q : action -> bool) (l1 l2 : list action) :
  forallb (fun a => negb (Q a)) l1 = true ->
  all_before P Q l2 = true ->
  all_before P Q (l1 ++ l2) = true.
Proof.
  induction l1 as [|a l1 IH]; cbn; [auto|].
  intros H1 H2. apply andb_true_iff in H1 as [Ha H1].
  rewrite Ha, IH by assumption. reflexivity.
Qed.

Lemma all_before_none (P Q : action -> bool) (l : list action) :
  forallb (fun a => negb (P a)) l = true -> all_before P Q l = true.
Proof.
  induction l as [|a l IH]; cbn; [auto|].
  intros H. apply andb_true_iff in H as [Ha H].
  rewrite IH by assumption.
  assert (existsb P l = false) as ->.
  { clear -H. induction l as [|b l IH]; cbn in *; [reflexivity|].
    apply andb_true_iff in H as [Hb H]. apply negb_true_iff in Hb.
    rewrite Hb, IH by assumption. reflexivity. }
  cbn. rewrite orb_true_r. reflexivity.
Qed.

Lemma steps_since_app (s s' : system) (l : list action) :
  history s' = history s ++ l -> steps_since s s' = l.
Proof.
  intros H. unfold steps_since. rewrite H.
  rewrite skipn_app, skipn_all, Nat.sub_diag. reflexivity.
Qed.

Lemma unregister_calls_kind (l : list tp_and_name.t) (a : action) :
  In a (unregister_calls l) -> is_probe_unregister a = true.
Proof.
  unfold unregister_calls. intros H.
  apply in_map_iff in H as (e & <- & _). reflexivity.
Qed.

Lemma var_resets_kind (cpus : list nat) (a : action) :
  In a (map var_reset cpus) -> is_var_reset a = true.
Proof. intros H. apply in_map_iff in H as (c & <- & _). reflexivity. Qed.

Lemma existsb_false {A} (P : A -> bool) (l : list A) :
  (forall a, In a l -> P a = false) -> existsb P l = false.
Proof.
  intros H. destruct (existsb P l) eqn:E; [|reflexivity].
  apply existsb_exists in E as (a & Ha & Hp). rewrite (H a Ha) in Hp.
  discriminate.
Qed.

(** C7, as the code has it.  [rtsl_disable] clears the global flag, then
    zeroes the variables of every online CPU (which is also what clears
    their [running]; no separate pass does it), and only then unregisters
    the probes whose [registered] is set, clearing it. *)
Theorem disable_zeroes_before_unregistering :
  forall (k : kernel) (s : system),
    let s' := rtsl_disable k s in
    steps_since s s'
    = atomic_set 0 :: map var_reset (cpu_online_mask k)
        ++ unregister_calls (tps s)
    /\ all_before is_var_reset is_probe_unregister (steps_since s s') = true
    /\ existsb is_var_stop (steps_since s s') = false
    /\ global_rtsl_enable s' = 0
    /\ (forall cpu, In cpu (cpu_online_mask k) ->
                    per_cpu_rtsl_var s' cpu = rtsl_var_reset)
    /\ Forall (fun e => tp_and_name.registered e = 0) (tps s').
Proof.
  intros k s s'.
  pose proof (for_each_reset_spec k (cpu_online_mask k)
                (set_global_rtsl_enable 0 s)) as H.
  cbv zeta in H. destruct H as (Hh & Hg & Ht & Hin & _).
  assert (Hs : history s'
               = history s ++ atomic_set 0 :: map var_reset (cpu_online_mask k)
                   ++ unregister_calls (tps s)).
  { subst s'. unfold rtsl_disable, unregister_tracepoints, rtsl_var_destroy_all,
      for_each_online_cpu. cbn [history set_tps].
    rewrite Hh, Ht. cbn [history tps set_global_rtsl_enable].
    rewrite <- !app_assoc. reflexivity. }
  rewrite (steps_since_app s s' _ Hs).
  split; [reflexivity|]. split; [|split; [|split; [|split]]].
  - cbn [all_before is_probe_unregister negb orb andb].
    apply all_before_app.
    + apply forallb_forall. intros a Ha.
      apply var_resets_kind in Ha. destruct a; try discriminate. reflexivity.
    + apply all_before_none. apply forallb_forall. intros a Ha.
      apply unregister_calls_kind in Ha. destruct a; try discriminate.
      reflexivity.
  - cbn [existsb is_var_stop orb]. apply existsb_false. intros a Ha.
    apply in_app_or in Ha as [Ha|Ha].
    + apply var_resets_kind in Ha. destruct a; try discriminate. reflexivity.
    + apply unregister_calls_kind in Ha. destruct a; try discriminate.
      reflexivity.
  - subst s'. unfold rtsl_disable, unregister_tracepoints, rtsl_var_destroy_all,
      for_each_online_cpu. cbn [global_rtsl_enable set_tps]. rewrite Hg.
    reflexivity.
  - intros cpu Hc. subst s'.
    unfold rtsl_disable, unregister_tracepoints, rtsl_var_destroy_all,
      for_each_online_cpu. cbn [per_cpu_rtsl_var set_tps]. auto.
  - subst s'. unfold rtsl_disable, unregister_tracepoints. cbn [tps set_tps].
    apply Forall_forall. intros e He. apply in_map_iff in He as (e0 & <- & _).
    destruct (tp_and_name.registered e0 =? 0) eqn:E; cbn.
    + apply Z.eqb_eq. exact E.
    + reflexivity.
Qed.

(** C7 fails: on a two-CPU kernel, disabling after a successful enable
    zeroes the variables of a CPU before it unregisters a probe, so not
    "every probe is unregistered before the state is zeroed". *)
Lemma disable_does_not_unregister_first :
  all_before is_probe_unregister is_var_reset
    (steps_since module_enabled (rtsl_disable linux_ok module_enabled))
  = false.
Proof. vm_compute. reflexivity. Qed.

(** What the loop of [register_tracepoints] leaves behind: it runs to its
    end exactly when no entry fails; it only makes registration calls; and
    every call it made, the failing one included, was for an entry that is
    left with its tracepoint and with [registered] set. *)
Lemma register_loop_spec (k : kernel) (todo : list tp_and_name.t) :
  let todo' := fst (fst (register_loop k todo)) in
  let calls := snd (fst (register_loop k todo)) in
  let ok := snd (register_loop k todo) in
  ok = negb (registration_fails k todo)
  /\ (forall a, In a calls -> is_probe_register a = true)
  /\ (forall ktp p rv,
         In (probe_register ktp p rv) calls ->
         exists e, In e todo'
                   /\ tp_and_name.tp e = Some ktp
                   /\ tp_and_name.probe e = p
                   /\ tp_and_name.registered e <> 0).
Proof.
  induction todo as [|e rest IH]; cbn [register_loop registration_fails existsb].
  - cbn. split; [reflexivity|]. split; intros; contradiction.
  - cbn [tp_and_name.tp tp_and_name.set_tp tp_and_name.probe
           tp_and_name.set_registered].
    destruct (get_struct_tracepoint k (tp_and_name.name e)) as [ktp|] eqn:Hl.
    + destruct (tracepoint_probe_register k ktp (tp_and_name.probe e) =? 0)
        eqn:Hr; cbn [negb orb].
      * destruct (register_loop k rest) as [[rest' calls] ok].
        cbn [fst snd] in *. destruct IH as (Hok & Hk & Hc).
        split; [exact Hok|]. split.
        -- intros a [<-|Ha]; [reflexivity|auto].
        -- intros t p rv [Heq|Hin].
           ++ inversion Heq; subst. eexists. split; [left; reflexivity|].
              cbn. repeat split. lia.
           ++ destruct (Hc t p rv Hin) as (e' & He' & Hrest).
              exists e'. split; [right; exact He'|exact Hrest].
      * cbn [fst snd]. split; [reflexivity|]. split.
        -- intros a [<-|[]]. reflexivity.
        -- intros t p rv [Heq|[]]. inversion Heq; subst.
           eexists. split; [left; reflexivity|].
           cbn. repeat split. lia.
    + cbn [fst snd orb negb]. split; [reflexivity|].
      split; intros; contradiction.
Qed.

(** C6.  When some entry of [tps] cannot be hooked, [rtsl_enable] returns
    [-EINVAL] and leaves the global flag as it was (so clear, if it was
    clear); after zeroing the variables it has made registration calls and
    then unregistration calls only, and every probe it registered is among
    those it unregistered. *)
Theorem failed_enable_rolls_back :
  forall (k : kernel) (s : system),
    registration_fails k (tps s) = true ->
    let s' := snd (rtsl_enable k s) in
    fst (rtsl_enable k s) = - EINVAL
    /\ global_rtsl_enable s' = global_rtsl_enable s
    /\ (global_rtsl_enable s = 0 -> rtsl_enabled_in s' = false)
    /\ exists regs unregs : list action,
         steps_since s s'
         = map var_reset (cpu_online_mask k) ++ regs ++ unregs
         /\ forallb is_probe_register regs = true
         /\ forallb is_probe_unregister unregs = true
         /\ forall ktp p rv,
              In (probe_register ktp p rv) regs ->
              In (probe_unregister (Some ktp) p) unregs.
Proof.
  intros k s Hf s'.
  pose proof (for_each_reset_spec k (cpu_online_mask k) s) as H.
  cbv zeta in H. destruct H as (Hh & Hg & Ht & _ & _).
  pose proof (register_loop_spec k (tps s)) as L. cbv zeta in L.
  rewrite Hf in L. destruct L as (Hok & Hk & Hc).
  subst s'. unfold rtsl_enable, register_tracepoints, rtsl_var_init_all,
    for_each_online_cpu. rewrite Ht.
  destruct (register_loop k (tps s)) as [[tps' calls] ok].
  cbn [fst snd negb] in *. subst ok.
  assert (Hne : negb (- EINVAL =? 0) = true) by reflexivity.
  rewrite Hne. cbn [fst snd global_rtsl_enable set_tps].
  split; [reflexivity|]. split; [exact Hg|]. split.
  { intros H0. unfold rtsl_enabled_in, set_tps. cbn [global_rtsl_enable].
    rewrite Hg, H0. reflexivity. }
  exists calls, (unregister_calls tps'). split; [|split; [|split]].
  - apply steps_since_app. unfold set_tps. cbn [history].
    rewrite Hh, <- app_assoc. reflexivity.
  - apply forallb_forall. exact Hk.
  - apply forallb_forall. apply unregister_calls_kind.
  - intros ktp p rv Hin. destruct (Hc ktp p rv Hin) as (e & He & Htp & Hp & Hr).
    unfold unregister_calls. apply in_map_iff. exists e.
    rewrite Htp, Hp. split; [reflexivity|].
    apply filter_In. split; [exact He|].
    apply negb_true_iff, Z.eqb_neq. exact Hr.
Qed.

(** The witness of C6: the kernel refuses the probe of [preempt_enable],
    the last entry of the array. *)
Lemma failed_enable_rolls_back_witness :
  fst (rtsl_enable linux_refusing (module_loaded false)) = - EINVAL
  /\ rtsl_enabled_in (snd (rtsl_enable linux_refusing (module_loaded false)))
     = false.
Proof.
  pose proof (failed_enable_rolls_back linux_refusing (module_loaded false))
    as H.
  assert (Hf : registration_fails linux_refusing (tps (module_loaded false))
               = true) by (vm_compute; reflexivity).
  destruct (H Hf) as (Hr & _ & He & _).
  split; [exact Hr | exact (He eq_refl)].
Defined.

(** ** The control file *)

Lemma disable_clears_flag (k : kernel) (s : system) :
  rtsl_enabled_in (rtsl_disable k s) = false.
Proof.
  pose proof (for_each_reset_spec k (cpu_online_mask k)
                (set_global_rtsl_enable 0 s)) as H.
  cbv zeta in H. destruct H as (_ & Hg & _).
  unfold rtsl_enabled_in, rtsl_disable, unregister_tracepoints,
    rtsl_var_destroy_all, for_each_online_cpu.
  cbn [global_rtsl_enable set_tps]. rewrite Hg. reflexivity.
Qed.

(** The [switch] of the write handler, on any kernel, [buf] being its
    buffer as [simple_write_to_buffer] left it and [retval] the value that
    copy returned: a [count] outside 1..3 is refused with [-EINVAL]; a copy
    of no byte with [-EFAULT]; with ['1'] in [buf[0]] the module is disabled
    first when it was enabled and [rtsl_enable] is called; with ['0'] it is
    disabled when it was enabled and is disabled afterwards; any other
    [buf[0]] is refused with [-EINVAL]; nothing changes when the write is
    refused. *)
Theorem enable_write_cases :
  forall (k : kernel) (user_buf : list ascii) (count ppos : Z) (s : system),
    let res := rtsl_enable_write_data k user_buf count ppos s in
    let copy :=
      simple_write_to_buffer k (repeat NUL 3) 2 ppos user_buf count in
    let retval := fst (fst copy) in
    let c := nth 0 (snd (fst copy)) NUL in
    let ppos' := snd copy in
    (count < 1 \/ count > 3 -> res = (- EINVAL, ppos, s))
    /\ (1 <= count <= 3 -> retval = 0 -> res = (- EFAULT, ppos', s))
    /\ (1 <= count <= 3 -> retval <> 0 -> c = "1"%char ->
        rtsl_enabled_in s = true ->
        res = (retval, ppos', snd (rtsl_enable k (rtsl_disable k s))))
    /\ (1 <= count <= 3 -> retval <> 0 -> c = "1"%char ->
        rtsl_enabled_in s = false ->
        res = (retval, ppos', snd (rtsl_enable k s)))
    /\ (1 <= count <= 3 -> retval <> 0 -> c = "0"%char ->
        res = (retval, ppos',
               if rtsl_enabled_in s then rtsl_disable k s else s)
        /\ rtsl_enabled_in (snd res) = false)
    /\ (1 <= count <= 3 -> retval <> 0 ->
        c <> "1"%char -> c <> "0"%char ->
        res = (- EINVAL, ppos', s)).
Proof.
  intros k user_buf count ppos s res copy retval c ppos'.
  subst res. unfold rtsl_enable_write_data.
  change (3 - 1) with 2. fold copy.
  destruct copy as [[rv buf] pp] eqn:Hcopy.
  subst retval c ppos'. cbn [fst snd].
  assert (Hin : 1 <= count <= 3 -> (count <? 1) || (count >? 3) = false).
  { intros H. apply orb_false_iff. rewrite Z.gtb_ltb.
    split; apply Z.ltb_ge; lia. }
  split; [|split; [|split; [|split; [|split]]]].
  - intros H.
    assert ((count <? 1) || (count >? 3) = true) as ->; [|reflexivity].
    apply orb_true_iff. rewrite Z.gtb_ltb, !Z.ltb_lt. lia.
  - intros H ->. rewrite (Hin H). reflexivity.
  - intros H Hr Hc He. rewrite (Hin H), Hc, He.
    apply Z.eqb_neq in Hr. rewrite Hr, Ascii.eqb_refl.
    destruct (rtsl_enable k (rtsl_disable k s)). reflexivity.
  - intros H Hr Hc He. rewrite (Hin H), Hc, He.
    apply Z.eqb_neq in Hr. rewrite Hr, Ascii.eqb_refl.
    destruct (rtsl_enable k s). reflexivity.
  - intros H Hr Hc. rewrite (Hin H), Hc.
    apply Z.eqb_neq in Hr. rewrite Hr.
    change (Ascii.eqb "0" "1") with false. rewrite Ascii.eqb_refl.
    split; [reflexivity|]. cbn [snd].
    destruct (rtsl_enabled_in s) eqn:He; [apply disable_clears_flag|exact He].
  - intros H Hr H1 H0. rewrite (Hin H).
    apply Z.eqb_neq in Hr. rewrite Hr.
    apply Ascii.eqb_neq in H1, H0. rewrite H1, H0. reflexivity.
Qed.

(** On a kernel with the libfs helpers: a write of ["1\n"] at offset 0
    enables the loaded module; the same write to the enabled module
    disables it first; ["0\n"] disables it; four bytes are refused, and so
    is ["x"]; at offset 2 no byte is copied. *)
Lemma enable_write_cases_witness :
  rtsl_enable_write_data linux_ok ["1"; LF]%char 2 0 (module_loaded false)
  = (2, 2, module_enabled)
  /\ rtsl_enable_write_data linux_ok ["1"; LF]%char 2 0 module_enabled
     = (2, 2, snd (rtsl_enable linux_ok (rtsl_disable linux_ok module_enabled)))
  /\ rtsl_enable_write_data linux_ok ["0"; LF]%char 2 0 module_enabled
     = (2, 2, rtsl_disable linux_ok module_enabled)
  /\ rtsl_enable_write_data linux_ok ["1"; LF; LF; LF]%char 4 0
       (module_loaded false)
     = (- EINVAL, 0, module_loaded false)
  /\ rtsl_enable_write_data linux_ok ["x"]%char 1 0 (module_loaded false)
     = (- EINVAL, 1, module_loaded false)
  /\ rtsl_enable_write_data linux_ok ["1"]%char 1 2 (module_loaded false)
     = (- EFAULT, 2, module_loaded false).
Proof.
  set (s0 := module_loaded false). set (s1 := module_enabled).
  split; [|split; [|split; [|split; [|split]]]].
  - apply (proj1 (proj2 (proj2 (proj2
             (enable_write_cases linux_ok ["1"; LF]%char 2 0 s0)))));
      [lia | vm_compute; discriminate | reflexivity | reflexivity].
  - apply (proj1 (proj2 (proj2
             (enable_write_cases linux_ok ["1"; LF]%char 2 0 s1))));
      [lia | vm_compute; discriminate | reflexivity | reflexivity].
  - apply (proj1 (proj2 (proj2 (proj2 (proj2
             (enable_write_cases linux_ok ["0"; LF]%char 2 0 s1))))));
      [lia | vm_compute; discriminate | reflexivity].
  - apply (proj1 (enable_write_cases linux_ok ["1"; LF; LF; LF]%char 4 0 s0)).
    lia.
  - apply (proj2 (proj2 (proj2 (proj2 (proj2
             (enable_write_cases linux_ok ["x"]%char 1 0 s0))))));
      [lia | vm_compute; discriminate | vm_compute; discriminate
      | vm_compute; discriminate].
  - apply (proj1 (proj2 (enable_write_cases linux_ok ["1"]%char 1 2 s0)));
      [lia | reflexivity].
Defined.

(** At offset 0 the libfs copy puts the first byte written in [buf[0]]:
    the character the handler looks at is the first one of the write. *)
Lemma libfs_copies_first_character (c : ascii) (rest : list ascii) (count : Z) :
  1 <= count <= 3 ->
  let copy :=
    libfs_simple_write_to_buffer (repeat NUL 3) 2 0 (c :: rest) count in
  fst (fst copy) <> 0 /\ nth 0 (snd (fst copy)) NUL = c.
Proof.
  intros H. unfold libfs_simple_write_to_buffer. cbn [Z.ltb Z.compare].
  assert ((0 >=? 2) || (count =? 0) = false) as ->.
  { apply orb_false_iff. split; [reflexivity|]. apply Z.eqb_neq. lia. }
  cbv zeta. rewrite Z.sub_0_r.
  set (n := Z.min count 2).
  set (m := Z.min n (Z.of_nat (List.length (c :: rest)))).
  assert (Hm : 1 <= m <= 2).
  { subst m n. cbn [List.length]. lia. }
  assert ((n - m =? n) = false) as -> by (apply Z.eqb_neq; lia).
  cbn [fst snd]. replace (n - (n - m)) with m by lia.
  split; [lia|].
  change (Z.to_nat 0) with 0%nat. cbn [firstn app].
  destruct (Z.to_nat m) eqn:E; [lia|]. reflexivity.
Qed.

(** What the read handler hands to [simple_read_from_buffer]: the digit,
    the newline and the terminating NUL, three bytes being available. *)
Lemma enable_read_hands_over (k : kernel) (count ppos : Z) (s : system) :
  rtsl_enable_read_data k count ppos s
  = simple_read_from_buffer k count ppos
      [(if rtsl_enabled_in s then "1" else "0")%char; LF; NUL; NUL] 3.
Proof.
  unfold rtsl_enable_read_data.
  destruct (rtsl_enabled_in s); reflexivity.
Qed.

Lemma enable_read_from_offset_0 (tracepoints : list tracepoint)
    (register : tracepoint -> probe_fn -> Z) (cpus : list nat)
    (writable count : Z) (s : system) :
  3 <= count <= writable ->
  rtsl_enable_read_data (linux tracepoints register cpus writable) count 0 s
  = (3, [(if rtsl_enabled_in s then "1" else "0")%char; LF; NUL], 3).
Proof.
  intros H. rewrite enable_read_hands_over.
  cbn [simple_read_from_buffer linux]. unfold libfs_simple_read_from_buffer.
  cbn [Z.ltb Z.compare].
  assert ((0 >=? 3) || (count =? 0) = false) as ->.
  { apply orb_false_iff. split; [reflexivity|]. apply Z.eqb_neq. lia. }
  cbv zeta. rewrite Z.sub_0_r.
  replace (Z.min count 3) with 3 by lia.
  replace (Z.min 3 writable) with 3 by lia.
  reflexivity.
Qed.

(** C5 on the code: a read of the control file of the loaded (disabled)
    module, from offset 0 into a 4096-byte buffer, returns three bytes, the
    third being the NUL that ends the string. *)
Theorem enable_read_returns_three_bytes :
  rtsl_enable_read_data linux_ok 4096 0 (module_loaded false)
  = (3, ["0"; LF; NUL]%char, 3).
Proof. apply enable_read_from_offset_0. lia. Qed.

(** ** The irqflags hooks *)

Lemma fired_app (l1 l2 : list hook_call) :
  fired (l1 ++ l2) = fired l1 ++ fired l2.
Proof.
  induction l1 as [|c l1 IH]; cbn; [reflexivity|].
  destruct c; cbn; rewrite IH; reflexivity.
Qed.

(** One call outside an NMI fires at most one event, which continues a
    bracketed list, and [tracing_irq_cpu] keeps standing for the disable
    that is not answered yet. *)
Lemma irqflags_call_bracketed (f : irqflags_hook) (cpu : Z) (rest : list event) :
  let r := irqflags_call false f cpu in
  bracketed (pending_of cpu) (fired (snd r) ++ rest)
  = bracketed (pending_of (fst r)) rest.
Proof.
  unfold pending_of.
  destruct f; cbn [irqflags_call];
    unfold trace_hardirqs_on, trace_hardirqs_off, trace_hardirqs_on_caller,
      trace_hardirqs_off_caller, trace_hardirqs_off_caller_irq_entry;
    destruct (cpu =? 0) eqn:E; cbn; rewrite ?E; cbn;
    rewrite ?Z.eqb_refl; reflexivity.
Qed.

(** X1.  Outside NMIs, whatever the order in which the five irqflags
    hooks are called, the [irq_disable] and [irq_enable] events they fire
    alternate, and every [irq_enable] carries [irq_exit] set exactly when
    the [irq_disable] it answers carried [irq_entry]. *)
Theorem irq_events_are_bracketed :
  forall (l : list (bool * irqflags_hook)) (tracing_irq_cpu : Z),
    Forall (fun x => fst x = false) l ->
    bracketed (pending_of tracing_irq_cpu)
      (fired (snd (irqflags_calls l tracing_irq_cpu))) = true.
Proof.
  induction l as [|[n f] l IH]; intros cpu Hn; cbn [irqflags_calls].
  - cbn. destruct (pending_of cpu); reflexivity.
  - inversion Hn as [|x l' Hx Hl]; subst. cbn in Hx. subst n.
    pose proof (irqflags_call_bracketed f cpu
                  (fired (snd (irqflags_calls l (fst (irqflags_call false f cpu))))))
      as H.
    cbv zeta in H.
    destruct (irqflags_call false f cpu) as [cpu1 c1].
    cbn [fst snd] in H.
    destruct (irqflags_calls l cpu1) as [cpu2 c2] eqn:E2.
    cbn [fst snd] in *. rewrite fired_app, H.
    specialize (IH cpu1 Hl). rewrite E2 in IH. exact IH.
Qed.

(** The witness of X1: an interrupt arrives while a thread has interrupts
    off twice over. *)
Lemma irq_events_are_bracketed_witness :
  bracketed None
    (fired (snd (irqflags_calls
                   [(false, hardirqs_off); (false, hardirqs_off_caller);
                    (false, hardirqs_on);
                    (false, hardirqs_off_caller_irq_entry);
                    (false, hardirqs_on_caller); (false, hardirqs_on)]
                   0)))
  = true.
Proof.
  apply (irq_events_are_bracketed _ 0).
  repeat constructor.
Defined.

(** X2.  Inside an NMI the irqflags hooks fire no tracepoint, yet they
    update [tracing_irq_cpu] as they do outside: the event of the matching
    call is lost, not deferred. *)
Theorem irqflags_hooks_silent_in_nmi :
  forall (f : irqflags_hook) (tracing_irq_cpu : Z),
    fired (snd (irqflags_call true f tracing_irq_cpu)) = []
    /\ fst (irqflags_call true f tracing_irq_cpu)
       = fst (irqflags_call false f tracing_irq_cpu).
Proof.
  intros f cpu.
  destruct f; cbn [irqflags_call];
    unfold trace_hardirqs_on, trace_hardirqs_off, trace_hardirqs_on_caller,
      trace_hardirqs_off_caller, trace_hardirqs_off_caller_irq_entry;
    destruct (cpu =? 0); cbn; split; reflexivity.
Qed.

(** ** What holds along every stream of events *)

Lemma handle_before_start (h : host) (e : event) (v : rtsl_var) :
  rtsl_variables.running v = false ->
  starts h e = false ->
  handle h e v = (v, []).
Proof.
  intros Hr Hc. unfold starts in Hc.
  destruct e; mstep; rewrite ?Hr; cbn; try reflexivity;
    match goal with
    | |- context [negb (?x =? 0)] => destruct (x =? 0) eqn:Ex
    end; cbn; rewrite ?Hr; cbn; try reflexivity.
  cbn in Hc. rewrite Ex in Hc. cbn in Hc.
  destruct (atomic_read_global_rtsl_enable h =? 0); cbn; [reflexivity|].
  destruct (irqs_disabled h); cbn; [reflexivity|discriminate].
Qed.

(** X3.  A CPU that is not running ignores every event up to the first
    schedule-path preempt-disable it handles with the global flag set and
    interrupts enabled: those events change nothing and emit nothing, in
    particular no record of a window opened before that point. *)
Theorem nothing_before_the_initial_condition :
  forall (before after : list (host * event)) (v : rtsl_var),
    rtsl_variables.running v = false ->
    Forall (fun x => starts (fst x) (snd x) = false) before ->
    run (before ++ after) v = run after v.
Proof.
  induction before as [|[h e] before IH]; intros after v Hr Hb; [reflexivity|].
  inversion Hb as [|x l Hx Hl]; subst. cbn [fst snd] in Hx.
  cbn [app run]. rewrite (handle_before_start h e v Hr Hx).
  rewrite (IH after v Hr Hl).
  destruct (run after v). reflexivity.
Qed.

(** The witness of X3: a POID window and an interrupt seen before the CPU
    started, and a schedule-path preempt-disable seen with interrupts off,
    leave no trace. *)
Lemma nothing_before_the_initial_condition_witness :
  run ([(host_at 100 7 false, preempt_disable 0);
        (host_at 200 7 false, irq_disable 1);
        (host_at 300 7 false, irq_enable 1);
        ({| trace_clock_local := fun _ => 350; current_pid := 7;
            tif_need_resched_now := false; irqs_disabled := true;
            atomic_read_global_rtsl_enable := 1 |}, preempt_disable 1);
        (host_at 400 7 false, preempt_enable 0)] ++ [])
    rtsl_var_reset
  = (rtsl_var_reset, []).
Proof.
  apply (nothing_before_the_initial_condition _ [] rtsl_var_reset eq_refl).
  repeat constructor.
Defined.

Lemma handle_keeps_running (h : host) (e : event) (v : rtsl_var) :
  rtsl_variables.running v = true ->
  rtsl_variables.running (fst (handle h e v)) = true.
Proof.
  destruct v as [ic po pa ps ds ir nm rn]. cbn. intros ->.
  destruct e; mrun; reflexivity.
Qed.

(** X4.  No handler stops a CPU: once running, it is running after any
    stream of events (only [rtsl_disable] and [rtsl_enable] clear
    [running], by zeroing the variables). *)
Theorem handlers_never_stop_a_cpu :
  forall (evs : list (host * event)) (v : rtsl_var),
    rtsl_variables.running v = true ->
    rtsl_variables.running (fst (run evs v)) = true.
Proof.
  induction evs as [|[h e] evs IH]; intros v Hr; [exact Hr|].
  rewrite run_cons. cbn [fst]. apply IH. apply handle_keeps_running. exact Hr.
Qed.

(** The witness of X4. *)
Lemma handlers_never_stop_a_cpu_witness :
  rtsl_variables.running
    (fst (run two_equal_poid_windows running_reset)) = true.
Proof. apply handlers_never_stop_a_cpu. reflexivity. Defined.

Lemma last_default {A} (l : list A) (x a b : A) :
  last (x :: l) a = last (x :: l) b.
Proof.
  revert x. induction l as [|y l IH]; intros x; [reflexivity|].
  change (last (y :: l) a = last (y :: l) b). apply IH.
Qed.

(** X5.  Along any stream of events none of the four maxima decreases;
    the stored maximum is the last value emitted in a max record of its
    kind, and is unchanged when none was emitted. *)
Theorem maxima_follow_the_max_records :
  forall (k : max_kind) (evs : list (host * event)) (v : rtsl_var),
    let v' := fst (run evs v) in
    let ms := max_values k (snd (run evs v)) in
    max_of k v <= max_of k v'
    /\ max_of k v' = last ms (max_of k v).
Proof.
  intros k evs. induction evs as [|[h e] evs IH]; intros v.
  - cbn. split; [lia|reflexivity].
  - cbv zeta. rewrite run_cons. cbn [fst snd]. rewrite max_values_app.
    specialize (IH (fst (handle h e v))). cbv zeta in IH.
    destruct IH as [Hle Hlast].
    destruct (handle_max_step k h e v) as [[Hn Hm] | (d & Hd & Hm & Hx)].
    + rewrite Hn, Hm in *. cbn [app]. split; assumption.
    + rewrite Hd, Hm in *. cbn [app]. split.
      * destruct k; cbn [exceeds] in Hx; lia.
      * rewrite Hlast. destruct (max_values k _) as [|z l]; [reflexivity|].
        change (last (z :: l) d = last (z :: l) (max_of k v)).
        apply last_default.
Qed.

(** ** NMI interference *)

Lemma psd_values_app (l1 l2 : list record) :
  psd_values (l1 ++ l2) = psd_values l1 ++ psd_values l2.
Proof.
  induction l1 as [|r l1 IH]; cbn; [reflexivity|].
  destruct r; cbn; rewrite IH; reflexivity.
Qed.

Lemma nmi_executions_app (l1 l2 : list record) :
  nmi_executions (l1 ++ l2) = nmi_executions l1 ++ nmi_executions l2.
Proof.
  induction l1 as [|r l1 IH]; cbn; [reflexivity|].
  destruct r; cbn; rewrite IH; reflexivity.
Qed.

Lemma nmi_entry_result (h : host) (v : rtsl_var) :
  rtsl_variables.running v = true ->
  handle h nmi_entry v
  = (rtsl_variables.set_nmi (nmi.mk (u64 (trace_clock_local h 0%nat))) v, []).
Proof.
  destruct v as [ic po pa ps ds ir nm rn]. cbn. intros ->. reflexivity.
Qed.

(** The exit of an NMI: one record, the interrupt counter bumped, every
    open window pushed by the duration, every closed window left closed,
    and nothing else touched. *)
Lemma nmi_exit_spec (h : host) (v : rtsl_var) :
  rtsl_variables.running v = true ->
  let r := handle h nmi_exit v in
  let start := nmi.delta_start (rtsl_variables.nmi v) in
  let duration := u64 (u64 (trace_clock_local h 0%nat) - start) in
  snd r = [trace_nmi_execution start duration]
  /\ rtsl_variables.int_counter (fst r)
     = u64 (rtsl_variables.int_counter v + 1)
  /\ (forall w : window,
         delta_start w (fst r)
         = if is_open w v then u64 (delta_start w v + duration) else 0)
  /\ (forall k : max_kind, max_of k (fst r) = max_of k v)
  /\ rtsl_variables.running (fst r) = true
  /\ rtsl_variables.nmi (fst r) = rtsl_variables.nmi v
  /\ poid.pd (rtsl_variables.poid (fst r)) = poid.pd (rtsl_variables.poid v)
  /\ poid.id (rtsl_variables.poid (fst r)) = poid.id (rtsl_variables.poid v)
  /\ dst.pid (rtsl_variables.dst (fst r)) = dst.pid (rtsl_variables.dst v)
  /\ irq.was_psd (rtsl_variables.irq (fst r))
     = irq.was_psd (rtsl_variables.irq v)
  /\ irq.vector (rtsl_variables.irq (fst r))
     = irq.vector (rtsl_variables.irq v)
  /\ irq.arrival_time (rtsl_variables.irq (fst r))
     = irq.arrival_time (rtsl_variables.irq v).
Proof.
  destruct v as [ic [ppd pid ps pm] [pas pam] [pss psm] [dp dss dsm]
                   [ia ist iw iv] [ns] rn].
  cbn. intros ->. mrun; repeat split; try reflexivity;
    try (intros k; destruct k; reflexivity);
    intros w; destruct w; cbn; unfold is_open, delta_start; cbn;
    repeat match goal with H : negb _ = _ |- _ => rewrite H end;
    try reflexivity;
    repeat match goal with
           | H : negb _ = false |- _ => apply negb_false_iff in H
           end; to_prop; assumption.
Qed.

(** X6.  An NMI, from its entry to its exit on a running CPU, emits one
    [nmi_execution] record with its entry time and its duration, pushes the
    start of every open window (IRQ, POID, PSD, DST, PAIE) forward by that
    duration, leaves every closed window closed, and changes no maximum. *)
Theorem nmi_pushes_open_windows_only :
  forall (n : nmi_run) (v : rtsl_var),
    rtsl_variables.running v = true ->
    let r := run (nmi_events n) v in
    let duration := u64 (nmi_ended n - nmi_began n) in
    snd r = [trace_nmi_execution (nmi_began n) duration]
    /\ (forall w : window,
           delta_start w (fst r)
           = if is_open w v then u64 (delta_start w v + duration) else 0)
    /\ (forall k : max_kind, max_of k (fst r) = max_of k v)
    /\ rtsl_variables.running (fst r) = true.
Proof.
  intros [hin hout] v Hr. unfold nmi_events, nmi_ended, nmi_began.
  cbn [nmi_in nmi_out]. cbv zeta.
  rewrite !run_cons. cbn [run fst snd].
  rewrite (nmi_entry_result hin v Hr). cbn [fst snd app].
  set (v1 := rtsl_variables.set_nmi _ v).
  assert (Hr1 : rtsl_variables.running v1 = true) by exact Hr.
  destruct (nmi_exit_spec hout v1 Hr1) as (R & _ & Hw & Hm & Hr2 & _).
  rewrite R, app_nil_r. split; [reflexivity|]. split; [|split].
  - intros w. rewrite (Hw w). destruct w; reflexivity.
  - intros k. rewrite (Hm k). destruct k; reflexivity.
  - exact Hr2.
Qed.

(** The witness of X6: an NMI of 50 ns while POID is open since 1000. *)
Lemma nmi_pushes_open_windows_only_witness :
  delta_start W_poid
    (fst (run (nmi_events (nmi_at 1200 1250))
            (fst (handle (host_at 1000 7 false) (preempt_disable 0)
                    running_reset))))
  = 1050.
Proof.
  exact (proj1 (proj2 (nmi_pushes_open_windows_only (nmi_at 1200 1250)
                         (fst (handle (host_at 1000 7 false)
                                 (preempt_disable 0) running_reset))
                         eq_refl)) W_poid).
Defined.

Lemma nmis_in_order_le (nmis : list nmi_run) :
  forall t t1 : Z, nmis_in_order t nmis t1 -> t <= t1.
Proof.
  induction nmis as [|n nmis IH]; cbn; intros t t1 H; [exact H|].
  destruct H as (H1 & H2 & H3). apply IH in H3. lia.
Qed.

(** The schedule-path preempt-disable on a running CPU whose PAIE is
    closed: PSD starts at the first clock read and nothing is emitted. *)
Lemma psd_open_spec (h : host) (v : rtsl_var) :
  rtsl_variables.running v = true ->
  is_open W_paie v = false ->
  let r := handle h (preempt_disable 1) v in
  snd r = []
  /\ rtsl_variables.running (fst r) = true
  /\ rtsl_variables.psd (fst r)
     = psd.set_delta_start (u64 (trace_clock_local h 0%nat))
         (rtsl_variables.psd v)
  /\ dst.delta_start (rtsl_variables.dst (fst r))
     = dst.delta_start (rtsl_variables.dst v)
  /\ dst.pid (rtsl_variables.dst (fst r)) = current_pid h
  /\ rtsl_variables.poid (fst r) = rtsl_variables.poid v
  /\ rtsl_variables.irq (fst r) = rtsl_variables.irq v
  /\ is_open W_paie (fst r) = false.
Proof.
  destruct v as [ic po [pas pam] ps ds ir nm rn].
  unfold is_open, delta_start. cbn. intros -> Hp.
  apply negb_false_iff in Hp.
  mstep. rewrite ?Hp. cbn.
  repeat (mcase; mstep; rewrite ?Hp; cbn); repeat split; reflexivity.
Qed.

Lemma nmi_inside_psd (n : nmi_run) (v : rtsl_var) :
  rtsl_variables.running v = true ->
  is_open W_psd v = true ->
  is_open W_dst v = false ->
  let r := run (nmi_events n) v in
  rtsl_variables.running (fst r) = true
  /\ delta_start W_psd (fst r)
     = u64 (delta_start W_psd v + u64 (nmi_ended n - nmi_began n))
  /\ delta_start W_dst (fst r) = 0
  /\ max_of K_psd (fst r) = max_of K_psd v
  /\ psd_values (snd r) = []
  /\ nmi_executions (snd r)
     = [(nmi_began n, u64 (nmi_ended n - nmi_began n))].
Proof.
  intros Hr Hp Hd. destruct n as [hin hout].
  unfold nmi_events, nmi_ended, nmi_began. cbn [nmi_in nmi_out]. cbv zeta.
  rewrite !run_cons. cbn [run fst snd].
  rewrite (nmi_entry_result hin v Hr). cbn [fst snd app].
  set (v1 := rtsl_variables.set_nmi _ v).
  assert (Hr1 : rtsl_variables.running v1 = true) by exact Hr.
  destruct (nmi_exit_spec hout v1 Hr1) as (R & _ & Hw & Hm & Hr2 & _).
  rewrite R, app_nil_r, (Hw W_psd), (Hw W_dst), (Hm K_psd).
  change (is_open W_psd v1) with (is_open W_psd v).
  change (is_open W_dst v1) with (is_open W_dst v).
  rewrite Hp, Hd. repeat split; try reflexivity. exact Hr2.
Qed.

Lemma nmis_inside_psd (nmis : list nmi_run) :
  forall (v : rtsl_var) (t t1 : Z),
    rtsl_variables.running v = true ->
    is_open W_dst v = false ->
    0 < delta_start W_psd v <= t ->
    nmis_in_order t nmis t1 ->
    t1 < 2 ^ 64 ->
    let r := run (flat_map nmi_events nmis) v in
    rtsl_variables.running (fst r) = true
    /\ is_open W_dst (fst r) = false
    /\ delta_start W_psd (fst r)
       = delta_start W_psd v + total (map nmi_length nmis)
    /\ 0 <= total (map nmi_length nmis)
    /\ delta_start W_psd v + total (map nmi_length nmis) <= t1
    /\ psd_values (snd r) = []
    /\ nmi_executions (snd r)
       = map (fun n => (nmi_began n, nmi_length n)) nmis.
Proof.
  induction nmis as [|n nmis IH]; intros v t t1 Hr Hd Hs Ho Ht1.
  - cbn in *. rewrite Z.add_0_r. repeat split; try assumption; lia.
  - cbn [flat_map map total fold_right nmis_in_order] in *.
    destruct Ho as (Hb & He & Ho).
    pose proof (nmis_in_order_le _ _ _ Ho) as Hle.
    pose proof (u64_range (trace_clock_local (nmi_in n) 0%nat)) as Rb.
    fold (nmi_began n) in Rb.
    cbv zeta. rewrite run_app. cbn [fst snd].
    assert (Hp : is_open W_psd v = true).
    { unfold is_open. apply negb_true_iff, Z.eqb_neq. lia. }
    destruct (nmi_inside_psd n v Hr Hp Hd) as (Hr1 & Hp1 & Hd1 & _ & Hv1 & Hx1).
    set (v1 := fst (run (nmi_events n) v)) in *.
    assert (Hlen : u64 (nmi_ended n - nmi_began n) = nmi_length n)
      by (apply u64_small; unfold nmi_length; lia).
    rewrite Hlen in *.
    assert (Hsum : u64 (delta_start W_psd v + nmi_length n)
                   = delta_start W_psd v + nmi_length n)
      by (apply u64_small; unfold nmi_length; lia).
    rewrite Hsum in Hp1.
    assert (Hd1' : is_open W_dst v1 = false)
      by (unfold is_open; rewrite Hd1; reflexivity).
    assert (Hs1 : 0 < delta_start W_psd v1 <= nmi_ended n)
      by (rewrite Hp1; unfold nmi_length; lia).
    destruct (IH v1 (nmi_ended n) t1 Hr1 Hd1' Hs1 Ho Ht1)
      as (Hr2 & Hd2 & Hp2 & Hn2 & Hb2 & Hv2 & Hx2).
    cbv zeta in *.
    rewrite psd_values_app, nmi_executions_app, Hv1, Hv2, Hx1, Hx2, Hp2.
    rewrite Hp1 in *.
    fold (total (map nmi_length nmis)) in *.
    assert (0 <= nmi_length n) by (unfold nmi_length; lia).
    repeat split; try assumption; try lia.
Qed.

(** X7.  The scheduler disables preemption at [t0] on a running CPU
    (PAIE and DST closed), NMIs run one after the other, the scheduler
    enables preemption at [t1]: each NMI is reported with its entry time
    and its length, and the [psd] record carries the length of the window
    less the sum of the lengths of the NMIs. *)
Theorem psd_excludes_nmi_time :
  forall (v : rtsl_var) (h_open : host) (nmis : list nmi_run) (h_close : host),
    rtsl_variables.running v = true ->
    is_open W_paie v = false ->
    is_open W_dst v = false ->
    let t0 := u64 (trace_clock_local h_open 0%nat) in
    let t1 := u64 (trace_clock_local h_close 0%nat) in
    0 < t0 ->
    nmis_in_order t0 nmis t1 ->
    let recs := snd (run (psd_window h_open nmis h_close) v) in
    nmi_executions recs = map (fun n => (nmi_began n, nmi_length n)) nmis
    /\ psd_values recs = [(t1 - t0) - total (map nmi_length nmis)].
Proof.
  intros v h_open nmis h_close Hr Hpa Hd t0 t1 Ht0 Ho recs.
  subst recs. unfold psd_window.
  rewrite run_cons, run_app. cbn [fst snd].
  destruct (psd_open_spec h_open v Hr Hpa)
    as (R0 & Hr0 & Hp0 & Hd0 & _).
  set (v0 := fst (handle h_open (preempt_disable 1) v)) in *.
  fold t0 in Hp0.
  pose proof (u64_range (trace_clock_local h_close 0%nat)) as Rt1.
  fold t1 in Rt1.
  assert (Hd0' : is_open W_dst v0 = false).
  { unfold is_open, delta_start in *. rewrite Hd0. exact Hd. }
  assert (Hs0 : 0 < delta_start W_psd v0 <= t0)
    by (unfold delta_start; rewrite Hp0; cbn; lia).
  destruct (nmis_inside_psd nmis v0 t0 t1 Hr0 Hd0' Hs0 Ho (proj2 Rt1))
    as (Hr1 & Hd1 & Hp1 & Hn1 & Hb1 & Hv1 & Hx1).
  cbv zeta in *.
  set (v1 := fst (run (flat_map nmi_events nmis) v0)) in *.
  assert (Hst : delta_start W_psd v0 = t0)
    by (unfold delta_start; rewrite Hp0; reflexivity).
  rewrite Hst in *.
  rewrite run_cons. cbn [run fst snd].
  rewrite (sched_exit_emits h_close 1 v1 ltac:(lia) Hr1).
  unfold sched_exit_records. rewrite Hd1.
  unfold delta_start in Hp1. rewrite Hp1. fold t1.
  assert (Hu : u64 (t1 - (t0 + total (map nmi_length nmis)))
               = t1 - t0 - total (map nmi_length nmis))
    by (rewrite u64_small; lia).
  rewrite !psd_values_app, !nmi_executions_app, R0, Hv1, Hx1, Hu.
  destruct (_ >? _); cbn [app psd_values nmi_executions];
    rewrite ?app_nil_r; split; reflexivity.
Qed.

(** The witness of X7: scenario S3 with a second NMI. *)
Lemma psd_excludes_nmi_time_witness :
  psd_values
    (snd (run (psd_window (host_at 1000 7 false)
                 [nmi_at 1200 1250; nmi_at 1500 1530]
                 (host_at 2000 7 false))
            running_reset))
  = [920].
Proof.
  refine (eq_trans
            (proj2 (psd_excludes_nmi_time running_reset
                      (host_at 1000 7 false)
                      [nmi_at 1200 1250; nmi_at 1500 1530]
                      (host_at 2000 7 false) _ _ _ _ _))
            _).
  - reflexivity.
  - reflexivity.
  - reflexivity.
  - vm_compute. reflexivity.
  - vm_compute. intuition discriminate.
  - vm_compute. reflexivity.
Defined.

(** ** IRQ interference and PSD *)

Lemma irq_entry_result (h : host) (v : rtsl_var) :
  rtsl_variables.running v = true ->
  handle h (irq_disable 1) v
  = (rtsl_variables.set_irq
       (irq.mk (u64 (trace_clock_local h 0%nat))
          (u64 (trace_clock_local h 1%nat))
          (if is_open W_psd v then 1
           else irq.was_psd (rtsl_variables.irq v))
          (irq.vector (rtsl_variables.irq v)))
       v,
     []).
Proof.
  destruct v as [ic po pa [pss psm] ds [ia ist iw iv] nm rn].
  cbn. intros ->. mrun; reflexivity.
Qed.

Lemma irq_exit_psd_spec (h : host) (v : rtsl_var) :
  rtsl_variables.running v = true ->
  let r := handle h (irq_enable 1) v in
  let duration :=
    u64 (u64 (trace_clock_local h 0%nat)
         - irq.delta_start (rtsl_variables.irq v)) in
  rtsl_variables.psd (fst r)
  = (if negb (irq.was_psd (rtsl_variables.irq v) =? 0)
     then psd.set_delta_start
            (u64 (psd.delta_start (rtsl_variables.psd v) + duration))
            (rtsl_variables.psd v)
     else rtsl_variables.psd v)
  /\ irq.was_psd (rtsl_variables.irq (fst r)) = 0
  /\ irq.vector (rtsl_variables.irq (fst r)) = 0
  /\ irq.delta_start (rtsl_variables.irq (fst r)) = 0.
Proof.
  destruct v as [ic po pa [pss psm] ds [ia ist iw iv] nm rn].
  cbn. intros ->. mrun; repeat split; reflexivity.
Qed.

Lemma sched_disable_spec (h : host) (to_schedule : Z) (v : rtsl_var) :
  to_schedule <> 0 ->
  rtsl_variables.running v = true ->
  let r := handle h (preempt_disable to_schedule) v in
  rtsl_variables.running (fst r) = true
  /\ rtsl_variables.poid (fst r) = rtsl_variables.poid v
  /\ rtsl_variables.irq (fst r) = rtsl_variables.irq v
  /\ is_open W_paie (fst r) = false
  /\ dst.pid (rtsl_variables.dst (fst r)) = current_pid h
  /\ dst.delta_start (rtsl_variables.dst (fst r))
     = dst.delta_start (rtsl_variables.dst v)
  /\ (exists k : nat,
         delta_start W_psd (fst r) = u64 (trace_clock_local h k))
  /\ poid_values (snd r) = [].
Proof.
  intros Hts. apply Z.eqb_neq in Hts.
  destruct v as [ic po [pas pam] ps ds ir nm rn].
  cbn. intros ->. mstep. rewrite Hts. cbn.
  repeat (mcase; mstep; cbn); repeat split; try reflexivity; eexists;
    reflexivity.
Qed.

(** X8.  An interrupt is charged to PSD only when PSD was open at its
    entry.  Entered inside PSD, it pushes the start of PSD forward by its
    duration.  Entered outside PSD, it leaves PSD as the schedule-path
    preempt-disable made on its way out ([preempt_schedule_irq]) set it. *)
Theorem irq_charged_to_psd_only_if_it_began_in_psd :
  forall (h_in h_sched h_out : host) (to_schedule : Z) (v : rtsl_var),
    to_schedule <> 0 ->
    rtsl_variables.running v = true ->
    (is_open W_psd v = true ->
     delta_start W_psd
       (fst (run [(h_in, irq_disable 1); (h_out, irq_enable 1)] v))
     = u64 (delta_start W_psd v
            + u64 (u64 (trace_clock_local h_out 0%nat)
                   - u64 (trace_clock_local h_in 1%nat))))
    /\ (is_open W_psd v = false ->
        irq.was_psd (rtsl_variables.irq v) = 0 ->
        rtsl_variables.psd
          (fst (run [(h_in, irq_disable 1);
                     (h_sched, preempt_disable to_schedule);
                     (h_out, irq_enable 1)] v))
        = rtsl_variables.psd
            (fst (run [(h_in, irq_disable 1);
                       (h_sched, preempt_disable to_schedule)] v))).
Proof.
  intros h_in h_sched h_out ts v Hts Hr. split.
  - intros Hp. rewrite !run_cons. cbn [run fst snd].
    rewrite (irq_entry_result h_in v Hr), Hp. cbn [fst].
    set (v1 := rtsl_variables.set_irq _ v).
    destruct (irq_exit_psd_spec h_out v1 (Hr : rtsl_variables.running v1 = true))
      as (H & _).
    unfold delta_start. rewrite H. reflexivity.
  - intros Hp Hw. rewrite !run_cons. cbn [run fst snd].
    rewrite (irq_entry_result h_in v Hr), Hp, Hw. cbn [fst].
    set (v1 := rtsl_variables.set_irq _ v).
    destruct (sched_disable_spec h_sched ts v1 Hts
                (Hr : rtsl_variables.running v1 = true))
      as (Hr2 & _ & Hi2 & _).
    set (v2 := fst (handle h_sched (preempt_disable ts) v1)) in *.
    destruct (irq_exit_psd_spec h_out v2 Hr2) as (H & _).
    rewrite H, Hi2. reflexivity.
Qed.

(** The witness of X8: PSD open since 1000, an interrupt from 1200 to
    1500. *)
Lemma irq_charged_to_psd_only_if_it_began_in_psd_witness :
  delta_start W_psd
    (fst (run [(host_at 1200 7 false, irq_disable 1);
               (host_at 1500 7 false, irq_enable 1)]
            (fst (handle (host_at 1000 7 false) (preempt_disable 1)
                    running_reset))))
  = 1300.
Proof.
  refine (eq_trans
            (proj1 (irq_charged_to_psd_only_if_it_began_in_psd
                      (host_at 1200 7 false) (host_at 1200 7 false)
                      (host_at 1500 7 false) 1
                      (fst (handle (host_at 1000 7 false) (preempt_disable 1)
                              running_reset))
                      _ _) _) _).
  - lia.
  - reflexivity.
  - reflexivity.
  - vm_compute. reflexivity.
Defined.

(** ** DST, PAIE and POID across handlers *)

Lemma dst_values_app (l1 l2 : list record) :
  dst_values (l1 ++ l2) = dst_values l1 ++ dst_values l2.
Proof.
  induction l1 as [|r l1 IH]; cbn; [reflexivity|].
  destruct r; cbn; rewrite IH; reflexivity.
Qed.

Lemma paie_values_app (l1 l2 : list record) :
  paie_values (l1 ++ l2) = paie_values l1 ++ paie_values l2.
Proof.
  induction l1 as [|r l1 IH]; cbn; [reflexivity|].
  destruct r; cbn; rewrite IH; reflexivity.
Qed.

(** The thread-side [irq_disable]: inside PSD it renews the start of DST
    while the task noted at the schedule-path preempt-disable is still
    the current one. *)
Lemma thread_irq_off_spec (h : host) (v : rtsl_var) :
  rtsl_variables.running v = true ->
  let r := handle h (irq_disable 0) v in
  let renew :=
    is_open W_psd v
    && (dst.pid (rtsl_variables.dst v) =? current_pid h) in
  snd r = []
  /\ rtsl_variables.running (fst r) = true
  /\ rtsl_variables.psd (fst r) = rtsl_variables.psd v
  /\ rtsl_variables.irq (fst r) = rtsl_variables.irq v
  /\ rtsl_variables.dst (fst r)
     = (if renew
        then dst.set_delta_start (u64 (trace_clock_local h 0%nat))
               (rtsl_variables.dst v)
        else rtsl_variables.dst v)
  /\ rtsl_variables.poid (fst r)
     = (if is_open W_poid v
        then poid.set_id true (rtsl_variables.poid v)
        else poid.set_delta_start
               (u64 (trace_clock_local h (if renew then 1 else 0)%nat))
               (poid.set_id true (rtsl_variables.poid v))).
Proof.
  destruct v as [ic [ppd pid ps pm] pa [pss psm] [dp dss dsm] ir nm rn].
  cbn. intros ->. mrun; repeat split; reflexivity.
Qed.

(** X9.  DST starts at the last thread-side [irq_disable] seen inside PSD
    while the task that entered the scheduler is still current: closed by
    the schedule-path preempt-enable, it is reported from that clock
    value.  When the task has already changed at that [irq_disable], DST
    does not start and no [dst] record is emitted. *)
Theorem dst_runs_from_irq_off_of_the_scheduling_task :
  forall (h_sched h_off h_exit : host) (v : rtsl_var),
    rtsl_variables.running v = true ->
    is_open W_paie v = false ->
    is_open W_dst v = false ->
    u64 (trace_clock_local h_sched 0%nat) <> 0 ->
    let recs :=
      snd (run [(h_sched, preempt_disable 1); (h_off, irq_disable 0);
                (h_exit, preempt_enable 1)] v) in
    (current_pid h_off = current_pid h_sched ->
     u64 (trace_clock_local h_off 0%nat) <> 0 ->
     dst_values recs
     = [u64 (u64 (trace_clock_local h_exit 0%nat)
             - u64 (trace_clock_local h_off 0%nat))])
    /\ (current_pid h_off <> current_pid h_sched -> dst_values recs = []).
Proof.
  intros h0 h1 h2 v Hr Hpa Hd Ht0 recs. subst recs.
  rewrite !run_cons. cbn [run fst snd].
  destruct (psd_open_spec h0 v Hr Hpa)
    as (R0 & Hr0 & Hp0 & Hd0 & Hpid0 & _).
  set (v0 := fst (handle h0 (preempt_disable 1) v)) in *.
  destruct (thread_irq_off_spec h1 v0 Hr0) as (R1 & Hr1 & Hp1 & _ & Hd1 & _).
  cbv zeta in Hd1.
  set (v1 := fst (handle h1 (irq_disable 0) v0)) in *.
  rewrite (sched_exit_emits h2 1 v1 ltac:(lia) Hr1).
  rewrite R0, R1, app_nil_r. cbn [app].
  assert (Hopen : is_open W_psd v0 = true).
  { unfold is_open, delta_start. rewrite Hp0. cbn.
    apply negb_true_iff, Z.eqb_neq. exact Ht0. }
  rewrite Hopen, Hpid0 in Hd1. cbn [andb] in Hd1.
  unfold is_open, delta_start in Hd.
  apply negb_false_iff, Z.eqb_eq in Hd. rewrite <- Hd0 in Hd.
  unfold sched_exit_records, is_open, delta_start. split.
  - intros Hsame Ht1. rewrite Hsame, Z.eqb_refl in Hd1. rewrite Hd1. cbn.
    apply Z.eqb_neq in Ht1. rewrite Ht1. cbn.
    rewrite dst_values_app.
    destruct (_ >? _); cbn; destruct (_ >? _); reflexivity.
  - intros Hdiff. apply not_eq_sym, Z.eqb_neq in Hdiff.
    rewrite Hdiff in Hd1. rewrite Hd1, Hd. cbn.
    destruct (_ >? _); reflexivity.
Qed.

(** The witness of X9: task 7 enters the scheduler at 1000, disables
    interrupts at 1100, and task 8 leaves it at 2000. *)
Lemma dst_runs_from_irq_off_of_the_scheduling_task_witness :
  dst_values
    (snd (run [(host_at 1000 7 false, preempt_disable 1);
               (host_at 1100 7 false, irq_disable 0);
               (host_at 2000 8 false, preempt_enable 1)] running_reset))
  = [900].
Proof.
  refine (eq_trans
            (proj1 (dst_runs_from_irq_off_of_the_scheduling_task
                      (host_at 1000 7 false) (host_at 1100 7 false)
                      (host_at 2000 8 false) running_reset _ _ _ _) _ _) _).
  - reflexivity.
  - reflexivity.
  - reflexivity.
  - vm_compute. discriminate.
  - reflexivity.
  - vm_compute. discriminate.
  - vm_compute. reflexivity.
Defined.

Ltac dead H :=
  try solve [exfalso;
             match goal with
             | E : _ = _ |- _ => rewrite H in E; cbn in E; discriminate
             end].

(** The thread-side [preempt_enable] that closes POID: with a re-schedule
    pending, PAIE starts at the clock read that follows the one of the
    closure. *)
Lemma thread_preempt_on_spec (h : host) (v : rtsl_var) :
  rtsl_variables.running v = true ->
  is_open W_irq v = false ->
  poid.id (rtsl_variables.poid v) = false ->
  is_open W_poid v = true ->
  let r := handle h (preempt_enable 0) v in
  rtsl_variables.running (fst r) = true
  /\ rtsl_variables.irq (fst r) = rtsl_variables.irq v
  /\ rtsl_variables.psd (fst r) = rtsl_variables.psd v
  /\ rtsl_variables.dst (fst r) = rtsl_variables.dst v
  /\ poid.pd (rtsl_variables.poid (fst r)) = false
  /\ poid.id (rtsl_variables.poid (fst r)) = false
  /\ is_open W_poid (fst r) = false
  /\ delta_start W_paie (fst r)
     = (if tif_need_resched_now h then u64 (trace_clock_local h 1%nat)
        else delta_start W_paie v)
  /\ paie_values (snd r) = [].
Proof.
  destruct v as [ic [ppd pid ps pm] [pas pam] pss ds [ia ist iw iv] nm rn].
  unfold is_open, delta_start. cbn. intros -> Hi -> Hp.
  apply negb_false_iff in Hi. apply negb_true_iff in Hp.
  mstep. rewrite ?Hi, ?Hp. cbn.
  repeat (mcase; mstep; rewrite ?Hi, ?Hp; cbn); dead Hi; dead Hp;
    repeat split; reflexivity.
Qed.

(** The schedule-path preempt-disable that finds PAIE open. *)
Lemma sched_disable_paie_spec (h : host) (v : rtsl_var) :
  rtsl_variables.running v = true ->
  is_open W_irq v = false ->
  poid.id (rtsl_variables.poid v) = false ->
  is_open W_paie v = true ->
  let r := handle h (preempt_disable 1) v in
  paie_values (snd r)
  = (if tif_need_resched_now h && negb (current_pid h =? 0)
     then [u64 (u64 (trace_clock_local h 0%nat) - delta_start W_paie v)]
     else [])
  /\ is_open W_paie (fst r) = false
  /\ delta_start W_psd (fst r)
     = u64 (trace_clock_local h (if tif_need_resched_now h then 1 else 0)%nat).
Proof.
  destruct v as [ic [ppd pid ps pm] [pas pam] pss ds [ia ist iw iv] nm rn].
  unfold is_open, delta_start. cbn. intros -> Hi -> Hp.
  apply negb_false_iff in Hi. apply negb_true_iff in Hp.
  mstep. rewrite ?Hi, ?Hp. cbn.
  repeat (mcase; mstep; rewrite ?Hi, ?Hp; cbn); dead Hi; dead Hp;
    repeat split; reflexivity.
Qed.

(** X10.  A thread enables preemption, closing POID, with a re-schedule
    pending: PAIE opens at the second clock read of that handler.  The
    schedule-path preempt-disable that follows closes it; the [paie] record
    (the time from that opening to the handler's clock read) is emitted
    when the re-schedule is still pending and the task is not the idle
    task, and PAIE is dropped without a record otherwise. *)
Theorem paie_runs_from_enable_to_scheduler_entry :
  forall (h_on h_sched : host) (v : rtsl_var),
    rtsl_variables.running v = true ->
    is_open W_irq v = false ->
    poid.id (rtsl_variables.poid v) = false ->
    is_open W_poid v = true ->
    tif_need_resched_now h_on = true ->
    u64 (trace_clock_local h_on 1%nat) <> 0 ->
    let r := run [(h_on, preempt_enable 0); (h_sched, preempt_disable 1)] v in
    paie_values (snd r)
    = (if tif_need_resched_now h_sched && negb (current_pid h_sched =? 0)
       then [u64 (u64 (trace_clock_local h_sched 0%nat)
                  - u64 (trace_clock_local h_on 1%nat))]
       else [])
    /\ is_open W_paie (fst r) = false.
Proof.
  intros h0 h1 v Hr Hi Hid Hp Hn Ht r. subst r.
  rewrite !run_cons. cbn [run fst snd].
  destruct (thread_preempt_on_spec h0 v Hr Hi Hid Hp)
    as (Hr0 & Hi0 & _ & _ & _ & Hid0 & _ & Hpa0 & R0).
  set (v0 := fst (handle h0 (preempt_enable 0) v)) in *.
  rewrite Hn in Hpa0.
  assert (Hi0' : is_open W_irq v0 = false)
    by (unfold is_open, delta_start in *; rewrite Hi0; exact Hi).
  assert (Hpa0' : is_open W_paie v0 = true).
  { unfold is_open. rewrite Hpa0. apply negb_true_iff, Z.eqb_neq. exact Ht. }
  destruct (sched_disable_paie_spec h1 v0 Hr0 Hi0' Hid0 Hpa0')
    as (R1 & Hc & _).
  rewrite app_nil_r, paie_values_app, R0, R1, Hpa0.
  split; [reflexivity | exact Hc].
Qed.

(** The witness of X10: scenario S5. *)
Lemma paie_runs_from_enable_to_scheduler_entry_witness :
  paie_values
    (snd (run [(host_at 1500 7 true, preempt_enable 0);
               (host_at 1700 7 true, preempt_disable 1)]
            (fst (handle (host_at 1000 7 false) (preempt_disable 0)
                    running_reset))))
  = [200].
Proof.
  refine (eq_trans
            (proj1 (paie_runs_from_enable_to_scheduler_entry
                      (host_at 1500 7 true) (host_at 1700 7 true)
                      (fst (handle (host_at 1000 7 false) (preempt_disable 0)
                              running_reset))
                      _ _ _ _ _ _)) _).
  - reflexivity.
  - reflexivity.
  - reflexivity.
  - reflexivity.
  - reflexivity.
  - vm_compute. discriminate.
  - vm_compute. reflexivity.
Defined.

Lemma thread_preempt_off_result (h : host) (v : rtsl_var) :
  rtsl_variables.running v = true ->
  is_open W_irq v = false ->
  handle h (preempt_disable 0) v
  = (rtsl_variables.set_poid
       (if poid.id (rtsl_variables.poid v)
        then poid.set_pd true (rtsl_variables.poid v)
        else poid.set_delta_start (u64 (trace_clock_local h 0%nat))
               (poid.set_pd true (rtsl_variables.poid v)))
       v,
     []).
Proof.
  destruct v as [ic [ppd pid ps pm] pa pss ds [ia ist iw iv] nm rn].
  unfold is_open, delta_start. cbn. intros -> Hi.
  apply negb_false_iff in Hi.
  mstep. rewrite Hi. cbn. destruct pid; reflexivity.
Qed.

Lemma thread_irq_off_result (h : host) (v : rtsl_var) :
  rtsl_variables.running v = true ->
  is_open W_psd v = false ->
  handle h (irq_disable 0) v
  = (rtsl_variables.set_poid
       (if is_open W_poid v
        then poid.set_id true (rtsl_variables.poid v)
        else poid.set_delta_start (u64 (trace_clock_local h 0%nat))
               (poid.set_id true (rtsl_variables.poid v)))
       v,
     []).
Proof.
  destruct v as [ic [ppd pid ps pm] pa [pss psm] ds ir nm rn].
  unfold is_open, delta_start. cbn. intros -> Hp.
  apply negb_false_iff in Hp.
  mstep. rewrite Hp. cbn. destruct (ps =? 0); reflexivity.
Qed.

Lemma thread_preempt_on_with_irqs_off (h : host) (v : rtsl_var) :
  rtsl_variables.running v = true ->
  is_open W_irq v = false ->
  poid.id (rtsl_variables.poid v) = true ->
  handle h (preempt_enable 0) v
  = (rtsl_variables.set_poid (poid.set_pd false (rtsl_variables.poid v)) v,
     []).
Proof.
  destruct v as [ic [ppd pid ps pm] pa pss ds [ia ist iw iv] nm rn].
  unfold is_open, delta_start. cbn. intros -> Hi ->.
  apply negb_false_iff in Hi.
  mstep. rewrite Hi. reflexivity.
Qed.

Lemma thread_irq_on_with_preempt_off (h : host) (v : rtsl_var) :
  rtsl_variables.running v = true ->
  poid.pd (rtsl_variables.poid v) = true ->
  handle h (irq_enable 0) v
  = (rtsl_variables.set_poid (poid.set_id false (rtsl_variables.poid v)) v,
     []).
Proof.
  destruct v as [ic [ppd pid ps pm] pa pss ds ir nm rn].
  cbn. intros -> ->. reflexivity.
Qed.

Lemma poid_close_by_irq_on_spec (h : host) (v : rtsl_var) :
  rtsl_variables.running v = true ->
  poid.pd (rtsl_variables.poid v) = false ->
  is_open W_psd v = false ->
  is_open W_poid v = true ->
  current_pid h <> 0 ->
  poid_values (snd (handle h (irq_enable 0) v))
  = [u64 (u64 (trace_clock_local h 0%nat) - delta_start W_poid v)].
Proof.
  destruct v as [ic [ppd pid ps pm] pa [pss psm] ds ir nm rn].
  unfold is_open, delta_start. cbn. intros -> -> Hp Ho Hpid.
  apply negb_false_iff in Hp. apply negb_true_iff in Ho.
  apply Z.eqb_neq in Hpid.
  mstep. rewrite ?Hp, ?Ho, ?Hpid. cbn.
  repeat (mcase; mstep; rewrite ?Hp, ?Ho, ?Hpid; cbn);
    dead Hp; dead Ho; dead Hpid; reflexivity.
Qed.

(** X11.  On a running CPU, outside any interrupt and outside PSD, the
    thread holding neither preemption nor interrupts disabled: a section
    with preemption off and one with interrupts off that overlap give one
    POID window, from the first disable (whose clock value is not 0) to the
    last enable (made by a task that is not the idle one); the inner
    disable does not restart it and the inner enable does not close it.
    With [preempt_disable] first this holds whatever start POID had before;
    with [irq_disable] first it holds when POID is closed before, since
    [irq_disable] does not restart an open POID. *)
Theorem overlapping_sections_make_one_poid :
  forall (h0 h1 h2 h3 : host) (v : rtsl_var),
    rtsl_variables.running v = true ->
    is_open W_irq v = false ->
    is_open W_psd v = false ->
    poid.pd (rtsl_variables.poid v) = false ->
    poid.id (rtsl_variables.poid v) = false ->
    current_pid h3 <> 0 ->
    u64 (trace_clock_local h0 0%nat) <> 0 ->
    let whole :=
      [u64 (u64 (trace_clock_local h3 0%nat)
            - u64 (trace_clock_local h0 0%nat))] in
    poid_values
      (snd (run [(h0, preempt_disable 0); (h1, irq_disable 0);
                 (h2, preempt_enable 0); (h3, irq_enable 0)] v)) = whole
    /\ (is_open W_poid v = false ->
        poid_values
          (snd (run [(h0, irq_disable 0); (h1, preempt_disable 0);
                     (h2, irq_enable 0); (h3, preempt_enable 0)] v)) = whole).
Proof.
  intros h0 h1 h2 h3 v Hr Hi Hp Hpd Hid Hpid Ht whole. subst whole.
  assert (Hi0 : irq.delta_start (rtsl_variables.irq v) = 0).
  { unfold is_open, delta_start in Hi.
    apply negb_false_iff, Z.eqb_eq in Hi. exact Hi. }
  apply Z.eqb_neq in Ht.
  split.
  - rewrite !run_cons. cbn [run fst snd].
    rewrite (thread_preempt_off_result h0 v Hr Hi), Hid. cbn [fst snd].
    set (v1 := rtsl_variables.set_poid _ v).
    assert (Ho1 : is_open W_poid v1 = true)
      by (unfold is_open; cbn; rewrite Ht; reflexivity).
    rewrite (thread_irq_off_result h1 v1 Hr Hp), Ho1. cbn [fst snd].
    set (v2 := rtsl_variables.set_poid _ v1).
    rewrite (thread_preempt_on_with_irqs_off h2 v2 Hr Hi eq_refl).
    cbn [fst snd].
    set (v3 := rtsl_variables.set_poid _ v2).
    cbn [app]. rewrite app_nil_r.
    rewrite (poid_close_by_irq_on_spec h3 v3 Hr eq_refl Hp Ho1 Hpid).
    reflexivity.
  - intros Ho. rewrite !run_cons. cbn [run fst snd].
    rewrite (thread_irq_off_result h0 v Hr Hp), Ho. cbn [fst snd].
    set (v1 := rtsl_variables.set_poid _ v).
    rewrite (thread_preempt_off_result h1 v1 Hr Hi). cbn [fst snd].
    change (poid.id (rtsl_variables.poid v1)) with true. cbv iota.
    set (v2 := rtsl_variables.set_poid _ v1).
    rewrite (thread_irq_on_with_preempt_off h2 v2 Hr eq_refl).
    cbn [fst snd].
    set (v3 := rtsl_variables.set_poid _ v2).
    assert (Hs3 : poid.delta_start (rtsl_variables.poid v3) <> 0)
      by (cbn; apply Z.eqb_neq; exact Ht).
    destruct (poid_close_spec h3 v3 Hr Hi0 eq_refl Hs3 Hpid) as [Hc _].
    cbn [app]. rewrite app_nil_r, Hc. reflexivity.
Qed.

(** The witness of X11.  After a pass through [schedule()], which
    leaves POID with a start of 1100: preemption is disabled at 5000,
    interrupts at 5100, preemption is enabled at 5500 and interrupts at
    5900.  On a CPU that has just started, with POID closed: interrupts are
    disabled at 1000, preemption at 1200, interrupts are enabled at 1500 and
    preemption at 1900. *)
Lemma overlapping_sections_make_one_poid_witness :
  poid_values
    (snd (run [(host_at 5000 8 false, preempt_disable 0);
               (host_at 5100 8 false, irq_disable 0);
               (host_at 5500 8 false, preempt_enable 0);
               (host_at 5900 8 false, irq_enable 0)] after_schedule))
  = [900]
  /\ poid_values
       (snd (run [(host_at 1000 7 false, irq_disable 0);
                  (host_at 1200 7 false, preempt_disable 0);
                  (host_at 1500 7 false, irq_enable 0);
                  (host_at 1900 7 false, preempt_enable 0)] running_reset))
     = [900].
Proof.
  split.
  - refine (eq_trans
              (proj1 (overlapping_sections_make_one_poid
                        (host_at 5000 8 false) (host_at 5100 8 false)
                        (host_at 5500 8 false) (host_at 5900 8 false)
                        after_schedule _ _ _ _ _ _ _)) _).
    + reflexivity.
    + reflexivity.
    + reflexivity.
    + reflexivity.
    + reflexivity.
    + vm_compute. discriminate.
    + vm_compute. discriminate.
    + vm_compute. reflexivity.
  - refine (eq_trans
              (proj2 (overlapping_sections_make_one_poid
                        (host_at 1000 7 false) (host_at 1200 7 false)
                        (host_at 1500 7 false) (host_at 1900 7 false)
                        running_reset _ _ _ _ _ _ _) _) _).
    + reflexivity.
    + reflexivity.
    + reflexivity.
    + reflexivity.
    + reflexivity.
    + vm_compute. discriminate.
    + vm_compute. discriminate.
    + reflexivity.
    + vm_compute. reflexivity.
Defined.



Lemma irq_vector_entry_result (h : host) (n : Z) (v : rtsl_var) :
  rtsl_variables.running v = true ->
  handle h (irq_vector_entry n) v
  = (rtsl_variables.set_int_counter
       (u64 (rtsl_variables.int_counter v + 1))
       (rtsl_variables.set_irq (irq.set_vector n (rtsl_variables.irq v)) v),
     [])
  /\ handle h (irq_handler_entry n) v = handle h (irq_vector_entry n) v.
Proof.
  destruct v as [ic po pa ps ds ir nm rn]. cbn. intros ->.
  split; reflexivity.
Qed.

Lemma irq_exit_record (h : host) (v : rtsl_var) :
  rtsl_variables.running v = true ->
  let r := handle h (irq_enable 1) v in
  snd r
  = [trace_irq_execution (irq.vector (rtsl_variables.irq v))
       (irq.arrival_time (rtsl_variables.irq v))
       (u64 (u64 (trace_clock_local h 0%nat)
             - irq.delta_start (rtsl_variables.irq v)))]
  /\ rtsl_variables.irq (fst r)
     = irq.mk (irq.arrival_time (rtsl_variables.irq v)) 0 0 0.
Proof.
  destruct v as [ic po pa ps ds [ia ist iw iv] nm rn]. cbn. intros ->.
  mrun; split; reflexivity.
Qed.

(** X13.  An interrupt is reported once, at its exit, with the vector (or
    IRQ number) named by the entry tracepoint seen meanwhile, the clock
    value of its arrival and its duration; the exit forgets the vector, so
    an interrupt that no entry tracepoint names is reported with vector
    0. *)
Theorem irq_is_reported_with_its_vector :
  forall (h_in h_named h_out h_in' h_out' : host) (n : Z) (by_number : bool)
         (v : rtsl_var),
    rtsl_variables.running v = true ->
    let named :=
      if by_number then irq_handler_entry n else irq_vector_entry n in
    let first := [(h_in, irq_disable 1); (h_named, named);
                  (h_out, irq_enable 1)] in
    let second := [(h_in', irq_disable 1); (h_out', irq_enable 1)] in
    snd (run first v)
    = [trace_irq_execution n (u64 (trace_clock_local h_in 0%nat))
         (u64 (u64 (trace_clock_local h_out 0%nat)
               - u64 (trace_clock_local h_in 1%nat)))]
    /\ snd (run second (fst (run first v)))
       = [trace_irq_execution 0 (u64 (trace_clock_local h_in' 0%nat))
            (u64 (u64 (trace_clock_local h_out' 0%nat)
                  - u64 (trace_clock_local h_in' 1%nat)))].
Proof.
  intros h_in h_named h_out h_in' h_out' n by_number v Hr named first second.
  assert (H1 : run first v
               = (fst (handle h_out (irq_enable 1)
                         (fst (handle h_named (irq_vector_entry n)
                                 (fst (handle h_in (irq_disable 1) v))))),
                  [trace_irq_execution n (u64 (trace_clock_local h_in 0%nat))
                     (u64 (u64 (trace_clock_local h_out 0%nat)
                           - u64 (trace_clock_local h_in 1%nat)))])).
  { subst first. rewrite !run_cons. cbn [run fst snd].
    rewrite (irq_entry_result h_in v Hr). cbn [fst snd app].
    set (v1 := rtsl_variables.set_irq _ v).
    assert (Hr1 : rtsl_variables.running v1 = true) by exact Hr.
    destruct (irq_vector_entry_result h_named n v1 Hr1) as [Hv Hsame].
    assert (Hnamed : handle h_named named v1
                     = handle h_named (irq_vector_entry n) v1)
      by (subst named; destruct by_number; [exact Hsame|reflexivity]).
    rewrite Hnamed, Hv. cbn [fst snd app].
    set (v2 := rtsl_variables.set_int_counter _ _).
    assert (Hr2 : rtsl_variables.running v2 = true) by exact Hr.
    destruct (irq_exit_record h_out v2 Hr2) as [R _].
    rewrite R, app_nil_r. reflexivity. }
  rewrite H1. cbn [fst snd]. split; [reflexivity|].
  set (v1 := fst (handle h_in (irq_disable 1) v)).
  assert (Hr1 : rtsl_variables.running v1 = true)
    by (apply handle_keeps_running; exact Hr).
  set (v2 := fst (handle h_named (irq_vector_entry n) v1)).
  assert (Hr2 : rtsl_variables.running v2 = true)
    by (apply handle_keeps_running; exact Hr1).
  destruct (irq_exit_record h_out v2 Hr2) as [_ Hirq].
  set (v3 := fst (handle h_out (irq_enable 1) v2)) in *.
  assert (Hr3 : rtsl_variables.running v3 = true)
    by (apply handle_keeps_running; exact Hr2).
  clearbody v3. subst second. rewrite !run_cons. cbn [run fst snd].
  rewrite (irq_entry_result h_in' v3 Hr3). cbn [fst snd app].
  set (v4 := rtsl_variables.set_irq _ v3).
  destruct (irq_exit_record h_out' v4 (Hr3 : rtsl_variables.running v4 = true))
    as [R _].
  rewrite R, app_nil_r. subst v4. cbn. rewrite Hirq. reflexivity.
Qed.

(** The witness of X13: scenario S2's interrupt. *)
Lemma irq_is_reported_with_its_vector_witness :
  snd (run [(host_at 1500 7 false, irq_disable 1);
            (host_at 1500 7 false, irq_vector_entry 42);
            (host_at 1800 7 false, irq_enable 1)] running_reset)
  = [trace_irq_execution 42 1500 300].
Proof.
  exact (proj1 (irq_is_reported_with_its_vector
                  (host_at 1500 7 false) (host_at 1500 7 false)
                  (host_at 1800 7 false) (host_at 0 0 false)
                  (host_at 0 0 false) 42 false running_reset eq_refl)).
Defined.

(** ** Looking tracepoints up and hooking them *)

Lemma fill_tp_by_name_fold (name : string) (l : list tracepoint) :
  forall priv : tp_and_name.t,
    tp_and_name.name priv = name ->
    let r := fold_left (fun priv ktp => fill_tp_by_name ktp priv) l priv in
    tp_and_name.name r = name
    /\ (forall ktp, tp_and_name.tp r = Some ktp ->
                    (In ktp l /\ tracepoint_name ktp = name)
                    \/ tp_and_name.tp priv = Some ktp)
    /\ (tp_and_name.tp r = None <->
        tp_and_name.tp priv = None
        /\ forall ktp, In ktp l -> tracepoint_name ktp <> name).
Proof.
  induction l as [|t l IH]; intros priv Hn; cbn [fold_left].
  - cbn. split; [exact Hn|]. split; [auto|]. split; [auto|tauto].
  - assert (Hn' : tp_and_name.name (fill_tp_by_name t priv) = name)
      by (unfold fill_tp_by_name; destruct (String.eqb _ _); exact Hn).
    assert (Hc : (tracepoint_name t = name
                  /\ tp_and_name.tp (fill_tp_by_name t priv) = Some t)
                 \/ (tracepoint_name t <> name
                     /\ tp_and_name.tp (fill_tp_by_name t priv)
                        = tp_and_name.tp priv)).
    { unfold fill_tp_by_name. rewrite Hn.
      destruct (String.eqb_spec (tracepoint_name t) name) as [Ht|Ht];
        [left|right]; split; auto. }
    destruct (IH _ Hn') as (H1 & H2 & H3). cbv zeta.
    split; [exact H1|].
    destruct Hc as [[Ht Hf]|[Ht Hf]]; rewrite Hf in H2, H3.
    + split.
      * intros ktp Hk. left. destruct (H2 ktp Hk) as [[Hi Hm]|Heq].
        -- split; [right; exact Hi|exact Hm].
        -- injection Heq as Heq. rewrite <- Heq.
           split; [left; reflexivity|exact Ht].
      * split.
        -- intros Hnone. apply H3 in Hnone as [Hd _]. discriminate.
        -- intros [_ Hall]. exfalso.
           apply (Hall t); [left; reflexivity|exact Ht].
    + split.
      * intros ktp Hk. destruct (H2 ktp Hk) as [[Hi Hm]|Heq].
        -- left. split; [right; exact Hi|exact Hm].
        -- right. exact Heq.
      * split.
        -- intros Hnone. apply H3 in Hnone as [Hp Hall]. split; [exact Hp|].
           intros ktp [Hk|Hi]; [rewrite <- Hk; exact Ht|auto].
        -- intros [Hp Hall]. apply H3. split; [exact Hp|].
           intros ktp Hi. apply Hall. right. exact Hi.
Qed.

(** X14.  [get_struct_tracepoint] returns a tracepoint of the kernel that
    bears the name asked for, and returns [NULL] exactly when the kernel
    has no tracepoint of that name. *)
Theorem get_struct_tracepoint_finds_by_name :
  forall (k : kernel) (name : string),
    (forall ktp, get_struct_tracepoint k name = Some ktp ->
                 In ktp (kernel_tracepoints k) /\ tracepoint_name ktp = name)
    /\ (get_struct_tracepoint k name = None <->
        forall ktp, In ktp (kernel_tracepoints k) ->
                    tracepoint_name ktp <> name).
Proof.
  intros k name. unfold get_struct_tracepoint.
  destruct (fill_tp_by_name_fold name (kernel_tracepoints k)
              (tp_and_name.mk None fn_handle_nmi_entry name 0) eq_refl)
    as (_ & H2 & H3).
  cbv zeta in *. split.
  - intros ktp Hk. destruct (H2 ktp Hk) as [H|H]; [exact H|discriminate].
  - rewrite H3. cbn. tauto.
Qed.

(** The witness of X14: the kernel without [irq_work_entry]. *)
Lemma get_struct_tracepoint_finds_by_name_witness :
  get_struct_tracepoint linux_lacking "irq_work_entry" = None
  /\ (forall ktp,
         get_struct_tracepoint linux_lacking "nmi_exit" = Some ktp ->
         tracepoint_name ktp = "nmi_exit"%string).
Proof.
  split.
  - apply (proj2 (get_struct_tracepoint_finds_by_name linux_lacking
                    "irq_work_entry")).
    intros ktp Hin. vm_compute in Hin.
    repeat (destruct Hin as [<-|Hin]; [discriminate|]). contradiction.
  - intros ktp H.
    exact (proj2 (proj1 (get_struct_tracepoint_finds_by_name linux_lacking
                           "nmi_exit") ktp H)).
Defined.

Lemma register_loop_ok (k : kernel) (todo : list tp_and_name.t) :
  registration_fails k todo = false ->
  register_loop k todo
  = (map (hooked k) todo, flat_map (register_call k) todo, true).
Proof.
  induction todo as [|e rest IH]; cbn [registration_fails existsb]; intros H;
    [reflexivity|].
  apply orb_false_iff in H as [He Hrest].
  cbn [register_loop map flat_map]. unfold register_call, hooked.
  cbn [tp_and_name.tp tp_and_name.set_tp tp_and_name.probe
         tp_and_name.set_registered].
  destruct (get_struct_tracepoint k (tp_and_name.name e)) as [ktp|];
    [|discriminate].
  rewrite He. rewrite (IH Hrest).
  apply negb_false_iff, Z.eqb_eq in He. rewrite He. reflexivity.
Qed.

Lemma enable_ok_state (k : kernel) (s : system) :
  registration_fails k (tps s) = false ->
  let s' := snd (rtsl_enable k s) in
  fst (rtsl_enable k s) = 0
  /\ global_rtsl_enable s' = 1
  /\ tps s' = map (hooked k) (tps s)
  /\ history s'
     = history s ++ map var_reset (cpu_online_mask k)
         ++ flat_map (register_call k) (tps s) ++ [atomic_set 1]
  /\ (forall cpu, In cpu (cpu_online_mask k) ->
                  per_cpu_rtsl_var s' cpu = rtsl_var_reset).
Proof.
  intros Hf.
  pose proof (for_each_reset_spec k (cpu_online_mask k) s) as H.
  cbv zeta in H. destruct H as (Hh & Hg & Ht & Hin & _).
  unfold rtsl_enable, register_tracepoints, rtsl_var_init_all,
    for_each_online_cpu.
  rewrite Ht, (register_loop_ok k (tps s) Hf). cbn.
  rewrite Hh, <- !app_assoc. repeat split; auto.
Qed.

(** X15.  When every entry of [tps] can be hooked, [rtsl_enable] returns
    0: it zeroes the variables of every online CPU, then registers the
    probe of every entry on the tracepoint of its name, in the order of the
    array, and only then sets the global flag; every entry is left with its
    tracepoint and [registered] set. *)
Theorem enable_hooks_every_entry_then_sets_the_flag :
  forall (k : kernel) (s : system),
    registration_fails k (tps s) = false ->
    let s' := snd (rtsl_enable k s) in
    fst (rtsl_enable k s) = 0
    /\ rtsl_enabled_in s' = true
    /\ steps_since s s'
       = map var_reset (cpu_online_mask k)
           ++ flat_map (register_call k) (tps s) ++ [atomic_set 1]
    /\ List.length (flat_map (register_call k) (tps s))
       = List.length (tps s)
    /\ Forall (fun e => tp_and_name.registered e = 1
                        /\ tp_and_name.tp e
                           = get_struct_tracepoint k (tp_and_name.name e)
                        /\ tp_and_name.tp e <> None)
         (tps s')
    /\ (forall cpu, In cpu (cpu_online_mask k) ->
                    per_cpu_rtsl_var s' cpu = rtsl_var_reset).
Proof.
  intros k s Hf s'.
  destruct (enable_ok_state k s Hf) as (Hr & Hg & Ht & Hh & Hc).
  fold s' in Hg, Ht, Hh, Hc.
  split; [exact Hr|]. split.
  { unfold rtsl_enabled_in. rewrite Hg. reflexivity. }
  split; [apply steps_since_app; exact Hh|]. split.
  { clear -Hf. induction (tps s) as [|e l IH]; [reflexivity|].
    cbn [registration_fails existsb] in Hf.
    apply orb_false_iff in Hf as [He Hl].
    cbn [flat_map]. rewrite length_app, (IH Hl). unfold register_call.
    destruct (get_struct_tracepoint k (tp_and_name.name e));
      [reflexivity|discriminate]. }
  split; [|exact Hc].
  rewrite Ht. apply Forall_forall. intros e He.
  apply in_map_iff in He as (e0 & <- & He0).
  unfold hooked. cbn. repeat split.
  intros Hnone.
  assert (Htrue : registration_fails k (tps s) = true).
  { apply existsb_exists. exists e0. split; [exact He0|].
    rewrite Hnone. reflexivity. }
  congruence.
Qed.

(** The witness of X15. *)
Lemma enable_hooks_every_entry_then_sets_the_flag_witness :
  fst (rtsl_enable linux_ok (module_loaded false)) = 0
  /\ rtsl_enabled_in module_enabled = true.
Proof.
  assert (Hf : registration_fails linux_ok (tps (module_loaded false)) = false)
    by (vm_compute; reflexivity).
  destruct (enable_hooks_every_entry_then_sets_the_flag linux_ok
              (module_loaded false) Hf) as (H1 & H2 & _).
  split; [exact H1|exact H2].
Defined.

(** ** Enable, disable and the control file, composed *)

Lemma disable_state (k : kernel) (s : system) :
  tps (rtsl_disable k s) = fst (unregister_tracepoints (tps s))
  /\ history (rtsl_disable k s)
     = history s ++ atomic_set 0 :: map var_reset (cpu_online_mask k)
         ++ unregister_calls (tps s)
  /\ global_rtsl_enable (rtsl_disable k s) = 0.
Proof.
  pose proof (for_each_reset_spec k (cpu_online_mask k)
                (set_global_rtsl_enable 0 s)) as H.
  cbv zeta in H. destruct H as (Hh & Hg & Ht & _).
  unfold rtsl_disable, unregister_tracepoints, rtsl_var_destroy_all,
    for_each_online_cpu.
  cbn [tps history global_rtsl_enable set_tps fst].
  rewrite Hh, Hg, Ht. cbn [tps history global_rtsl_enable set_global_rtsl_enable].
  rewrite <- !app_assoc. repeat split; reflexivity.
Qed.

Lemma unregister_calls_after_unregister (l : list tp_and_name.t) :
  unregister_calls (fst (unregister_tracepoints l)) = [].
Proof.
  unfold unregister_calls, unregister_tracepoints. cbn [fst].
  induction l as [|e l IH]; [reflexivity|].
  cbn [map filter].
  destruct (tp_and_name.registered e =? 0) eqn:E; cbn; rewrite ?E; cbn;
    exact IH.
Qed.

Lemma filter_none {A} (P : A -> bool) (l : list A) :
  (forall a, In a l -> P a = false) -> filter P l = [].
Proof.
  induction l as [|a l IH]; intros H; [reflexivity|].
  cbn. rewrite (H a (or_introl eq_refl)). apply IH.
  intros b Hb. apply H. right. exact Hb.
Qed.

Lemma filter_all {A} (P : A -> bool) (l : list A) :
  (forall a, In a l -> P a = true) -> filter P l = l.
Proof.
  induction l as [|a l IH]; intros H; [reflexivity|].
  cbn. rewrite (H a (or_introl eq_refl)). f_equal. apply IH.
  intros b Hb. apply H. right. exact Hb.
Qed.

Lemma register_call_kind (k : kernel) (l : list tp_and_name.t) (a : action) :
  In a (flat_map (register_call k) l) -> is_probe_register a = true.
Proof.
  intros H. apply in_flat_map in H as (e & _ & He).
  unfold register_call in He.
  destruct (get_struct_tracepoint k (tp_and_name.name e)); [|contradiction].
  destruct He as [<-|[]]. reflexivity.
Qed.

Lemma undo_register_calls (k : kernel) (l : list tp_and_name.t) :
  registration_fails k l = false ->
  map undo (flat_map (register_call k) l) = unregister_calls (map (hooked k) l).
Proof.
  unfold unregister_calls.
  induction l as [|e l IH]; cbn [registration_fails existsb]; intros H;
    [reflexivity|].
  apply orb_false_iff in H as [He Hl].
  cbn [flat_map map filter]. rewrite map_app, (IH Hl).
  unfold register_call, hooked at 1 2. cbn.
  destruct (get_struct_tracepoint k (tp_and_name.name e));
    [reflexivity|discriminate].
Qed.

(** X16.  Disabling after a successful enable undoes it: [rtsl_disable]
    unregisters exactly the probes [rtsl_enable] registered, from the same
    tracepoints and in the same order, and leaves the flag clear and no entry
    marked registered. *)
Theorem disable_unregisters_what_enable_registered :
  forall (k : kernel) (s : system),
    registration_fails k (tps s) = false ->
    let s1 := snd (rtsl_enable k s) in
    let s2 := rtsl_disable k s1 in
    filter is_probe_unregister (steps_since s1 s2)
    = map undo (filter is_probe_register (steps_since s s1))
    /\ List.length (filter is_probe_unregister (steps_since s1 s2))
       = List.length (tps s)
    /\ rtsl_enabled_in s2 = false
    /\ Forall (fun e => tp_and_name.registered e = 0) (tps s2).
Proof.
  intros k s Hf s1 s2.
  destruct (enable_ok_state k s Hf) as (_ & _ & Ht1 & Hh1 & _).
  fold s1 in Ht1, Hh1.
  destruct (disable_state k s1) as (Ht2 & Hh2 & Hg2). fold s2 in Ht2, Hh2, Hg2.
  rewrite (steps_since_app s s1 _ Hh1), (steps_since_app s1 s2 _ Hh2).
  assert (Hu : filter is_probe_unregister
                 (atomic_set 0 :: map var_reset (cpu_online_mask k)
                    ++ unregister_calls (tps s1))
               = unregister_calls (tps s1)).
  { cbn [filter is_probe_unregister]. rewrite filter_app.
    rewrite (filter_none is_probe_unregister (map var_reset _)).
    - apply filter_all. apply unregister_calls_kind.
    - intros a Ha. apply in_map_iff in Ha as (c & <- & _). reflexivity. }
  assert (Hg : filter is_probe_register
                 (map var_reset (cpu_online_mask k)
                    ++ flat_map (register_call k) (tps s) ++ [atomic_set 1])
               = flat_map (register_call k) (tps s)).
  { rewrite !filter_app.
    rewrite (filter_none is_probe_register (map var_reset _)).
    - cbn [filter is_probe_register app]. rewrite app_nil_r.
      apply filter_all. apply register_call_kind.
    - intros a Ha. apply in_map_iff in Ha as (c & <- & _). reflexivity. }
  rewrite Hu, Hg, Ht1, (undo_register_calls k (tps s) Hf).
  split; [reflexivity|]. split.
  { rewrite <- (undo_register_calls k (tps s) Hf), length_map.
    clear -Hf. induction (tps s) as [|e l IH]; [reflexivity|].
    cbn [registration_fails existsb] in Hf.
    apply orb_false_iff in Hf as [He Hl].
    cbn [flat_map]. rewrite length_app, (IH Hl). unfold register_call.
    destruct (get_struct_tracepoint k (tp_and_name.name e));
      [reflexivity|discriminate]. }
  split.
  { unfold rtsl_enabled_in. rewrite Hg2. reflexivity. }
  rewrite Ht2. unfold unregister_tracepoints. cbn [fst].
  apply Forall_forall. intros e He. apply in_map_iff in He as (e0 & <- & _).
  destruct (tp_and_name.registered e0 =? 0) eqn:E; cbn.
  - apply Z.eqb_eq. exact E.
  - reflexivity.
Qed.

(** The witness of X16. *)
Lemma disable_unregisters_what_enable_registered_witness :
  List.length
    (filter is_probe_unregister
       (steps_since module_enabled (rtsl_disable linux_ok module_enabled)))
  = 18%nat.
Proof.
  assert (Hf : registration_fails linux_ok (tps (module_loaded false)) = false)
    by (vm_compute; reflexivity).
  exact (proj1 (proj2 (disable_unregisters_what_enable_registered linux_ok
                         (module_loaded false) Hf))).
Defined.

(** X17.  A second [rtsl_disable] in a row unregisters nothing: it only
    clears the flag and zeroes the variables again. *)
Theorem second_disable_unregisters_nothing :
  forall (k : kernel) (s : system),
    let s1 := rtsl_disable k s in
    steps_since s1 (rtsl_disable k s1)
    = atomic_set 0 :: map var_reset (cpu_online_mask k).
Proof.
  intros k s s1.
  destruct (disable_state k s) as (Ht & _). fold s1 in Ht.
  destruct (disable_state k s1) as (_ & Hh & _).
  rewrite (steps_since_app s1 _ _ Hh), Ht, unregister_calls_after_unregister.
  rewrite app_nil_r. reflexivity.
Qed.

Lemma failed_enable_state (k : kernel) (s : system) :
  registration_fails k (tps s) = true ->
  let s' := snd (rtsl_enable k s) in
  exists calls : list action,
    fst (rtsl_enable k s) = - EINVAL
    /\ global_rtsl_enable s' = global_rtsl_enable s
    /\ (forall a, In a calls -> is_probe_register a = true)
    /\ history s'
       = history s ++ map var_reset (cpu_online_mask k) ++ calls
           ++ unregister_calls (tps s').
Proof.
  intros Hf.
  pose proof (for_each_reset_spec k (cpu_online_mask k) s) as H.
  cbv zeta in H. destruct H as (Hh & Hg & Ht & _ & _).
  pose proof (register_loop_spec k (tps s)) as L. cbv zeta in L.
  rewrite Hf in L. destruct L as (Hok & Hk & _).
  unfold rtsl_enable, register_tracepoints, rtsl_var_init_all,
    for_each_online_cpu. rewrite Ht.
  destruct (register_loop k (tps s)) as [[tps' calls] ok].
  cbn [fst snd negb] in *. subst ok.
  assert (Hne : negb (- EINVAL =? 0) = true) by reflexivity.
  rewrite Hne. cbn [fst snd]. exists calls. unfold set_tps.
  cbn [global_rtsl_enable history tps].
  rewrite Hh, <- !app_assoc. repeat split; auto.
Qed.

(** X18.  A failed [rtsl_enable] does not clear the [registered] marks of
    the entries it rolled back: an [rtsl_disable] that follows (the module's
    exit, [rtsl_destroy_interface], always ends with one) makes the same
    unregistration calls a second time. *)
Theorem disable_after_failed_enable_unregisters_again :
  forall (k : kernel) (i : interface) (s : system),
    registration_fails k (tps s) = true ->
    let s1 := snd (rtsl_enable k s) in
    let s2 := snd (rtsl_destroy_interface k i s1) in
    s2 = rtsl_disable k s1
    /\ filter is_probe_unregister (steps_since s1 s2)
       = filter is_probe_unregister (steps_since s s1)
    /\ filter is_probe_unregister (steps_since s s1)
       = unregister_calls (tps s1).
Proof.
  intros k i s Hf s1 s2. subst s2. cbn [rtsl_destroy_interface snd].
  split; [reflexivity|].
  destruct (failed_enable_state k s Hf) as (calls & _ & _ & Hk & Hh1).
  fold s1 in Hh1.
  destruct (disable_state k s1) as (_ & Hh2 & _).
  rewrite (steps_since_app s s1 _ Hh1), (steps_since_app s1 _ _ Hh2).
  cbn [filter is_probe_unregister]. rewrite !filter_app.
  rewrite (filter_none is_probe_unregister (map var_reset _)).
  2:{ intros a Ha. apply in_map_iff in Ha as (c & <- & _). reflexivity. }
  rewrite (filter_none is_probe_unregister calls).
  2:{ intros a Ha. apply Hk in Ha. destruct a; try discriminate. reflexivity. }
  cbn [app]. split; [reflexivity|].
  apply filter_all. apply unregister_calls_kind.
Qed.

(** The witness of X18: the kernel refuses the last probe, so seventeen
    probes and the refused one are unregistered twice. *)
Lemma disable_after_failed_enable_unregisters_again_witness :
  List.length
    (filter is_probe_unregister
       (steps_since (snd (rtsl_enable linux_refusing (module_loaded false)))
          (rtsl_disable linux_refusing
             (snd (rtsl_enable linux_refusing (module_loaded false))))))
  = 18%nat.
Proof.
  assert (Hf : registration_fails linux_refusing (tps (module_loaded false))
               = true) by (vm_compute; reflexivity).
  pose proof (disable_after_failed_enable_unregisters_again linux_refusing
                {| interface_lock := false; interface_root_dir := None;
                   interface_enable := None; debugfs := [] |}
                (module_loaded false) Hf) as (H0 & H1 & _).
  rewrite <- H0, H1. vm_compute. reflexivity.
Defined.

Lemma registration_fails_after_disable (k : kernel) (s : system) :
  registration_fails k (tps (rtsl_disable k s)) = registration_fails k (tps s).
Proof.
  destruct (disable_state k s) as (Ht & _). rewrite Ht. clear Ht.
  unfold unregister_tracepoints, registration_fails. cbn [fst].
  induction (tps s) as [|e l IH]; [reflexivity|].
  cbn [map existsb]. rewrite IH.
  destruct (negb (tp_and_name.registered e =? 0)); reflexivity.
Qed.

Lemma write_of_1 (k : kernel) (user_buf : list ascii) (count ppos : Z)
    (s : system) :
  1 <= count <= 3 ->
  let copy := simple_write_to_buffer k (repeat NUL 3) 2 ppos user_buf count in
  fst (fst copy) <> 0 ->
  nth 0 (snd (fst copy)) NUL = "1"%char ->
  rtsl_enable_write_data k user_buf count ppos s
  = (fst (fst copy), snd copy,
     snd (rtsl_enable k (if rtsl_enabled_in s then rtsl_disable k s else s))).
Proof.
  intros Hc copy Hr H1. unfold rtsl_enable_write_data.
  assert ((count <? 1) || (count >? 3) = false) as ->.
  { apply orb_false_iff. rewrite Z.gtb_ltb. split; apply Z.ltb_ge; lia. }
  change (3 - 1) with 2. fold copy.
  destruct copy as [[rv buf] pp]. cbn [fst snd] in *.
  apply Z.eqb_neq in Hr. rewrite Hr, H1, Ascii.eqb_refl.
  destruct (rtsl_enable k _). reflexivity.
Qed.

(** X19.  The write handler does not look at what [rtsl_enable] returns:
    when ['1'] is written and some entry of [tps] cannot be hooked, the
    write still returns what the copy returned (the number of bytes taken),
    not an error, and the module is left disabled. *)
Theorem write_of_1_hides_a_failed_enable :
  forall (k : kernel) (user_buf : list ascii) (count ppos : Z) (s : system),
    1 <= count <= 3 ->
    let copy :=
      simple_write_to_buffer k (repeat NUL 3) 2 ppos user_buf count in
    fst (fst copy) <> 0 ->
    nth 0 (snd (fst copy)) NUL = "1"%char ->
    registration_fails k (tps s) = true ->
    let res := rtsl_enable_write_data k user_buf count ppos s in
    fst (fst res) = fst (fst copy)
    /\ rtsl_enabled_in (snd res) = false.
Proof.
  intros k user_buf count ppos s Hc copy Hr H1 Hf res. subst res.
  rewrite (write_of_1 k user_buf count ppos s Hc Hr H1). cbn [fst snd].
  split; [reflexivity|].
  unfold rtsl_enabled_in.
  destruct (negb (global_rtsl_enable s =? 0)) eqn:He.
  - assert (Hf' : registration_fails k (tps (rtsl_disable k s)) = true)
      by (rewrite registration_fails_after_disable; exact Hf).
    destruct (failed_enable_state k _ Hf') as (_ & _ & Hg & _).
    rewrite Hg. destruct (disable_state k s) as (_ & _ & H0).
    rewrite H0. reflexivity.
  - destruct (failed_enable_state k _ Hf) as (_ & _ & Hg & _).
    rewrite Hg. exact He.
Qed.

(** The witness of X19: ["1\n"] written to the loaded module on the
    kernel that refuses a probe returns 2. *)
Lemma write_of_1_hides_a_failed_enable_witness :
  fst (fst (rtsl_enable_write_data linux_refusing ["1"; LF]%char 2 0
              (module_loaded false))) = 2
  /\ rtsl_enabled_in
       (snd (rtsl_enable_write_data linux_refusing ["1"; LF]%char 2 0
               (module_loaded false))) = false.
Proof.
  apply (write_of_1_hides_a_failed_enable linux_refusing ["1"; LF]%char 2 0
           (module_loaded false)).
  - lia.
  - vm_compute. discriminate.
  - reflexivity.
  - vm_compute. reflexivity.
Defined.

(** X20.  Writing ['1'] when every entry of [tps] can be hooked leaves
    the module enabled and the variables of every online CPU zeroed,
    whatever they held and whether or not the module was enabled before: a
    write of ['1'] to an enabled module resets every maximum. *)
Theorem write_of_1_enables_and_resets :
  forall (k : kernel) (user_buf : list ascii) (count ppos : Z) (s : system),
    1 <= count <= 3 ->
    let copy :=
      simple_write_to_buffer k (repeat NUL 3) 2 ppos user_buf count in
    fst (fst copy) <> 0 ->
    nth 0 (snd (fst copy)) NUL = "1"%char ->
    registration_fails k (tps s) = false ->
    let s' := snd (rtsl_enable_write_data k user_buf count ppos s) in
    rtsl_enabled_in s' = true
    /\ (forall cpu, In cpu (cpu_online_mask k) ->
                    per_cpu_rtsl_var s' cpu = rtsl_var_reset)
    /\ (forall cpu (m : max_kind),
           In cpu (cpu_online_mask k) ->
           max_of m (per_cpu_rtsl_var s' cpu) = 0).
Proof.
  intros k user_buf count ppos s Hc copy Hr H1 Hf s'. subst s'.
  rewrite (write_of_1 k user_buf count ppos s Hc Hr H1). cbn [fst snd].
  assert (Hf' : registration_fails k
                  (tps (if rtsl_enabled_in s then rtsl_disable k s else s))
                = false).
  { destruct (rtsl_enabled_in s);
      [rewrite registration_fails_after_disable|]; exact Hf. }
  destruct (enable_ok_state k _ Hf') as (_ & Hg & _ & _ & Hz).
  split; [unfold rtsl_enabled_in at 1; rewrite Hg; reflexivity|].
  split; [exact Hz|].
  intros cpu m Hin. rewrite (Hz cpu Hin). destruct m; reflexivity.
Qed.

(** The witness of X20. *)
Lemma write_of_1_enables_and_resets_witness :
  rtsl_enabled_in
    (snd (rtsl_enable_write_data linux_ok ["1"; LF]%char 2 0 module_enabled))
  = true.
Proof.
  apply (write_of_1_enables_and_resets linux_ok ["1"; LF]%char 2 0
           module_enabled).
  - lia.
  - vm_compute. discriminate.
  - reflexivity.
  - vm_compute. reflexivity.
Defined.

(** ** The module's init and exit *)

(** X21.  [rtsl_init_interface] returns with [interface_lock] still held
    exactly when the directory cannot be created (that path returns before
    [mutex_unlock]); it returns 0 when both entries are created and
    [-ENOMEM] otherwise; when only the file cannot be created the directory
    is removed again, though [interface_root_dir] keeps pointing to it. *)
Theorem init_interface_error_paths :
  forall (dir_ok file_ok : bool) (i : interface),
    let r := rtsl_init_interface dir_ok file_ok i in
    interface_lock (snd r) = negb dir_ok
    /\ fst r = (if dir_ok && file_ok then 0 else - ENOMEM)
    /\ (dir_ok = true -> file_ok = false ->
        ~ In {| dentry_name := "rtsl" |} (debugfs (snd r))
        /\ interface_root_dir (snd r) = Some {| dentry_name := "rtsl" |}
        /\ interface_enable (snd r) = None).
Proof.
  intros dir_ok file_ok i.
  destruct dir_ok, file_ok; cbn;
    (split; [reflexivity|]; split; [reflexivity|]);
    intros Hd Hf; try discriminate.
  split; [|split; reflexivity].
  intros Hin. apply filter_In in Hin as [_ Hn]. discriminate.
Qed.

(** The witness of X21. *)
Lemma init_interface_error_paths_witness :
  ~ In {| dentry_name := "rtsl" |}
      (debugfs (snd (rtsl_init_interface true false
                       {| interface_lock := false;
                          interface_root_dir := None;
                          interface_enable := None;
                          debugfs := [] |}))).
Proof.
  exact (proj1 (proj2 (proj2 (init_interface_error_paths true false _))
                 eq_refl eq_refl)).
Defined.

Lemma sched_enable_spec (h : host) (v : rtsl_var) :
  rtsl_variables.running v = true ->
  let r := handle h (preempt_enable 1) v in
  rtsl_variables.running (fst r) = true
  /\ rtsl_variables.irq (fst r) = rtsl_variables.irq v
  /\ rtsl_variables.poid (fst r) = rtsl_variables.poid v
  /\ is_open W_psd (fst r) = false
  /\ is_open W_dst (fst r) = false.
Proof.
  destruct v as [ic po pa [pss psm] [dp dss dsm] ir nm rn].
  cbn. intros ->. mrun; repeat split; try reflexivity; assumption.
Qed.

(** X22.  [trace_preempt_switch_not_sched], outside an NMI, fires
    [preempt_enable(1)] and then [preempt_disable(0)].  On a running CPU
    inside PSD (no interrupt running, interrupts not disabled by the
    thread, DST not open) this closes PSD, with its [psd] record, and
    opens POID at the clock read of the second handler with preemption
    marked disabled. *)
Theorem switch_not_sched_hands_psd_over_to_poid :
  forall (h_on h_off : host) (v : rtsl_var),
    rtsl_variables.running v = true ->
    is_open W_irq v = false ->
    is_open W_dst v = false ->
    poid.id (rtsl_variables.poid v) = false ->
    let r :=
      run (combine [h_on; h_off]
             (fired (trace_preempt_switch_not_sched false))) v in
    psd_values (snd r)
    = [u64 (u64 (trace_clock_local h_on 0%nat) - delta_start W_psd v)]
    /\ is_open W_psd (fst r) = false
    /\ poid.pd (rtsl_variables.poid (fst r)) = true
    /\ delta_start W_poid (fst r) = u64 (trace_clock_local h_off 0%nat)
    /\ fired (trace_preempt_switch_not_sched true) = [].
Proof.
  intros h0 h1 v Hr Hi Hd Hid r. subst r.
  change (combine [h0; h1] (fired (trace_preempt_switch_not_sched false)))
    with [(h0, preempt_enable 1); (h1, preempt_disable 0)].
  rewrite !run_cons. cbn [run fst snd]. rewrite app_nil_r.
  pose proof (sched_exit_emits h0 1 v ltac:(lia) Hr) as R0.
  destruct (sched_enable_spec h0 v Hr) as (Hr0 & Hi0 & Hp0 & Hc0 & _).
  set (v0 := fst (handle h0 (preempt_enable 1) v)) in *.
  assert (Hi0' : is_open W_irq v0 = false)
    by (unfold is_open, delta_start in *; rewrite Hi0; exact Hi).
  rewrite (thread_preempt_off_result h1 v0 Hr0 Hi0'), Hp0, Hid.
  cbn [fst snd]. rewrite app_nil_r, R0.
  unfold sched_exit_records. rewrite Hd. cbn [app].
  split; [destruct (_ >? _); reflexivity|].
  split; [exact Hc0|]. repeat split.
Qed.

(** The witness of X22. *)
Lemma switch_not_sched_hands_psd_over_to_poid_witness :
  psd_values
    (snd (run (combine [host_at 1600 7 false; host_at 1600 7 false]
                 (fired (trace_preempt_switch_not_sched false)))
            (fst (handle (host_at 1000 7 false) (preempt_disable 1)
                    running_reset))))
  = [600].
Proof.
  refine (eq_trans
            (proj1 (switch_not_sched_hands_psd_over_to_poid
                      (host_at 1600 7 false) (host_at 1600 7 false)
                      (fst (handle (host_at 1000 7 false) (preempt_disable 1)
                              running_reset))
                      _ _ _ _)) _).
  - reflexivity.
  - reflexivity.
  - reflexivity.
  - reflexivity.
  - vm_compute. reflexivity.
Defined.

(** ** Interference removal, for every thread-side window *)









(** ** The control file, by the bytes written *)

(** At offset 0 the libfs copy takes the bytes written, two at most. *)
Lemma libfs_write_at_offset_0 (c : ascii) (rest : list ascii) (count : Z) :
  1 <= count <= 3 ->
  let n := Z.min (Z.min count 2) (Z.of_nat (List.length (c :: rest))) in
  libfs_simple_write_to_buffer (repeat NUL 3) 2 0 (c :: rest) count
  = (n,
     firstn (Z.to_nat n) (c :: rest) ++ skipn (Z.to_nat n) (repeat NUL 3),
     n)
  /\ 1 <= n.
Proof.
  intros H. unfold libfs_simple_write_to_buffer. cbn [Z.ltb Z.compare].
  assert ((0 >=? 2) || (count =? 0) = false) as ->.
  { apply orb_false_iff. split; [reflexivity|]. apply Z.eqb_neq. lia. }
  cbv zeta. rewrite Z.sub_0_r.
  set (n := Z.min count 2).
  set (m := Z.min n (Z.of_nat (List.length (c :: rest)))).
  assert (Hm : 1 <= m <= 2).
  { subst m n. cbn [List.length]. lia. }
  assert ((n - m =? n) = false) as -> by (apply Z.eqb_neq; lia).
  replace (n - (n - m)) with m by lia.
  split; [reflexivity|lia].
Qed.

(** At the end of the two bytes the handler offers, or past it, the libfs
    copy takes nothing. *)
Lemma libfs_write_past_the_buffer (to from : list ascii) (count ppos : Z) :
  2 <= ppos ->
  libfs_simple_write_to_buffer to 2 ppos from count = (0, to, ppos).
Proof.
  intros H. unfold libfs_simple_write_to_buffer.
  assert ((ppos <? 0) = false) as -> by (apply Z.ltb_ge; lia).
  assert ((ppos >=? 2) = true) as -> by (apply Z.geb_le; lia).
  reflexivity.
Qed.

(** At offset 1 the libfs copy leaves [buf[0]] as it was zeroed, and
    does not return 0. *)
Lemma libfs_write_at_offset_1 (from : list ascii) (count : Z) :
  1 <= count <= 3 ->
  let copy := libfs_simple_write_to_buffer (repeat NUL 3) 2 1 from count in
  fst (fst copy) <> 0 /\ nth 0 (snd (fst copy)) NUL = NUL.
Proof.
  intros H. unfold libfs_simple_write_to_buffer. cbn [Z.ltb Z.compare].
  assert ((1 >=? 2) || (count =? 0) = false) as ->.
  { apply orb_false_iff. split; [reflexivity|]. apply Z.eqb_neq. lia. }
  cbv zeta. change (2 - 1) with 1.
  replace (Z.min count 1) with 1 by lia.
  destruct from as [|c rest].
  - cbn. split; [discriminate|reflexivity].
  - replace (Z.min 1 (Z.of_nat (List.length (c :: rest)))) with 1
      by (cbn [List.length]; lia).
    cbn. split; [discriminate|reflexivity].
Qed.

(** [rtsl_enable] registers after a disable what it registers before:
    the name and the probe of an entry stay. *)
Lemma register_calls_after_disable (k : kernel) (s : system) :
  flat_map (register_call k) (tps (rtsl_disable k s))
  = flat_map (register_call k) (tps s).
Proof.
  destruct (disable_state k s) as (Ht & _). rewrite Ht. clear Ht.
  unfold unregister_tracepoints. cbn [fst].
  induction (tps s) as [|e l IH]; [reflexivity|].
  cbn [map flat_map]. rewrite IH. f_equal.
  destruct (negb (tp_and_name.registered e =? 0)); reflexivity.
Qed.

(** The steps of a write that disables the module when it is enabled. *)
Lemma steps_of_disable_if_enabled (k : kernel) (s : system) :
  history (if rtsl_enabled_in s then rtsl_disable k s else s)
  = history s
      ++ (if rtsl_enabled_in s
          then atomic_set 0 :: map var_reset (cpu_online_mask k)
                 ++ unregister_calls (tps s)
          else []).
Proof.
  destruct (rtsl_enabled_in s).
  - exact (proj1 (proj2 (disable_state k s))).
  - rewrite app_nil_r. reflexivity.
Qed.

(** C4, as the code has it, on a kernel whose [simple_write_to_buffer]
    is the libfs one.  A write of fewer than 1 or more than 3 bytes returns
    [-EINVAL].  A write at an offset of 2 or more, from which no byte is
    copied, returns [-EFAULT]; a write at offset 1 returns [-EINVAL],
    [buf[0]] being still zero.  A write at offset 0 of bytes that can be
    read is decided by its first character [c], and [n] bytes of it are
    taken.  With ['1'], when every entry of [tps] can be hooked, the module
    is disabled first when it was enabled (the flag is cleared, the CPUs
    are zeroed, the probes are unregistered) and then enabled (the CPUs are
    zeroed, the probes are registered, the flag is set): it is enabled
    afterwards.  With ['0'] the module is disabled when it was enabled, and
    is disabled afterwards.  Any other character returns [-EINVAL].  A
    write that returns an error changes nothing. *)
Theorem enable_write_by_first_character :
  forall (tracepoints : list tracepoint)
         (register : tracepoint -> probe_fn -> Z) (cpus : list nat)
         (writable : Z) (user_buf : list ascii) (count ppos : Z) (s : system),
    let k := linux tracepoints register cpus writable in
    let res := rtsl_enable_write_data k user_buf count ppos s in
    let disabling :=
      if rtsl_enabled_in s
      then atomic_set 0 :: map var_reset cpus ++ unregister_calls (tps s)
      else [] in
    let enabling :=
      map var_reset cpus ++ flat_map (register_call k) (tps s)
        ++ [atomic_set 1] in
    (count < 1 \/ count > 3 -> res = (- EINVAL, ppos, s))
    /\ (1 <= count <= 3 -> 2 <= ppos -> res = (- EFAULT, ppos, s))
    /\ (1 <= count <= 3 -> ppos = 1 ->
        fst (fst res) = - EINVAL /\ snd res = s)
    /\ (forall (c : ascii) (rest : list ascii),
           1 <= count <= 3 -> ppos = 0 -> user_buf = c :: rest ->
           let n := Z.min (Z.min count 2) (Z.of_nat (List.length user_buf)) in
           (c = "1"%char -> registration_fails k (tps s) = false ->
            fst res = (n, n)
            /\ rtsl_enabled_in (snd res) = true
            /\ steps_since s (snd res) = disabling ++ enabling
            /\ (forall cpu, In cpu cpus ->
                            per_cpu_rtsl_var (snd res) cpu = rtsl_var_reset))
           /\ (c = "0"%char ->
               fst res = (n, n)
               /\ rtsl_enabled_in (snd res) = false
               /\ steps_since s (snd res) = disabling)
           /\ (c <> "1"%char -> c <> "0"%char -> res = (- EINVAL, n, s))).
Proof.
  intros tracepoints register cpus writable user_buf count ppos s k res
    disabling enabling.
  pose proof (enable_write_cases k user_buf count ppos s) as W.
  cbv zeta in W. fold res in W.
  change (simple_write_to_buffer k) with libfs_simple_write_to_buffer in W.
  destruct W as (W1 & W2 & _ & _ & W5 & W6).
  split; [exact W1|]. split; [|split].
  - intros Hc Hp.
    rewrite (libfs_write_past_the_buffer _ _ _ _ Hp) in W2.
    exact (W2 Hc eq_refl).
  - intros Hc ->.
    destruct (libfs_write_at_offset_1 user_buf count Hc) as [Hr H0].
    rewrite (W6 Hc Hr); [split; reflexivity| |]; rewrite H0; discriminate.
  - intros c rest Hc -> -> n.
    destruct (libfs_write_at_offset_0 c rest count Hc) as [Hcopy Hn].
    destruct (libfs_copies_first_character c rest count Hc) as [Hr Hb].
    fold n in Hcopy, Hn.
    pose proof Hb as Hb'. rewrite Hcopy in Hb'. cbn [fst snd] in Hb'.
    split; [|split].
    + intros -> Hf. subst res.
      rewrite (write_of_1 k ("1"%char :: rest) count 0 s Hc Hr Hb).
      change (simple_write_to_buffer k) with libfs_simple_write_to_buffer.
      rewrite Hcopy. cbn [fst snd].
      set (s1 := if rtsl_enabled_in s then rtsl_disable k s else s).
      assert (Hf1 : registration_fails k (tps s1) = false).
      { subst s1. destruct (rtsl_enabled_in s);
          [rewrite registration_fails_after_disable|]; exact Hf. }
      assert (Hc1 : flat_map (register_call k) (tps s1)
                    = flat_map (register_call k) (tps s)).
      { subst s1. destruct (rtsl_enabled_in s);
          [apply register_calls_after_disable|reflexivity]. }
      destruct (enable_ok_state k s1 Hf1) as (_ & Hg & _ & Hh & Hz).
      split; [reflexivity|].
      split; [unfold rtsl_enabled_in at 1; rewrite Hg; reflexivity|].
      split; [|exact Hz].
      apply steps_since_app. rewrite Hh, Hc1. subst s1.
      rewrite (steps_of_disable_if_enabled k s), <- app_assoc. reflexivity.
    + intros ->.
      rewrite Hcopy in W5. cbn [fst snd] in W5.
      destruct (W5 Hc ltac:(lia) Hb') as [E He].
      rewrite E in He |- *. cbn [fst snd] in *.
      split; [reflexivity|]. split; [exact He|].
      apply steps_since_app. apply (steps_of_disable_if_enabled k s).
    + intros H1 H0.
      rewrite Hcopy in W6. cbn [fst snd] in W6.
      apply (W6 Hc ltac:(lia)); rewrite Hb'; assumption.
Qed.

(** The witness of C4, on the two-CPU kernel that accepts every probe:
    ["1\n"] written at offset 0 to the enabled module takes two bytes and
    leaves it enabled, after 21 steps of disabling and 21 of enabling. *)
Lemma enable_write_by_first_character_witness :
  fst (rtsl_enable_write_data linux_ok ["1"; LF]%char 2 0 module_enabled)
  = (2, 2)
  /\ rtsl_enabled_in
       (snd (rtsl_enable_write_data linux_ok ["1"; LF]%char 2 0
               module_enabled)) = true
  /\ List.length
       (steps_since module_enabled
          (snd (rtsl_enable_write_data linux_ok ["1"; LF]%char 2 0
                  module_enabled))) = 42%nat.
Proof.
  pose proof (enable_write_by_first_character all_tracepoints (fun _ _ => 0)
                [0%nat; 1%nat] 4096 ["1"; LF]%char 2 0 module_enabled) as W.
  cbv zeta in W. destruct W as (_ & _ & _ & W).
  destruct (W "1"%char [LF] ltac:(lia) eq_refl eq_refl) as [W1 _].
  destruct (W1 eq_refl eq_refl) as (H1 & H2 & H3 & _).
  split; [exact H1|]. split; [exact H2|].
  unfold linux_ok. rewrite H3. vm_compute. reflexivity.
Defined.

(** C4 fails as it is written.  The character the handler looks at is
    [buf[0]], which is the first character written only when the file
    offset is 0: ["1"] written at offset 1 returns [-EINVAL] and leaves the
    module as it was.  And the handler does not look at what [rtsl_enable]
    returns: on the kernel that refuses a probe, ["1\n"] written at offset 0
    returns 2 and the module is disabled afterwards. *)
Lemma write_of_1_does_not_always_enable :
  rtsl_enable_write_data linux_ok ["1"]%char 1 1 (module_loaded false)
  = (- EINVAL, 2, module_loaded false)
  /\ fst (rtsl_enable_write_data linux_refusing ["1"; LF]%char 2 0
            (module_loaded false)) = (2, 2)
  /\ rtsl_enabled_in
       (snd (rtsl_enable_write_data linux_refusing ["1"; LF]%char 2 0
               (module_loaded false))) = false.
Proof. repeat split; vm_compute; reflexivity. Qed.
